(** * peaks: 2D Gaussian peak fitting and tracking through an image stack

    A shallow embedding of [gauss2d.py], [stackanalysis.py] and the
    helpers [gauss_fit], [detrend] and [grid] of [utils.py].  Python
    integers are [Z], numpy's
    float64 values are IEEE-754 binary64 numbers ([spec_float] at precision
    53), arrays are a shape with a row-major buffer, dictionaries are
    [gmap string _], and a Python exception is the [Raise] branch of
    [result]. *)

From Stdlib Require Import SpecFloat.
From stdpp Require Import gmap strings list fin_maps.
From stdpp Require Import sorting.

Open Scope Z_scope.

(** ** Exceptions *)

(** The exception classes that occur in the modelled code. *)
Inductive exn : Set :=
  | ValueError
  | RuntimeError
  | OptimizeWarning
  | TypeError
  | KeyError
  | IndexError
  | OverflowError.

Inductive result (A : Type) : Type :=
  | Ok (a : A)
  | Raise (e : exn).
Arguments Ok {A} a.
Arguments Raise {A} e.

Definition bind {A B : Type} (r : result A) (k : A -> result B) : result B :=
  match r with
  | Ok a => k a
  | Raise e => Raise e
  end.

Notation "'let*' x ':=' r 'in' k" := (bind r (fun x => k))
  (at level 10, x pattern, r at level 100, k at level 200).

Definition is_ok {A : Type} (r : result A) : bool :=
  match r with Ok _ => true | Raise _ => false end.

(** ** numpy's float64 *)

Definition float : Set := spec_float.

Module F64.

Definition prec : Z := 53.
Definition emax : Z := 1024.

Definition nan : float := S754_nan.
Definition zero : float := S754_zero false.

Definition add : float -> float -> float := SFadd prec emax.
Definition sub : float -> float -> float := SFsub prec emax.
Definition mul : float -> float -> float := SFmul prec emax.
Definition div : float -> float -> float := SFdiv prec emax.
Definition sqrt : float -> float := SFsqrt prec emax.
Definition abs : float -> float := SFabs.
Definition neg : float -> float := SFopp.
Definition ltb : float -> float -> bool := SFltb.
Definition gtb (a b : float) : bool := SFltb b a.
Definition leb : float -> float -> bool := SFleb.
Definition eqb : float -> float -> bool := SFeqb.

(** A Python integer used in float arithmetic. *)
Definition of_Z (z : Z) : float := binary_normalize prec emax z 0 false.

Definition is_nan (x : float) : bool :=
  match x with S754_nan => true | _ => false end.

(** [np.isfinite] *)
Definition isfinite (x : float) : bool :=
  match x with
  | S754_zero _ | S754_finite _ _ _ => true
  | S754_infinity _ | S754_nan => false
  end.

(** [x ** n] for the small literal exponents of the source. *)
Fixpoint pow (x : float) (n : nat) : float :=
  match n with
  | O => of_Z 1
  | S O => x
  | S n' => mul x (pow x n')
  end.

(** [int(round(x))]: round half to even; [int] refuses NaN and the
    infinities. *)
Definition round_half_even (m : positive) (e : Z) : Z :=
  match e with
  | Z0 => Zpos m
  | Zpos p => Zpos m * 2 ^ Zpos p
  | Zneg p =>
      let d := 2 ^ Zpos p in
      let q := Zpos m / d in
      let r := Zpos m mod d in
      match 2 * r ?= d with
      | Lt => q
      | Gt => q + 1
      | Eq => if Z.even q then q else q + 1
      end
  end.

Definition int_round (x : float) : result Z :=
  match x with
  | S754_nan => Raise ValueError
  | S754_infinity _ => Raise OverflowError
  | S754_zero _ => Ok 0
  | S754_finite s m e =>
      Ok (if s then - round_half_even m e else round_half_even m e)
  end.

End F64.

Declare Scope f64_scope.
Delimit Scope f64_scope with f64.
Infix "+" := F64.add : f64_scope.
Infix "-" := F64.sub : f64_scope.
Infix "*" := F64.mul : f64_scope.
Infix "/" := F64.div : f64_scope.
Notation "- x" := (F64.neg x) : f64_scope.
Infix ">?" := F64.gtb : f64_scope.
Infix "<?" := F64.ltb : f64_scope.

(** ** numpy arrays *)

(** An array: its shape and its elements in row-major order. *)
Record ndarray : Set := { shape : list Z; flat : list float }.

Module np.

(** [a.max()]: numpy's maximum propagates NaN, and the reduction of an
    empty array has no identity. *)
Definition maximum (a b : float) : float :=
  if F64.leb b a || F64.is_nan a then a else b.

Definition minimum (a b : float) : float :=
  if F64.leb a b || F64.is_nan a then a else b.

Definition max (a : list float) : result float :=
  match a with
  | [] => Raise ValueError
  | x :: xs => Ok (fold_left maximum xs x)
  end.

Definition min (a : list float) : result float :=
  match a with
  | [] => Raise ValueError
  | x :: xs => Ok (fold_left minimum xs x)
  end.

(** [np.sum] accumulates from zero. *)
Definition sum (a : list float) : float :=
  fold_left F64.add a F64.zero.

(** [np.zeros_like(a)] *)
Definition zeros_like (a : list float) : list float :=
  map (fun _ => F64.zero) a.

(** [np.delete(a, idx)]: the elements whose position is not listed. *)
Definition delete (a : list float) (idx : list nat) : list float :=
  map snd (filter (fun p => negb (bool_decide (p.1 ∈ idx)))
                  (zip (seq 0 (length a)) a)).

(** [np.arange(n)] as floats. *)
Definition arange (n : Z) : list float :=
  map (fun k => F64.of_Z (Z.of_nat k)) (seq 0 (Z.to_nat n)).

(** [np.meshgrid(x, y)]: both results have shape (len y, len x). *)
Definition meshgrid (x y : list float) : ndarray * ndarray :=
  let sh := [Z.of_nat (length y); Z.of_nat (length x)] in
  ({| shape := sh; flat := concat (map (fun _ => x) y) |},
   {| shape := sh; flat := concat (map (fun yi => map (fun _ => yi) x) y) |}).

(** [a.argmax()]: the first position of the maximum, a NaN counting as
    the maximum. *)
Fixpoint argmax_from (best : float) (ibest i : Z) (a : list float) : Z :=
  match a with
  | [] => ibest
  | v :: a' =>
      if F64.ltb best v || (F64.is_nan v && negb (F64.is_nan best))
      then argmax_from v i (i + 1) a'
      else argmax_from best ibest (i + 1) a'
  end.

Definition argmax (a : list float) : result Z :=
  match a with
  | [] => Raise ValueError
  | v :: a' => Ok (argmax_from v 0 1 a')
  end.

(** [np.interp(x, xp, fp)] for a scalar [x]: linear interpolation between
    the sample points, constant outside them.  A value that comes out as
    NaN from the left end of its interval is computed again from the
    right end, and is the common value of the two ends when that is NaN
    as well. *)
Fixpoint interp_scan (x : float) (xp fp : list float) : float :=
  match xp, fp with
  | x0 :: ((x1 :: _) as xp'), y0 :: ((y1 :: _) as fp') =>
      if F64.ltb x x1 then
        if F64.eqb x0 x then y0
        else
          let slope := ((y1 - y0) / (x1 - x0))%f64 in
          let v := (slope * (x - x0) + y0)%f64 in
          if F64.is_nan v then
            let v' := (slope * (x - x1) + y1)%f64 in
            if F64.is_nan v' && F64.eqb y0 y1 then y0 else v'
          else v
      else interp_scan x xp' fp'
  | [_], [y0] => y0
  | _, _ => F64.nan
  end.

(** A single sample point is not interpolated: the result is its value
    whatever [x] is, a NaN included.  With more points a NaN [x] gives
    NaN. *)
Definition interp (x : float) (xp fp : list float) : result float :=
  match xp, fp with
  | [], _ => Raise ValueError
  | x0 :: _, y0 :: _ =>
      if negb (bool_decide (length xp = length fp)) then Raise ValueError
      else if bool_decide (length xp = 1%nat) then Ok y0
      else if F64.is_nan x then Ok x
      else if F64.ltb x x0 then Ok y0
      else if F64.ltb (List.last xp x0) x then Ok (List.last fp y0)
      else Ok (interp_scan x xp fp)
  | _, [] => Raise ValueError
  end.

(** [np.isfinite(a).all()] *)
Definition all_finite (a : list float) : bool :=
  forallb F64.isfinite a.

(** [a[i]] for a non-negative literal index. *)
Definition item (a : list float) (i : nat) : result float :=
  match a !! i with
  | Some v => Ok v
  | None => Raise IndexError
  end.

(** [a.shape[i]] *)
Definition dim (a : ndarray) (i : nat) : result Z :=
  match shape a !! i with
  | Some v => Ok v
  | None => Raise IndexError
  end.

(** [max(a.shape)] *)
Definition max_dim (a : ndarray) : result Z :=
  match shape a with
  | [] => Raise ValueError
  | d :: ds => Ok (fold_left Z.max ds d)
  end.

(** [np.prod(a.shape)] *)
Definition prod (sh : list Z) : Z := fold_left Z.mul sh 1.

(** [a + b] for two one-dimensional arrays: elementwise, an array of
    length 1 being stretched over the other; other pairs of lengths do not
    broadcast. *)
Definition add (a b : list float) : result (list float) :=
  if bool_decide (length a = length b) then Ok (zip_with F64.add a b)
  else
    match a, b with
    | [a0], _ => Ok (map (F64.add a0) b)
    | _, [b0] => Ok (map (fun ai => F64.add ai b0) a)
    | _, _ => Raise ValueError
    end.

(** [a.reshape(sh)]: the buffer is kept, the number of elements must
    agree. *)
Definition reshape (a : list float) (sh : list Z) : result ndarray :=
  if bool_decide (Z.of_nat (length a) = prod sh)
  then Ok {| shape := sh; flat := a |}
  else Raise ValueError.

End np.

(** ** The numerical libraries

    [np.exp] and the least-squares minimiser behind
    [scipy.optimize.curve_fit] are not part of the repository; the code is
    modelled over any implementation of them.  The minimiser receives the
    model as a function of the parameters, the data and the starting point.
    It either raises, or returns the optimum together with a flag telling
    that scipy issued an [OptimizeWarning] (the covariance of the parameters
    could not be estimated). *)
Class Numerics : Type := {
  np_exp : float -> float;
  minimize :
    (list float -> result (list float)) -> list float -> list float ->
    result (list float * bool)
}.

Section CurveFit.
Context `{Numerics}.

(** [curve_fit(f, xdata, ydata, p0)]: the model is evaluated at the
    starting point, so an exception of the model leaves [curve_fit]
    unchanged.  [escalate] tells whether the caller has set the warnings
    filter that turns [OptimizeWarning] into an exception. *)
Definition curve_fit {X : Type} (escalate : bool)
    (f : X -> list float -> result (list float))
    (xdata : X) (ydata : list float) (p0 : list float) : result (list float) :=
  let* _ := f xdata p0 in
  let* (popt, warned) := minimize (f xdata) ydata p0 in
  if warned && escalate then Raise OptimizeWarning else Ok popt.

End CurveFit.

(** Two implementations, used to run the model on concrete data: the
    exponential as a truncated power series, with a minimiser that never
    converges, and with one that accepts the starting point as the
    optimum. *)
Definition exp_series (x : float) : float :=
  foldr (fun k acc => (F64.of_Z 1 + x * acc / F64.of_Z (Z.of_nat k))%f64)
        (F64.of_Z 1) (seq 1 24).

Definition never_converges : Numerics :=
  {| np_exp := exp_series;
     minimize := fun _ _ _ => Raise RuntimeError |}.

Definition converges_at_start : Numerics :=
  {| np_exp := exp_series;
     minimize := fun _ _ p0 => Ok (p0, false) |}.

(** ** gauss2d.py *)

Inductive modeltype : Set := sym | norot | full.

Module Gauss2D.

(** Modelled from the spec: the field [error], an attribute that [fitPeak]
    reads and [gauss2d.py] does not define; it is the negation of the
    [succeeded] flag of a FitResult, set when the validation of a fit
    replaces the parameters by the zero vector. The other fields are the
    attributes that [__init__] sets: the data and the parameters saved by
    the methods. *)
Record t : Set := {
  _data : ndarray;
  _guess_params : option (list float);
  _opt_params : option (list float);
  error : bool
}.

(** [Gauss2D(data)] *)
Definition init (data : ndarray) : t :=
  {| _data := data; _guess_params := None; _opt_params := None;
     error := false |}.

(** Modelled from the spec: the attribute [opt_params], which [fitPeaks]
    reads and [gauss2d.py] does not define.  It is the parameter vector of
    a FitResult: the vector [optimize_params_ls] saves in [_opt_params].
    Before a fit the field holds [None], which [np.isfinite] refuses. *)
Definition opt_params (self : t) : result (list float) :=
  match _opt_params self with
  | Some popt => Ok popt
  | None => Raise TypeError
  end.

Section Model.
Context `{Numerics}.
Open Scope f64_scope.

Definition gauss2D (xdata_tuple : ndarray * ndarray)
    (amp mu0 mu1 sigma0 sigma1 rho offset : float) : result ndarray :=
  let '(x0, x1) := xdata_tuple in
  if bool_decide (shape x0 <> shape x1) then Raise ValueError
  else
    let two := F64.of_Z 2 in
    let one := F64.of_Z 1 in
    let z :=
      zip_with
        (fun a b =>
           F64.pow ((a - mu0) / sigma0) 2
           - two * rho * (a - mu0) * (b - mu1) / (sigma0 * sigma1)
           + F64.pow ((b - mu1) / sigma1) 2)
        (flat x0) (flat x1) in
    let g :=
      map (fun zi => offset + amp * np_exp (- zi / (two * (one - F64.pow rho 2))))
          z in
    Ok {| shape := shape x0; flat := g |}.

Definition gauss2D_norot (xdata_tuple : ndarray * ndarray)
    (amp x0 y0 sigma_x sigma_y offset : float) : result ndarray :=
  gauss2D xdata_tuple amp x0 y0 sigma_x sigma_y F64.zero offset.

Definition gauss2D_sym (xdata_tuple : ndarray * ndarray)
    (amp x0 y0 sigma_x offset : float) : result ndarray :=
  gauss2D_norot xdata_tuple amp x0 y0 sigma_x sigma_x offset.

(** [model(xdata_tuple, *args)] *)
Definition model (xdata_tuple : ndarray * ndarray) (args : list float)
  : result ndarray :=
  match args with
  | [amp; x0; y0; sigma_x; offset] =>
      gauss2D_sym xdata_tuple amp x0 y0 sigma_x offset
  | [amp; x0; y0; sigma_x; sigma_y; offset] =>
      gauss2D_norot xdata_tuple amp x0 y0 sigma_x sigma_y offset
  | [amp; mu0; mu1; sigma0; sigma1; rho; offset] =>
      gauss2D xdata_tuple amp mu0 mu1 sigma0 sigma1 rho offset
  | _ => Raise ValueError
  end.

Definition model_ravel (xdata_tuple : ndarray * ndarray) (args : list float)
  : result (list float) :=
  let* g := model xdata_tuple args in Ok (flat g).

End Model.

(** [skimage.measure.moments(data, 2)]: the raster moments of a 2D image,
    [M[p, q]] being the sum over the pixels of [data[r, c] * r**q * c**p],
    accumulated in row-major order. *)
Definition moment (h w : Z) (pix : list float) (p q : nat) : float :=
  fold_left
    (fun acc rc =>
       let '(r, c) := rc in
       let val := nth (Z.to_nat (r * w + c)) pix F64.nan in
       (acc + val * F64.pow (F64.of_Z r) q * F64.pow (F64.of_Z c) p)%f64)
    (r ← map Z.of_nat (seq 0 (Z.to_nat h));
     c ← map Z.of_nat (seq 0 (Z.to_nat w));
     [(r, c)])
    F64.zero.

Definition moments (data : ndarray) : result (nat -> nat -> float) :=
  match shape data with
  | [h; w] => Ok (moment h w (flat data))
  | _ => Raise ValueError
  end.

Section Fit.
Context `{Numerics}.
Open Scope f64_scope.

(** [estimate_params(self)] *)
Definition estimate_params (self : t) : result (t * list float) :=
  let data := _data self in
  let* M := moments data in
  let xbar := M 1%nat 0%nat / M 0%nat 0%nat in
  let ybar := M 0%nat 1%nat / M 0%nat 0%nat in
  let xvar := M 2%nat 0%nat / M 0%nat 0%nat - F64.pow xbar 2 in
  let yvar := M 0%nat 2%nat / M 0%nat 0%nat - F64.pow ybar 2 in
  let covar := M 1%nat 1%nat / M 0%nat 0%nat - xbar * ybar in
  let* amp := np.max (flat data) in
  let sigma_x := F64.sqrt (F64.abs xvar) in
  let sigma_y := F64.sqrt (F64.abs yvar) in
  let rho := covar / F64.sqrt (F64.abs (xvar * yvar)) in
  let* offset := np.min (flat data) in
  let params := [amp; xbar; ybar; sigma_x; sigma_y; rho; offset] in
  Ok ({| _data := _data self; _guess_params := Some params;
         _opt_params := _opt_params self; error := error self |},
      params).

(** The validation of the solver's result in [optimize_params_ls]: the
    [else] branch of the [try]. The boolean tells whether the
    parameters were replaced by zeros. *)
Definition check_widths (data : ndarray) (guess_params popt : list float)
  : result (list float * bool) :=
  let* max_s := np.max_dim data in
  let max_s := F64.of_Z max_s in
  if (Z.of_nat (length popt) <? 6)%Z then
    let* s3 := np.item popt 3 in
    if s3 >? max_s then Ok (np.zeros_like guess_params, true)
    else Ok (popt, false)
  else
    let* s3 := np.item popt 3 in
    if s3 >? max_s then Ok (np.zeros_like guess_params, true)
    else
      let* s4 := np.item popt 4 in
      if s4 >? max_s then Ok (np.zeros_like guess_params, true)
      else Ok (popt, false).

(** The first block of [optimize_params_ls]: the guess that is used,
    estimated from the data when none is given. *)
Definition starting_point (self : t)
    (guess_params : option (list float)) (mt : modeltype)
  : result (t * list float) :=
  match guess_params with
  | None =>
      let* (self, guess_params) := estimate_params self in
      Ok (self,
          match mt with
          | sym => np.delete guess_params [5%nat]
          | norot => np.delete guess_params [4%nat; 5%nat]
          | full => guess_params
          end)
  | Some g =>
      Ok ({| _data := _data self; _guess_params := Some g;
             _opt_params := _opt_params self; error := error self |},
          g)
  end.

(** The coordinates of the pixels: [np.meshgrid] of the column and row
    numbers. *)
Definition coordinates (data : ndarray) : result (ndarray * ndarray) :=
  let* ny := np.dim data 0 in
  let* nx := np.dim data 1 in
  let y := np.arange ny in
  let x := np.arange nx in
  Ok (np.meshgrid x y).

(** [optimize_params_ls(self, guess_params=None, modeltype='full')].
    A [modeltype] string other than ['sym'] and ['norot'] takes the path
    of ['full']. *)
Definition optimize_params_ls (self : t)
    (guess_params : option (list float)) (mt : modeltype)
  : result (t * list float) :=
  let* (self, guess_params) := starting_point self guess_params mt in
  let data := _data self in
  let* xy := coordinates data in
  let* (popt, failed) :=
    match curve_fit true model_ravel xy (flat data) guess_params with
    | Raise OptimizeWarning | Raise ValueError | Raise RuntimeError =>
        Ok (np.zeros_like guess_params, true)
    | Raise e => Raise e
    | Ok popt => check_widths data guess_params popt
    end in
  Ok ({| _data := data; _guess_params := _guess_params self;
         _opt_params := Some popt; error := failed |},
      popt).

End Fit.

End Gauss2D.

(** ** Dictionaries of fit coefficients *)

(** A value held by a dictionary of fit coefficients: a numpy float, or a
    Python integer (the slice number). *)
Inductive pyval : Set :=
  | PyFloat (f : float)
  | PyInt (z : Z).

Module Py.

Definition as_float (v : pyval) : float :=
  match v with PyFloat f => f | PyInt z => F64.of_Z z end.

(** [v - z] and [v + z] for an integer [z]. *)
Definition sub_int (v : pyval) (z : Z) : pyval :=
  match v with
  | PyFloat f => PyFloat (f - F64.of_Z z)%f64
  | PyInt i => PyInt (i - z)
  end.

Definition add_int (v : pyval) (z : Z) : pyval :=
  match v with
  | PyFloat f => PyFloat (f + F64.of_Z z)%f64
  | PyInt i => PyInt (i + z)
  end.

(** [int(round(v))] *)
Definition int_round (v : pyval) : result Z :=
  match v with
  | PyFloat f => F64.int_round f
  | PyInt i => Ok i
  end.

(** [d[k]] *)
Definition getitem (d : gmap string pyval) (k : string) : result pyval :=
  match d !! k with
  | Some v => Ok v
  | None => Raise KeyError
  end.

(** [d[k] -= z] and [d[k] += z] *)
Definition isub (d : gmap string pyval) (k : string) (z : Z)
  : result (gmap string pyval) :=
  let* v := getitem d k in Ok (<[k := sub_int v z]> d).

Definition iadd (d : gmap string pyval) (k : string) (z : Z)
  : result (gmap string pyval) :=
  let* v := getitem d k in Ok (<[k := add_int v z]> d).

End Py.

(** The keys of a dictionary of fit coefficients, in the order of the
    model's arguments. *)
Definition param_keys : list string :=
  ["amp"; "x0"; "y0"; "sigma_x"; "sigma_y"; "rho"; "offset"]%string.

(** Modelled from the spec: [Gauss2D.opt_params_dict], which [fitPeak] and
    [fitPeaks] call and [gauss2d.py] does not define. The optimised
    parameters of the symmetric (5), axis-aligned (6) or full (7) variant,
    keyed by the names of the model's arguments. *)
Definition opt_params_dict (self : Gauss2D.t) : result (gmap string pyval) :=
  match Gauss2D._opt_params self with
  | None => Raise TypeError
  | Some popt =>
      let keys :=
        match length popt with
        | 5%nat => Ok ["amp"; "x0"; "y0"; "sigma_x"; "offset"]%string
        | 6%nat => Ok ["amp"; "x0"; "y0"; "sigma_x"; "sigma_y"; "offset"]%string
        | 7%nat => Ok param_keys
        | _ => Raise ValueError
        end in
      let* keys := keys in
      Ok (list_to_map (zip keys (map PyFloat popt)))
  end.

(** Modelled from the spec: the parameter vector of a guess passed as a
    dictionary, which [gauss2d.py] does not convert.  The coefficients
    present in the dictionary, in the order of the model's arguments; the
    variant is inferred from their number. *)
Definition guess_of_dict (d : gmap string pyval) : list float :=
  omap (fun k => Py.as_float <$> d !! k) param_keys.

(** ** Slices *)

(** [slice(start, stop)] with both bounds given and no step. *)
Record pyslice : Set := Slice { start : Z; stop : Z }.

(** How Python resolves one bound of a slice against a dimension of
    length [n]: a negative bound counts from the end, and the result is
    clipped to [0, n]. *)
Definition slice_bound (n v : Z) : Z :=
  if v <? 0 then Z.max (v + n) 0 else Z.min v n.

(** The indices selected by a slice on a dimension of length [n]. *)
Definition slice_indices (n : Z) (s : pyslice) : list Z :=
  let lo := slice_bound n (start s) in
  let hi := slice_bound n (stop s) in
  map (fun k => lo + Z.of_nat k) (seq 0 (Z.to_nat (hi - lo))).

(** ** The stack *)

(** A 3D stack, axes (depth, row, column), row-major. *)
Record Stack : Set := {
  zmax : Z;
  ymax : Z;
  xmax : Z;
  voxels : list float
}.

Definition voxel (stack : Stack) (z r c : Z) : float :=
  nth (Z.to_nat ((z * ymax stack + r) * xmax stack + c)) (voxels stack) F64.nan.

(** [stack[s, ys, xs]] for an integer [s] and two slices: a 2D window. An
    integer index outside [-zmax, zmax) is an [IndexError]. *)
Definition window (stack : Stack) (s : Z) (ys xs : pyslice) : result ndarray :=
  if (s <? - zmax stack) || (zmax stack <=? s) then Raise IndexError
  else
    let z := if s <? 0 then s + zmax stack else s in
    let rows := slice_indices (ymax stack) ys in
    let cols := slice_indices (xmax stack) xs in
    Ok {| shape := [Z.of_nat (length rows); Z.of_nat (length cols)];
          flat := r ← rows; c ← cols; [voxel stack z r c] |}.

(** ** stackanalysis.py *)

Module StackAnalyzer.

(** [StackAnalyzer.sliceMaker]: the row slice and the column slice of a
    window of the given width around [(y0, x0)]. *)
Definition sliceMaker (stack : Stack) (y0 x0 width : Z) : pyslice * pyslice :=
  let half1 := width / 2 in
  let half2 := width - half1 in
  let ystart := y0 - half1 in
  let xstart := x0 - half1 in
  let yend := y0 + half2 in
  let xend := x0 + half2 in
  let ystart := if ystart <? 0 then 0 else ystart in
  let xstart := if xstart <? 0 then 0 else xstart in
  let yend := if yend >=? ymax stack then ymax stack - 1 else yend in
  let xend := if xend >=? xmax stack then xmax stack - 1 else xend in
  (Slice ystart yend, Slice xstart xend).

(** The variables of the loop of [fitPeak]. *)
Record state : Set := {
  y0 : Z;
  x0 : Z;
  popt_d : gmap string pyval;
  toreturn : list (gmap string pyval)
}.

(** The model type [fitPeak] derives from the number of entries of the
    starting fit. *)
Definition modeltype_of (popt_d : gmap string pyval) : modeltype :=
  if decide (size popt_d = 6%nat) then norot
  else if decide (size popt_d = 5%nat) then sym
  else full.

Section Track.
Context `{Numerics}.

(** The two attempts of one slice: the fit from the carried guess and,
    when it reports an error, the fit without a guess. *)
Definition attempt (data : ndarray) (guess : gmap string pyval)
    (mt : modeltype) : result Gauss2D.t :=
  let fit := Gauss2D.init data in
  let* (fit, _) := Gauss2D.optimize_params_ls fit (Some (guess_of_dict guess)) full in
  if Gauss2D.error fit then
    let* (fit, _) := Gauss2D.optimize_params_ls fit None mt in Ok fit
  else Ok fit.

(** The body of the loop of [fitPeak] for the slice [s]. *)
Definition step (stack : Stack) (width : Z) (mt : modeltype)
    (st : state) (s : Z) : result state :=
  let myslice := sliceMaker stack (y0 st) (x0 st) width in
  let ystart := start (fst myslice) in
  let xstart := start (snd myslice) in
  let* data := window stack s (fst myslice) (snd myslice) in
  let* popt_d := Py.isub (popt_d st) "x0" xstart in
  let* popt_d := Py.isub popt_d "y0" ystart in
  let* fit := attempt data popt_d mt in
  if negb (Gauss2D.error fit) then
    let* popt_d := opt_params_dict fit in
    let* popt_d := Py.iadd popt_d "x0" xstart in
    let* popt_d := Py.iadd popt_d "y0" ystart in
    let popt_d := <["slice" := PyInt s]> popt_d in
    let* vy := Py.getitem popt_d "y0" in
    let* y0 := Py.int_round vy in
    let* vx := Py.getitem popt_d "x0" in
    let* x0 := Py.int_round vx in
    Ok {| y0 := y0; x0 := x0; popt_d := popt_d;
          toreturn := toreturn st ++ [popt_d] |}
  else
    let* bad_fit := opt_params_dict fit in
    let bad_fit := <["slice" := PyInt s]> bad_fit in
    Ok {| y0 := y0 st; x0 := x0 st; popt_d := popt_d;
          toreturn := toreturn st ++ [bad_fit] |}.

Fixpoint loop (stack : Stack) (width : Z) (mt : modeltype)
    (slices : list Z) (st : state) : result state :=
  match slices with
  | [] => Ok st
  | s :: slices =>
      let* st := step stack width mt st s in
      loop stack width mt slices st
  end.

(** The state before the first slice. *)
Definition initial (startingfit : gmap string pyval) : result state :=
  let popt_d := startingfit in
  let* vy := Py.getitem popt_d "y0" in
  let* y0 := Py.int_round vy in
  let* vx := Py.getitem popt_d "x0" in
  let* x0 := Py.int_round vx in
  Ok {| y0 := y0; x0 := x0; popt_d := popt_d; toreturn := [] |}.

(** [StackAnalyzer.fitPeak(slices, width, startingfit)] *)
Definition fitPeak (stack : Stack) (slices : list Z) (width : Z)
    (startingfit : gmap string pyval) : result (list (gmap string pyval)) :=
  let* st := initial startingfit in
  let mt := modeltype_of (popt_d st) in
  let* st := loop stack width mt slices st in
  Ok (toreturn st).

End Track.

End StackAnalyzer.

(** ** The z-profile fit ([utils.gauss_fit], [PSFStackAnalyzer.gauss_fit]) *)

Module utils.

Section GaussFit.
Context `{Numerics}.
Open Scope f64_scope.

(** [nmoment(x, counts, c, n)] *)
Definition nmoment (x counts : list float) (c : float) (n : nat) : float :=
  np.sum (zip_with (fun xi ci => F64.pow (xi - c) n * ci) x counts)
  / np.sum counts.

(** [gauss_no_offset(x, amp, x0, sigma_x)]; called with another number
    of parameters it is a [TypeError]. *)
Definition gauss_no_offset (x : list float) (args : list float)
  : result (list float) :=
  match args with
  | [amp; x0; sigma_x] =>
      Ok (map (fun xi =>
                 amp * np_exp (- (F64.pow (xi - x0) 2)
                               / (F64.of_Z 2 * F64.pow sigma_x 2))) x)
  | _ => Raise TypeError
  end.

(** [gauss(x, amp, x0, sigma_x, offset)] *)
Definition gauss (x : list float) (args : list float)
  : result (list float) :=
  match args with
  | [amp; x0; sigma_x; offset] =>
      Ok (map (fun xi =>
                 amp * np_exp (- (F64.pow (xi - x0) 2)
                               / (F64.of_Z 2 * F64.pow sigma_x 2))
                 + offset) x)
  | _ => Raise TypeError
  end.

(** [np.insert(a, 3, v)] *)
Definition insert3 (a : list float) (v : float) : result (list float) :=
  if (3 <=? length a)%nat then Ok (take 3 a ++ v :: drop 3 a)
  else Raise IndexError.

(** The part of [gauss_fit] that precedes the [try]: the starting point
    [p0] and the data left by the trim. *)
Definition prepare (xdata ydata : list float)
    (trim guess_z : option float)
  : result (float * list float * list float * list float) :=
  let* offset := np.min ydata in
  let ydata_corr := map (fun y => y - offset) ydata in
  let x0 :=
    match guess_z with
    | None => nmoment xdata ydata_corr F64.zero 1
    | Some g => g
    end in
  let sigma_x := F64.sqrt (nmoment xdata ydata_corr x0 2) in
  let* amp := np.max ydata_corr in
  let p0 := [amp; x0; sigma_x; offset] in
  match trim with
  | None => Ok (offset, p0, xdata, ydata)
  | Some trim =>
      let args := map (fun xi => F64.abs (xi - x0) <? trim * sigma_x) xdata in
      let keep (l : list float) :=
        map snd (filter (fun p => p.1 = true) (zip args l)) in
      Ok (offset, p0, keep xdata, keep ydata)
  end.

(** The body of the [try]. *)
Definition solve (withoffset : bool) (offset : float)
    (p0 xdata ydata : list float) : result (list float) :=
  if withoffset then curve_fit false gauss xdata ydata p0
  else
    let* popt := curve_fit false gauss_no_offset xdata ydata (take 3 p0) in
    insert3 popt offset.

(** [gauss_fit(xdata, ydata, withoffset=True, trim=None, guess_z=None)] *)
Definition gauss_fit (xdata ydata : list float) (withoffset : bool)
    (trim guess_z : option float) : result (list float) :=
  let* (offset, p0, xdata, ydata) := prepare xdata ydata trim guess_z in
  match solve withoffset offset p0 xdata ydata with
  | Raise RuntimeError => Ok (map (fun p => p * F64.nan) p0)
  | r => r
  end.

End GaussFit.

(** *** [detrend]

    scikit-learn is not part of the repository; [detrend] is modelled
    over any implementation of the three calls it makes.  A RANSAC fit
    draws random samples, so the outcome of [clf.fit] is a function of
    the number of calls made before it. *)
Class Sklearn : Type := {
  regressor : Type;
  fit_transform : Z -> list (float * float) -> result (list (list float));
  ransac_fit : nat -> list (list float) -> list float -> result regressor;
  predict : regressor -> list (list float) -> result (list float)
}.

Section Detrend.
Context `{Sklearn}.

Definition ntries : nat := 10.

(** The loop [for i in range(ntries)] over the attempts that are left: a
    fit that returns leaves the loop, a ValueError is dropped unless the
    attempt is the last one, any other exception leaves [detrend].  The
    result is the fitted regressor, or nothing when the loop ends without
    a fit. *)
Fixpoint fit_with_retries (X_ : list (list float)) (vector : list float)
    (attempts : list nat) : result (option regressor) :=
  match attempts with
  | [] => Ok None
  | i :: attempts =>
      match ransac_fit i X_ vector with
      | Ok clf => Ok (Some clf)
      | Raise ValueError =>
          if (i =? ntries - 1)%nat then Raise ValueError
          else fit_with_retries X_ vector attempts
      | Raise e => Raise e
      end
  end.

(** [detrend(data, degree=1)].  A regressor that was never fitted refuses
    to predict (scikit-learn's NotFittedError is a ValueError). *)
Definition detrend (data : ndarray) (degree : Z)
  : result (ndarray * ndarray) :=
  let* nx := np.dim data 1 in
  let* ny := np.dim data 0 in
  let x := np.arange nx in
  let y := np.arange ny in
  let '(xx, yy) := np.meshgrid x y in
  let X := zip (flat xx) (flat yy) in
  let* X :=
    if bool_decide (Z.of_nat (length X) = np.prod (shape data)) then Ok X
    else Raise ValueError in
  let vector := flat data in
  let predict_points := X in
  let* X_ := fit_transform degree X in
  let* predict_ := fit_transform degree predict_points in
  let* clf := fit_with_retries X_ vector (seq 0 ntries) in
  match clf with
  | None => Raise ValueError
  | Some clf =>
      let* values := predict clf predict_ in
      let* background := np.reshape values (shape data) in
      let data_nb :=
        {| shape := shape data;
           flat := zip_with F64.sub (flat data) (flat background) |} in
      Ok (data_nb, background)
  end.

End Detrend.

(** *** [grid]

    [np.linspace] and [scipy.interpolate.griddata] are taken as given. *)
Class Gridding : Type := {
  linspace : float -> float -> Z -> result (list float);
  griddata :
    list float -> list float -> list float -> ndarray -> ndarray ->
    string -> result ndarray
}.

Section Grid.
Context `{Gridding}.

(** [grid(x, y, z, resX=1000, resY=1000, method='cubic')] for three
    one-dimensional arrays. *)
Definition grid (x y z : list float) (resX resY : Z) (method : string)
  : result (ndarray * ndarray * ndarray) :=
  let* xy := np.add x y in
  let* xyz := np.add xy z in
  if negb (np.all_finite xyz) then Raise ValueError
  else
    let* xlo := np.min x in
    let* xhi := np.max x in
    let* xi := linspace xlo xhi resX in
    let* ylo := np.min y in
    let* yhi := np.max y in
    let* yi := linspace ylo yhi resY in
    let '(X, Y) := np.meshgrid xi yi in
    let* Z := griddata x y z X Y method in
    Ok (X, Y, Z).

End Grid.

End utils.

(** ** The tables of pandas *)

Module pd.

(** A frame indexed by slice number: its column labels and, for every
    row, the label of the row and its entries. An entry a row does not
    have reads as NaN. *)
Record DataFrame : Type := {
  columns : gset string;
  rows : list (Z * gmap string float)
}.

Definition cell (row : gmap string float) (c : string) : float :=
  default F64.nan (row !! c).

(** [pd.DataFrame(records).set_index(index)]: the columns are the keys
    that occur in some record; a record without the index key, or with an
    index that is not an integer, is refused. *)
Definition entry (index : string) (r : gmap string pyval)
  : result (Z * gmap string float) :=
  match r !! index with
  | Some (PyInt z) => Ok (z, Py.as_float <$> delete index r)
  | Some (PyFloat _) => Raise TypeError
  | None => Raise KeyError
  end.

Fixpoint entries (index : string) (records : list (gmap string pyval))
  : result (list (Z * gmap string float)) :=
  match records with
  | [] => Ok []
  | r :: records =>
      let* e := entry index r in
      let* es := entries index records in
      Ok (e :: es)
  end.

Definition of_records (index : string) (records : list (gmap string pyval))
  : result DataFrame :=
  let* es := entries index records in
  Ok {| columns := ⋃ (map (fun e => dom e.2) es); rows := es |}.

(** [df[cols] = abs(df[cols])] *)
Definition abs_columns (cols : list string) (df : DataFrame)
  : result DataFrame :=
  if forallb (fun c => bool_decide (c ∈ columns df)) cols then
    Ok {| columns := columns df;
          rows :=
            map (fun e =>
                   (e.1, foldr (fun c row => <[c := F64.abs (cell row c)]> row)
                               e.2 cols))
                (rows df) |}
  else Raise KeyError.

(** [df.sort()]: the rows in the order of their labels. *)
Fixpoint insert_row (e : Z * gmap string float)
    (l : list (Z * gmap string float)) : list (Z * gmap string float) :=
  match l with
  | [] => [e]
  | e' :: l' => if e.1 <=? e'.1 then e :: l else e' :: insert_row e l'
  end.

Definition sort (df : DataFrame) : DataFrame :=
  {| columns := columns df;
     rows := foldr insert_row [] (rows df) |}.

(** [df.dropna()]: the rows with no NaN entry. *)
Definition dropna (df : DataFrame) : DataFrame :=
  {| columns := columns df;
     rows :=
       filter (fun e =>
                 forallb (fun c => negb (F64.is_nan (cell e.2 c)))
                         (elements (columns df)) = true)
              (rows df) |}.

(** [df.loc[slice(lo, hi)]]: the rows whose label lies between the
    bounds that are given, both included. *)
Definition loc (subrange : option Z * option Z) (df : DataFrame) : DataFrame :=
  {| columns := columns df;
     rows :=
       filter (fun e =>
                 (from_option (fun lo => lo <=? e.1) true subrange.1
                  && from_option (fun hi => e.1 <=? hi) true subrange.2) = true)
              (rows df) |}.

(** [df[c].values] *)
Definition column (df : DataFrame) (c : string) : result (list float) :=
  if bool_decide (c ∈ columns df) then Ok (map (fun e => cell e.2 c) (rows df))
  else Raise KeyError.

(** [df.index.values], as floats. *)
Definition index_values (df : DataFrame) : list float :=
  map (fun e => F64.of_Z e.1) (rows df).

End pd.

(** A detected blob: [(y, x, w, amp)]. *)
Record Blob : Set := {
  blob_y : Z;
  blob_x : Z;
  blob_w : float;
  blob_amp : float
}.

(** A row of the table of PSF parameters. *)
Record PSFParams : Set := {
  psf_z0 : float;
  psf_y0 : float;
  psf_x0 : float;
  psf_sigma_z : float;
  psf_sigma_y : float;
  psf_sigma_x : float;
  psf_SNR : float
}.

Module PSFStackAnalyzer.

Section Pipeline.
Context `{Numerics}.

(** The static method [gauss_fit] repeats [utils.gauss_fit] line by
    line. *)
Definition gauss_fit := utils.gauss_fit.

(** [substack.sum((1,2)).argmax()] for the sub-stack cut by two slices
    through every depth. *)
Definition brightest (stack : Stack) (ys xs : pyslice) : result Z :=
  let* sums :=
    foldr (fun z acc =>
             let* acc := acc in
             let* w := window stack (Z.of_nat z) ys xs in
             Ok (np.sum (flat w) :: acc))
          (Ok []) (seq 0 (Z.to_nat (zmax stack))) in
  np.argmax sums.

(** The body of the loop of [fitPeaks]: the table of one blob, or
    nothing when the blob is unfittable.

    Modelled from the spec: the seed's parameters are read through
    [Gauss2D.opt_params] and [opt_params_dict], which [gauss2d.py] does
    not define.  The two calls of [fitPeak] carry the keyword
    [quiet = True], which [fitPeak] hands on to [optimize_params_ls]; the
    method of [gauss2d.py] takes no such keyword.  It is read as a switch
    of the diagnostics that has no part in the fit, and the calls are
    modelled as the calls without it. *)
Definition fitBlob (stack : Stack) (fitwidth : Z) (mt : modeltype)
    (blob : Blob) : result (option pd.DataFrame) :=
  let y := blob_y blob in
  let x := blob_x blob in
  let myslice := StackAnalyzer.sliceMaker stack y x fitwidth in
  let ystart := start (fst myslice) in
  let xstart := start (snd myslice) in
  let* my_max := brightest stack (fst myslice) (snd myslice) in
  let* substack := window stack my_max (fst myslice) (snd myslice) in
  let max_z := Gauss2D.init substack in
  let* (max_z, _) := Gauss2D.optimize_params_ls max_z None mt in
  let* opt := Gauss2D.opt_params max_z in
  if np.all_finite opt then
    let* opt_params := opt_params_dict max_z in
    let opt_params := <["slice" := PyInt my_max]> opt_params in
    let* opt_params := Py.iadd opt_params "x0" xstart in
    let* opt_params := Py.iadd opt_params "y0" ystart in
    let peakfits := [opt_params] in
    let opt_params := delete "slice" opt_params in
    let forwardrange :=
      map (fun k => my_max + 1 + Z.of_nat k)
          (seq 0 (Z.to_nat (zmax stack - (my_max + 1)))) in
    let backwardrange :=
      rev (map Z.of_nat (seq 0 (Z.to_nat my_max))) in
    let* fwd := StackAnalyzer.fitPeak stack forwardrange fitwidth opt_params in
    let peakfits := peakfits ++ fwd in
    let* bwd := StackAnalyzer.fitPeak stack backwardrange fitwidth opt_params in
    let peakfits := peakfits ++ bwd in
    let* peakfits_df := pd.of_records "slice" peakfits in
    let* peakfits_df := pd.abs_columns ["sigma_x"; "sigma_y"]%string peakfits_df in
    Ok (Some (pd.sort peakfits_df))
  else Ok None.

(** [PSFStackAnalyzer.fitPeaks(fitwidth, modeltype)] over the blobs of
    the peak finder. *)
Fixpoint fitPeaks (stack : Stack) (blobs : list Blob) (fitwidth : Z)
    (mt : modeltype) : result (list pd.DataFrame) :=
  match blobs with
  | [] => Ok []
  | blob :: blobs =>
      let* fit := fitBlob stack fitwidth mt blob in
      let* fits := fitPeaks stack blobs fitwidth mt in
      Ok (match fit with Some df => df :: fits | None => fits end)
  end.

(** The body of the loop of [calc_psf_params]. *)
Definition psf_of_fit (subrange : option Z * option Z) (withoffset : bool)
    (trim guess_z : option float) (fit : pd.DataFrame) : result PSFParams :=
  let tempfit := pd.loc subrange (pd.dropna fit) in
  let z := pd.index_values tempfit in
  let* amp := pd.column tempfit "amp" in
  let* x := pd.column tempfit "x0" in
  let* y := pd.column tempfit "y0" in
  let* s_x := pd.column tempfit "sigma_x" in
  let* s_y := pd.column tempfit "sigma_y" in
  let* popt := gauss_fit z amp withoffset trim guess_z in
  match popt with
  | [famp; z0; sigma_z; offset] =>
      let* x0 := np.interp z0 z x in
      let* y0 := np.interp z0 z y in
      let* sigma_x := np.interp z0 z s_x in
      let* sigma_y := np.interp z0 z s_y in
      Ok {| psf_z0 := z0; psf_y0 := y0; psf_x0 := x0;
            psf_sigma_z := F64.abs sigma_z;
            psf_sigma_y := sigma_y; psf_sigma_x := sigma_x;
            psf_SNR := (famp / offset)%f64 |}
  | _ => Raise ValueError
  end.

(** [calc_psf_params(subrange, **kwargs)]: the table stored in
    [self.psf_params]. *)
Fixpoint calc_psf_params (fits : list pd.DataFrame)
    (subrange : option Z * option Z) (withoffset : bool)
    (trim guess_z : option float) : result (list PSFParams) :=
  match fits with
  | [] => Ok []
  | fit :: fits =>
      let* row := psf_of_fit subrange withoffset trim guess_z fit in
      let* rows := calc_psf_params fits subrange withoffset trim guess_z in
      Ok (row :: rows)
  end.

(** [fitPeaks] followed by [calc_psf_params]. *)
Definition pipeline (stack : Stack) (blobs : list Blob) (fitwidth : Z)
    (mt : modeltype) (subrange : option Z * option Z) (withoffset : bool)
    (trim guess_z : option float)
  : result (list pd.DataFrame * list PSFParams) :=
  let* fits := fitPeaks stack blobs fitwidth mt in
  let* psf := calc_psf_params fits subrange withoffset trim guess_z in
  Ok (fits, psf).

End Pipeline.

End PSFStackAnalyzer.

(** * The vocabulary of the properties *)

(** ** Windows *)

(** The requested halves of a window. *)
Definition half1 (width : Z) : Z := width / 2.
Definition half2 (width : Z) : Z := width - width / 2.

(** One axis of [sliceMaker]: both axes run the same code on their own
    center and dimension. *)
Definition axis (dim c width : Z) : pyslice :=
  Slice (if c - half1 width <? 0 then 0 else c - half1 width)
        (if c + half2 width >=? dim then dim - 1 else c + half2 width).

(** A bound is usable when it lies in [0, dim - 1]. *)
Definition in_bounds (dim v : Z) : Prop := 0 <= v <= dim - 1.

(** The number of pixels of the window that [sliceMaker] cuts around a
    center. *)
Definition window_pixels (stack : Stack) (width cy cx : Z) : nat :=
  let myslice := StackAnalyzer.sliceMaker stack cy cx width in
  (length (slice_indices (ymax stack) (fst myslice))
   * length (slice_indices (xmax stack) (snd myslice)))%nat.

(** A center is roomy when its window holds at least seven pixels, as
    many as the full model has parameters: a least-squares fit needs as
    many data points as it has unknowns. *)
Definition roomy (stack : Stack) (width cy cx : Z) : Prop :=
  (7 <= window_pixels stack width cy cx)%nat.

(** The center of a parameter vector, moved by the start of its window,
    rounds to a roomy pixel. *)
Definition recenter_ok (stack : Stack) (width ys xs : Z) (popt : list float)
  : Prop :=
  exists px py cy cx,
    popt !! 1%nat = Some px /\ popt !! 2%nat = Some py
    /\ F64.int_round (px + F64.of_Z xs)%f64 = Ok cx
    /\ F64.int_round (py + F64.of_Z ys)%f64 = Ok cy
    /\ roomy stack width cy cx.

(** ** Floats *)

(** The order of the numbers that are not NaN, read off their sign,
    exponent and mantissa. *)
Definition rank (x : float) : Z * Z * Z :=
  match x with
  | S754_infinity true => (-2, 0, 0)
  | S754_finite true m e => (-1, - e, - Z.pos m)
  | S754_zero _ | S754_nan => (0, 0, 0)
  | S754_finite false m e => (1, e, Z.pos m)
  | S754_infinity false => (2, 0, 0)
  end.

Definition lex_le (a b : Z * Z * Z) : Prop :=
  a.1.1 < b.1.1
  \/ (a.1.1 = b.1.1 /\ (a.1.2 < b.1.2 \/ (a.1.2 = b.1.2 /\ a.2 <= b.2))).

(** ** Fits *)

(** The divergence test in the words of the specification: the fitted
    width (entry 3; entries 3 or 4 for six and seven parameters) exceeds
    the largest dimension of the window. *)
Definition exceeds (popt : list float) (i : nat) (max_s : Z) : bool :=
  match popt !! i with
  | Some s => F64.gtb s (F64.of_Z max_s)
  | None => false
  end.

Definition diverged (popt : list float) (max_s : Z) : bool :=
  match length popt with
  | 5%nat => exceeds popt 3 max_s
  | 6%nat | 7%nat => exceeds popt 3 max_s || exceeds popt 4 max_s
  | _ => false
  end.

(** The exceptions named by the [except] clause of [optimize_params_ls]. *)
Definition caught (e : exn) : bool :=
  match e with
  | OptimizeWarning | ValueError | RuntimeError => true
  | _ => false
  end.

(** The object and the vector [optimize_params_ls] leaves after a failed
    fit from the guess [g]. *)
Definition failed_fit (self1 : Gauss2D.t) (g : list float)
  : Gauss2D.t * list float :=
  ({| Gauss2D._data := Gauss2D._data self1;
      Gauss2D._guess_params := Gauss2D._guess_params self1;
      Gauss2D._opt_params := Some (np.zeros_like g);
      Gauss2D.error := true |},
   np.zeros_like g).

(** The number of parameters of a fit without a guess. *)
Definition cold_length (mt : modeltype) : nat :=
  match mt with sym => 6 | norot => 5 | full => 7 end%nat.

(** ** Dictionaries and tables *)

(** A dictionary that holds every coefficient of the full model. *)
Definition has_params (d : gmap string pyval) : Prop :=
  Forall (fun k => is_Some (d !! k)) param_keys.

Definition params_set : gset string := list_to_set param_keys.

(** A recorded row: the seven coefficients as floats and the slice number. *)
Definition good_row (r : gmap string pyval) : Prop :=
  (exists z, r !! "slice" = Some (PyInt z))
  /\ dom r = {["slice"]} ∪ params_set.

(** The coefficients of the full model other than its center. *)
Definition shape_keys : list string :=
  ["amp"; "sigma_x"; "sigma_y"; "rho"; "offset"]%string.

(** A dictionary holds a finite number under a key. *)
Definition finite_at (d : gmap string pyval) (k : string) : Prop :=
  exists f, d !! k = Some (PyFloat f) /\ F64.isfinite f = true.

(** A guess as a track carries it: every coefficient is there, and those
    other than the center are finite.  The center is left open, since a
    failed slice moves it. *)
Definition steady (d : gmap string pyval) : Prop :=
  has_params d /\ Forall (finite_at d) shape_keys.

(** A recorded row whose seven coefficients are finite. *)
Definition finite_row (r : gmap string pyval) : Prop :=
  good_row r /\ Forall (finite_at r) param_keys.

(** A row of a table whose seven coefficients are finite. *)
Definition finite_entries (row : gmap string float) : Prop :=
  Forall (fun c => F64.isfinite (pd.cell row c) = true) param_keys.

(** The table of a peak that was followed through the whole stack: the
    seven coefficients as columns, one row for every slice, in the order
    of the slices, and no entry that is NaN or infinite. *)
Definition whole_track (stack : Stack) (df : pd.DataFrame) : Prop :=
  pd.columns df = params_set
  /\ map fst (pd.rows df) = map Z.of_nat (seq 0 (Z.to_nat (zmax stack)))
  /\ Forall (fun e => finite_entries e.2) (pd.rows df).

(** The invariant of the loop of [fitPeak]: the center is roomy, the
    carried guess is steady, and the rows recorded so far are finite. *)
Definition tracking (stack : Stack) (width : Z) (st : StackAnalyzer.state)
  : Prop :=
  roomy stack width (StackAnalyzer.y0 st) (StackAnalyzer.x0 st)
  /\ steady (StackAnalyzer.popt_d st)
  /\ Forall finite_row (StackAnalyzer.toreturn st).

(** ** The solver *)

(** What the completion of the pipeline asks of the solver.  It returns
    as many parameters as it is given.  Given at least as many data
    points as parameters, it fails by RuntimeError (no convergence), or
    by ValueError on data that is not finite; scipy raises TypeError when
    there are fewer data points than parameters. *)
Definition keeps_length `{Numerics} : Prop :=
  forall g y p popt w, minimize g y p = Ok (popt, w) -> length popt = length p.

Definition fails_softly `{Numerics} : Prop :=
  forall g y p e,
    (length p <= length y)%nat -> minimize g y p = Raise e ->
    e = RuntimeError \/ (e = ValueError /\ np.all_finite y = false).

(** The parameters of the seed fit of a blob: the first lines of the loop
    of [fitPeaks], up to the test of [np.isfinite]. *)
Definition seed_fit `{Numerics} (stack : Stack) (fitwidth : Z)
    (mt : modeltype) (blob : Blob) : result (list float) :=
  let myslice :=
    StackAnalyzer.sliceMaker stack (blob_y blob) (blob_x blob) fitwidth in
  let* my_max :=
    PSFStackAnalyzer.brightest stack (fst myslice) (snd myslice) in
  let* substack := window stack my_max (fst myslice) (snd myslice) in
  let* (max_z, _) :=
    Gauss2D.optimize_params_ls (Gauss2D.init substack) None mt in
  Gauss2D.opt_params max_z.

(** The seed fit of a blob, when it is finite, has a center that rounds,
    in stack coordinates, to a roomy pixel. *)
Definition seed_stays_roomy `{Numerics} (stack : Stack) (fitwidth : Z)
    (blob : Blob) : Prop :=
  forall opt,
    seed_fit stack fitwidth full blob = Ok opt ->
    np.all_finite opt = true ->
    recenter_ok stack fitwidth
      (start (fst (StackAnalyzer.sliceMaker stack (blob_y blob) (blob_x blob)
                     fitwidth)))
      (start (snd (StackAnalyzer.sliceMaker stack (blob_y blob) (blob_x blob)
                     fitwidth))) opt.

(** Every fit that a track accepts, at a roomy center and from a steady
    guess, is finite and has a center that rounds, in stack coordinates,
    to a roomy pixel.  The guess is any steady guess: the center that a
    track carries is moved by every slice that fails. *)
Definition tracks_stay_roomy `{Numerics} (stack : Stack) (fitwidth : Z) : Prop :=
  forall cy cx s data guess fit popt,
    roomy stack fitwidth cy cx ->
    window stack s (fst (StackAnalyzer.sliceMaker stack cy cx fitwidth))
                   (snd (StackAnalyzer.sliceMaker stack cy cx fitwidth)) = Ok data ->
    steady guess ->
    StackAnalyzer.attempt data guess full = Ok fit ->
    Gauss2D.error fit = false ->
    Gauss2D._opt_params fit = Some popt ->
    np.all_finite popt = true
    /\ recenter_ok stack fitwidth
         (start (fst (StackAnalyzer.sliceMaker stack cy cx fitwidth)))
         (start (snd (StackAnalyzer.sliceMaker stack cy cx fitwidth))) popt.

(** ** The profile of a peak *)

(** The columns [calc_psf_params] reads from the table of a peak. *)
Definition profile_columns : list string :=
  ["amp"; "x0"; "y0"; "sigma_x"; "sigma_y"]%string.

(** The rows [calc_psf_params] leaves out: a row with a NaN entry, and a
    row whose label lies outside the sub-range. *)
Definition has_nan (df : pd.DataFrame) (e : Z * gmap string float) : Prop :=
  exists c, c ∈ pd.columns df /\ F64.is_nan (pd.cell e.2 c) = true.

Definition outside (subrange : option Z * option Z)
    (e : Z * gmap string float) : Prop :=
  (exists lo, subrange.1 = Some lo /\ e.1 < lo)
  \/ (exists hi, subrange.2 = Some hi /\ hi < e.1).

(** A row of PSF parameters without a number in it. *)
Definition nan_params : PSFParams :=
  {| psf_z0 := F64.nan; psf_y0 := F64.nan; psf_x0 := F64.nan;
     psf_sigma_z := F64.nan; psf_sigma_y := F64.nan; psf_sigma_x := F64.nan;
     psf_SNR := F64.nan |}.

(** ** The model at a pixel *)

(** The value of the Gaussian of [gauss2D] at the pixel of column [c] and
    row [r]. *)
Definition gauss_at `{Numerics}
    (amp mu0 mu1 sigma0 sigma1 rho offset : float) (c r : Z) : float :=
  let a := F64.of_Z c in
  let b := F64.of_Z r in
  let two := F64.of_Z 2 in
  let one := F64.of_Z 1 in
  let z :=
    (F64.pow ((a - mu0) / sigma0) 2
     - two * rho * (a - mu0) * (b - mu1) / (sigma0 * sigma1)
     + F64.pow ((b - mu1) / sigma1) 2)%f64 in
  (offset + amp * np_exp (- z / (two * (one - F64.pow rho 2))))%f64.

(** The pixels of an [h] x [w] window in the order of [ravel]: pixel [k]
    lies in row [k / w] and column [k mod w]. *)
Definition pixels (h w : Z) : list (Z * Z) :=
  map (fun k => (Z.of_nat k mod w, Z.of_nat k / w)) (seq 0 (Z.to_nat (h * w))).

(** The design points of [detrend]: the coordinates (column, row) of the
    pixels, in the order of [ravel]. *)
Definition design_points (h w : Z) : list (float * float) :=
  map (fun cr : Z * Z => (F64.of_Z cr.1, F64.of_Z cr.2)) (pixels h w).

(** ** The seed slice *)

(** The total intensity of the window in slice [z], the quantity
    [fitPeaks] maximises to choose the seed slice. *)
Definition slice_total (stack : Stack) (ys xs : pyslice) (z : Z) : float :=
  match window stack z ys xs with
  | Ok w => np.sum (flat w)
  | Raise _ => F64.nan
  end.

(** ** Sums of zeros *)

(** A float that is a zero of either sign, or NaN: what is left of a
    weight of zero. *)
Definition zero_or_nan (v : float) : Prop :=
  match v with
  | S754_zero _ | S754_nan => True
  | _ => False
  end.

(** * Example data *)

(** A stack of zeros, used to evaluate the window arithmetic. *)
Definition blank (nz ny nx : Z) : Stack :=
  {| zmax := nz; ymax := ny; xmax := nx;
     voxels := replicate (Z.to_nat (nz * ny * nx)) F64.zero |}.

(** A 3 x 3 window with one bright pixel on a dark background. *)
Definition hot_pixel : ndarray :=
  {| shape := [3; 3]%Z;
     flat := map F64.of_Z [0; 0; 0; 0; 5; 0; 0; 0; 0]%Z |}.

(** A full guess for the bright-pixel window, and the same guess with a
    width of 100 pixels. *)
Definition guess7 : list float := map F64.of_Z [5; 1; 1; 1; 1; 0; 0].
Definition wide7 : list float := map F64.of_Z [5; 1; 1; 100; 1; 0; 0].

(** A profile over five slices. *)
Definition profile_z : list float := map F64.of_Z [0; 1; 2; 3; 4].
Definition profile_amp : list float := map F64.of_Z [1; 4; 9; 4; 1].

(** A stack of three 8 x 8 slices holding one bead centred on pixel
    (5, 5), brightest in the middle slice. *)
Definition bead_profile (d : Z) : Z :=
  match Z.abs d with 0 => 4 | 1 => 2 | 2 => 1 | _ => 0 end.

Definition bead : Stack :=
  {| zmax := 3; ymax := 8; xmax := 8;
     voxels :=
       z ← [2; 3; 1];
       r ← map Z.of_nat (seq 0 8);
       c ← map Z.of_nat (seq 0 8);
       [F64.of_Z (z * bead_profile (r - 5) * bead_profile (c - 5))] |}.

(** A stack of three slices that are a single row of eight pixels. *)
Definition line_scan : Stack :=
  {| zmax := 3; ymax := 1; xmax := 8;
     voxels := map F64.of_Z (concat (replicate 3 [0; 1; 2; 4; 8; 4; 2; 1])) |}.

Definition blob_at (y x : Z) : Blob :=
  {| blob_y := y; blob_x := x; blob_w := F64.zero; blob_amp := F64.zero |}.

Definition coefficients (keys : list string) (values : list Z)
  : gmap string pyval :=
  list_to_map (zip keys (map (fun z => PyFloat (F64.of_Z z)) values)).

(** Starting fits of seven and of six coefficients at (5, 5). *)
Definition start7 : gmap string pyval :=
  coefficients param_keys [48; 5; 5; 1; 1; 0; 0].
Definition start6 : gmap string pyval :=
  coefficients ["amp"; "x0"; "y0"; "sigma_x"; "sigma_y"; "offset"]%string
               [48; 5; 5; 1; 1; 0].

(** A minimiser that converges, at its starting point, only when started
    from the amplitude of the data. *)
Definition converges_from_estimate : Numerics :=
  {| np_exp := exp_series;
     minimize := fun _ ydata p0 =>
       match np.max ydata, p0 with
       | Ok top, amp :: _ =>
           if F64.eqb amp top then Ok (p0, false) else Raise RuntimeError
       | _, _ => Raise RuntimeError
       end |}.

(** A stack of two dark 4 x 4 slices and a starting fit centred on its
    pixel (1, 1). *)
Definition dark : Stack := blank 2 4 4.
Definition start_dark : gmap string pyval :=
  coefficients param_keys [1; 1; 1; 1; 1; 0; 0].

(** The table of a peak over three slices. *)
Definition table_row (z : Z) (values : list Z) : Z * gmap string float :=
  (z, list_to_map (zip param_keys (map F64.of_Z values))).

Definition peak_table : pd.DataFrame :=
  {| pd.columns := params_set;
     pd.rows := [table_row 0 [1; 5; 5; 1; 1; 0; 0];
                 table_row 1 [4; 5; 5; 1; 1; 0; 0];
                 table_row 2 [1; 5; 5; 1; 1; 0; 0]] |}.

(** A window with a pixel that is not a number. *)
Definition dead_pixel : ndarray :=
  {| shape := [2; 2]%Z;
     flat := [F64.of_Z 1; F64.nan; F64.of_Z 3; F64.of_Z 4] |}.

(** A minimiser that returns its starting point with widths that are not
    numbers. *)
Definition loses_widths : Numerics :=
  {| np_exp := exp_series;
     minimize := fun _ _ p0 =>
       Ok (<[3%nat := F64.nan]> (<[4%nat := F64.nan]> p0), false) |}.

(** A regression that fails twice before it fits the constant 1, and one
    that never finds a consensus. *)
Definition third_time_lucky : utils.Sklearn :=
  {| utils.regressor := float;
     utils.fit_transform := fun _ X => Ok (map (fun p => [p.1; p.2]) X);
     utils.ransac_fit := fun i _ _ =>
       if (i <? 2)%nat then Raise ValueError else Ok (F64.of_Z 1);
     utils.predict := fun clf X_ => Ok (map (fun _ => clf) X_) |}.

Definition no_consensus : utils.Sklearn :=
  {| utils.regressor := float;
     utils.fit_transform := fun _ X => Ok (map (fun p => [p.1; p.2]) X);
     utils.ransac_fit := fun _ _ _ => Raise ValueError;
     utils.predict := fun clf X_ => Ok (map (fun _ => clf) X_) |}.

(** An interpolation that returns the grid of the first coordinate. *)
Definition flat_gridding : utils.Gridding :=
  {| utils.linspace := fun a b n => Ok [a; b];
     utils.griddata := fun _ _ _ X _ _ => Ok X |}.

(** A profile over three slices, and a profile with an infinite
    amplitude. *)
Definition short_z : list float := map F64.of_Z [0; 1; 2].
Definition short_amp : list float := map F64.of_Z [1; 4; 1].
Definition glare_amp : list float :=
  [F64.of_Z 1; F64.of_Z 4; S754_infinity false; F64.of_Z 4; F64.of_Z 1].

(** A minimiser with the input checks of scipy's [curve_fit]: data that
    is not finite is a ValueError, fewer data points than parameters a
    TypeError.  On other input it does not converge. *)
Definition checks_input : Numerics :=
  {| np_exp := exp_series;
     minimize := fun _ ydata p0 =>
       if negb (np.all_finite ydata) then Raise ValueError
       else if (length ydata <? length p0)%nat then Raise TypeError
       else Raise RuntimeError |}.

(** The table of a peak over five slices. *)
Definition long_table : pd.DataFrame :=
  {| pd.columns := params_set;
     pd.rows := [table_row 0 [1; 5; 5; 1; 1; 0; 0];
                 table_row 1 [4; 5; 5; 1; 1; 0; 0];
                 table_row 2 [9; 5; 5; 1; 1; 0; 0];
                 table_row 3 [4; 5; 5; 1; 1; 0; 0];
                 table_row 4 [1; 5; 5; 1; 1; 0; 0]] |}.

(** A stack of four 7 x 7 slices.  The two middle slices hold a bead at
    pixel (1, 1), brighter in the second of them, which also holds a
    lone bright pixel at (4, 4).  The outer slices are dark. *)
Definition spot_profile (d : Z) : Z :=
  match Z.abs d with 0 => 4 | 1 => 2 | _ => 0 end.

Definition two_spots : Stack :=
  {| zmax := 4; ymax := 7; xmax := 7;
     voxels :=
       z ← [0; 1; 2; 0];
       r ← map Z.of_nat (seq 0 7);
       c ← map Z.of_nat (seq 0 7);
       [F64.of_Z (z * spot_profile (r - 1) * spot_profile (c - 1)
                  + (if (z =? 2) && (r =? 4) && (c =? 4) then 5 else 0))] |}.

(** The entries of a full parameter vector other than its center. *)
Definition shape_of (p : list float) : list float :=
  np.delete p [1%nat; 2%nat].

(** A bead of unit amplitude and unit widths at pixel (1, 1) of its
    window. *)
Definition unit_bead : list float := map F64.of_Z [1; 1; 1; 1; 1; 0; 0].

(** Whether a window holds a pixel above zero. *)
Definition lit (ydata : list float) : bool :=
  existsb (fun v => F64.ltb F64.zero v) ydata.

(** A minimiser for runs of the pipeline.  A fit of seven parameters
    fails on a window that is not lit.  On a lit window it moves a
    starting point of finite shape to the unit bead, and leaves any other
    starting point where it is.  A fit of another number of parameters
    converges at its starting point. *)
Definition follows_light : Numerics :=
  {| np_exp := exp_series;
     minimize := fun _ ydata p0 =>
       if bool_decide (length p0 = 7%nat) then
         if lit ydata then
           if np.all_finite (shape_of p0) then Ok (unit_bead, false)
           else Ok (p0, false)
         else Raise RuntimeError
       else Ok (p0, false) |}.

(** * Properties *)

(** ** Windows: [sliceMaker] *)

Section SliceMakerFacts.
Import StackAnalyzer.

Lemma sliceMaker_axes stack y0 x0 width :
  sliceMaker stack y0 x0 width
  = (axis (ymax stack) y0 width, axis (xmax stack) x0 width).
Proof. reflexivity. Qed.

Lemma axis_start dim c width : start (axis dim c width) = Z.max 0 (c - half1 width).
Proof. unfold axis; simpl. destruct (Z.ltb_spec (c - half1 width) 0); lia. Qed.

Lemma axis_stop dim c width :
  stop (axis dim c width) = Z.min (dim - 1) (c + half2 width).
Proof.
  unfold axis; simpl.
  destruct (Z.geb_spec (c + half2 width) dim) as [Hge|Hlt]; lia.
Qed.

Lemma axis_in_bounds_iff dim c width :
  in_bounds dim (start (axis dim c width))
  /\ in_bounds dim (stop (axis dim c width))
  <-> 1 <= dim /\ c - half1 width <= dim - 1 /\ 0 <= c + half2 width.
Proof. rewrite axis_start, axis_stop. unfold in_bounds. lia. Qed.

Lemma halves_nonneg width : 0 <= width -> 0 <= half1 width /\ 0 <= half2 width.
Proof.
  intros Hw. unfold half1, half2.
  pose proof (Z.div_pos width 2 Hw ltac:(lia)).
  pose proof (Z.mul_div_le width 2 ltac:(lia)). lia.
Qed.

Lemma slice_indices_lt n s i :
  0 <= n -> i ∈ slice_indices n s -> 0 <= i < slice_bound n (stop s).
Proof.
  intros Hn. unfold slice_indices. rewrite list_elem_of_fmap.
  intros (k & -> & Hk). apply elem_of_seq in Hk.
  assert (0 <= slice_bound n (start s)) by (unfold slice_bound; case_match; lia).
  lia.
Qed.

Lemma slice_bound_le n v : 0 <= n -> v <= n - 1 -> slice_bound n v <= Z.max 0 (n - 1).
Proof. intros Hn Hv. unfold slice_bound. case_match; lia. Qed.

(** C7, as stated, fails: the start is clamped only from below and the end
    only from above. A center left of the stack gives a negative end, a
    center beyond the stack gives a start past the last index. *)
Lemma sliceMaker_out_of_bounds :
  sliceMaker (blank 1 64 64) (-100) 32 10 = (Slice 0 (-95), Slice 27 37)
  /\ ~ in_bounds 64 (-95)
  /\ sliceMaker (blank 1 64 64) 70 32 10 = (Slice 65 63, Slice 27 37)
  /\ ~ in_bounds 64 65.
Proof. unfold in_bounds. repeat split; try reflexivity; lia. Qed.

(** C7 (amended): [sliceMaker] splits the width as [width // 2] and the
    rest, clamps the starts below at 0 and the ends above at
    [dimension - 1]; on each axis both bounds lie in [0, dimension - 1]
    exactly when the dimension is not empty and the requested extent
    [center - left half, center + right half) reaches into it; this
    holds for every center inside the stack and every width >= 0. *)
Theorem sliceMaker_bounds stack y0 x0 width :
  let ys := fst (sliceMaker stack y0 x0 width) in
  let xs := snd (sliceMaker stack y0 x0 width) in
  (start ys = Z.max 0 (y0 - width / 2)
   /\ stop ys = Z.min (ymax stack - 1) (y0 + (width - width / 2))
   /\ start xs = Z.max 0 (x0 - width / 2)
   /\ stop xs = Z.min (xmax stack - 1) (x0 + (width - width / 2)))
  /\ (in_bounds (ymax stack) (start ys) /\ in_bounds (ymax stack) (stop ys)
      <-> 1 <= ymax stack /\ y0 - width / 2 <= ymax stack - 1
          /\ 0 <= y0 + (width - width / 2))
  /\ (in_bounds (xmax stack) (start xs) /\ in_bounds (xmax stack) (stop xs)
      <-> 1 <= xmax stack /\ x0 - width / 2 <= xmax stack - 1
          /\ 0 <= x0 + (width - width / 2))
  /\ (0 <= width -> 0 <= y0 < ymax stack -> 0 <= x0 < xmax stack ->
      in_bounds (ymax stack) (start ys) /\ in_bounds (ymax stack) (stop ys)
      /\ in_bounds (xmax stack) (start xs) /\ in_bounds (xmax stack) (stop xs)).
Proof.
  rewrite sliceMaker_axes. cbn [fst snd].
  pose proof (axis_in_bounds_iff (ymax stack) y0 width) as Hy.
  pose proof (axis_in_bounds_iff (xmax stack) x0 width) as Hx.
  rewrite !axis_start, !axis_stop in *. unfold half1, half2 in *.
  split; [auto|]. split; [exact Hy|]. split; [exact Hx|].
  intros Hw Hy0 Hx0. destruct (halves_nonneg width Hw) as [H1 H2].
  unfold half1, half2 in *.
  assert (Hyy : in_bounds (ymax stack) (Z.max 0 (y0 - width / 2))
                /\ in_bounds (ymax stack) (Z.min (ymax stack - 1) (y0 + (width - width / 2))))
    by (apply Hy; lia).
  assert (Hxx : in_bounds (xmax stack) (Z.max 0 (x0 - width / 2))
                /\ in_bounds (xmax stack) (Z.min (xmax stack - 1) (x0 + (width - width / 2))))
    by (apply Hx; lia).
  tauto.
Qed.

(** The window of width 10 around (3, 60) in a 64 x 64 slice: the rows
    are clipped at 0, the columns at 63. *)
Example sliceMaker_near_edges :
  sliceMaker (blank 1 64 64) 3 60 10 = (Slice 0 8, Slice 55 63).
Proof. reflexivity. Qed.

(** C10: the end of both slices is at most [dimension - 1], and a slice
    end is exclusive, so no window holds the last row or the last column;
    a window whose requested extent ends exactly at the boundary is cut
    one short of it. *)
Theorem sliceMaker_drops_last stack y0 x0 width :
  let ys := fst (sliceMaker stack y0 x0 width) in
  let xs := snd (sliceMaker stack y0 x0 width) in
  stop ys <= ymax stack - 1
  /\ stop xs <= xmax stack - 1
  /\ (0 <= ymax stack ->
      forall i, i ∈ slice_indices (ymax stack) ys -> 0 <= i < ymax stack - 1)
  /\ (0 <= xmax stack ->
      forall j, j ∈ slice_indices (xmax stack) xs -> 0 <= j < xmax stack - 1)
  /\ (y0 + (width - width / 2) = ymax stack -> stop ys = ymax stack - 1)
  /\ (x0 + (width - width / 2) = xmax stack -> stop xs = xmax stack - 1).
Proof.
  rewrite sliceMaker_axes. cbn [fst snd]. rewrite !axis_stop. unfold half2.
  assert (Hrows : forall dim c, 0 <= dim ->
            forall i, i ∈ slice_indices dim (axis dim c width) -> 0 <= i < dim - 1).
  { intros dim c Hdim i Hi.
    apply slice_indices_lt in Hi; [|done].
    pose proof (slice_bound_le dim (stop (axis dim c width)) Hdim) as Hb.
    rewrite axis_stop in *. lia. }
  repeat split; try lia; intros; eapply Hrows; eauto.
Qed.

(** Width 10 around row 59 of 64 rows asks for rows 54..63, which fit;
    the window holds rows 54..62 only. *)
Example sliceMaker_loses_last_row :
  slice_indices 64 (fst (sliceMaker (blank 1 64 64) 59 32 10))
  = [54; 55; 56; 57; 58; 59; 60; 61; 62].
Proof. reflexivity. Qed.

End SliceMakerFacts.

(** ** Facts about float64 arithmetic *)

Section FloatFacts.

Lemma mul_nan_r x : F64.mul x F64.nan = F64.nan.
Proof. destruct x; reflexivity. Qed.

Lemma is_nan_true x : F64.is_nan x = true <-> x = F64.nan.
Proof. unfold F64.nan. destruct x; simpl; split; congruence. Qed.

(** Division by a zero never gives a finite number. *)
Lemma div_zero_not_finite c s : F64.isfinite (F64.div c (S754_zero s)) = false.
Proof. destruct c; reflexivity. Qed.

Lemma iter_pos_preserves {A} (P : A -> Prop) (f : A -> A) :
  (forall a, P a -> P (f a)) -> forall n a, P a -> P (SpecFloat.iter_pos f n a).
Proof.
  intros Hf. induction n as [n IH|n IH|]; intros a Ha; simpl; auto.
Qed.

Lemma shr_1_nonneg mrs : 0 <= shr_m mrs -> 0 <= shr_m (shr_1 mrs).
Proof.
  destruct mrs as [m r s]; simpl.
  destruct m as [|[p|p|]|[p|p|]]; simpl; lia.
Qed.

Lemma shr_fexp_nonneg prec emax m e l :
  0 <= m -> 0 <= shr_m (fst (shr_fexp prec emax m e l)).
Proof.
  intros Hm. unfold shr_fexp, shr.
  assert (H0 : 0 <= shr_m (shr_record_of_loc m l))
    by (destruct l as [|[]]; simpl; lia).
  destruct (fexp prec emax (Zdigits2 m + e) - e) as [|p|p]; simpl; try done.
  apply (iter_pos_preserves (fun x => 0 <= shr_m x)); auto using shr_1_nonneg.
Qed.

Lemma round_nearest_even_nonneg m l : 0 <= m -> 0 <= round_nearest_even m l.
Proof.
  intros Hm. destruct l as [|[]]; simpl; try lia. destruct (Z.even m); lia.
Qed.

(** Rounding a non-negative mantissa never produces NaN. *)
Lemma binary_round_aux_not_nan prec emax sx mx ex lx :
  0 <= mx -> binary_round_aux prec emax sx mx ex lx <> S754_nan.
Proof.
  intros Hm. unfold binary_round_aux.
  pose proof (shr_fexp_nonneg prec emax mx ex lx Hm) as H1.
  destruct (shr_fexp prec emax mx ex lx) as [mrs' e']. simpl in H1.
  pose proof (shr_fexp_nonneg prec emax
                (round_nearest_even (shr_m mrs') (loc_of_shr_record mrs'))
                e' loc_Exact (round_nearest_even_nonneg _ _ H1)) as H2.
  destruct (shr_fexp prec emax _ e' loc_Exact) as [mrs'' e'']. simpl in H2.
  destruct (shr_m mrs'') as [|m|m]; try lia; try discriminate.
  destruct (e'' <=? emax - prec); discriminate.
Qed.

(** The guard of the widths: the root of an absolute value is NaN only
    when the value is. *)
Lemma sqrt_abs_not_nan v :
  F64.is_nan v = false -> F64.is_nan (F64.sqrt (F64.abs v)) = false.
Proof.
  intros Hv. destruct v as [s|s| |s m e]; try done.
  unfold F64.sqrt, F64.abs, SFabs, SFsqrt.
  destruct (SFsqrt_core_binary F64.prec F64.emax (Z.pos m) e) as [[mz ez] lz] eqn:Hcore.
  assert (Hmz : 0 <= mz).
  { unfold SFsqrt_core_binary in Hcore.
    destruct (Z.sqrtrem _) as [q r] eqn:Hq.
    assert (q = mz) as <- by congruence.
    pose proof (Z.sqrtrem_sqrt
      match e - 2 * Z.min (fexp F64.prec F64.emax (Z.div2 (Zdigits2 (Z.pos m) + e + 1))) (Z.div2 e) with
      | 0 => Z.pos m
      | Z.pos _ => Z.shiftl (Z.pos m) (e - 2 * Z.min (fexp F64.prec F64.emax (Z.div2 (Zdigits2 (Z.pos m) + e + 1))) (Z.div2 e))
      | Z.neg _ => 0
      end) as Hs.
    rewrite Hq in Hs. simpl in Hs. rewrite Hs. apply Z.sqrt_nonneg. }
  pose proof (binary_round_aux_not_nan F64.prec F64.emax false mz ez lz Hmz) as Hn.
  destruct (binary_round_aux F64.prec F64.emax false mz ez lz); done.
Qed.

Lemma leb_rank x y :
  F64.is_nan x = false -> F64.is_nan y = false ->
  (F64.leb x y = true <-> lex_le (rank x) (rank y)).
Proof.
  intros Hx Hy. unfold F64.leb, SFleb, SFcompare, lex_le.
  destruct x as [[]|[]| |[] mx ex], y as [[]|[]| |[] my ey];
    try discriminate; simpl; try (split; [intros _; lia | reflexivity]);
    try (split; [discriminate | lia]).
  - change (Pos.compare_cont Eq mx my) with (Pos.compare mx my).
    destruct (Z.compare_spec ex ey), (Pos.compare_spec mx my); simpl;
      split; try discriminate; try reflexivity; lia.
  - change (Pos.compare_cont Eq mx my) with (Pos.compare mx my).
    destruct (Z.compare_spec ex ey), (Pos.compare_spec mx my); simpl;
      split; try discriminate; try reflexivity; lia.
Qed.

Lemma leb_trans x y z :
  F64.is_nan x = false -> F64.is_nan y = false -> F64.is_nan z = false ->
  F64.leb x y = true -> F64.leb y z = true -> F64.leb x z = true.
Proof.
  intros Hx Hy Hz. rewrite !leb_rank by done. unfold lex_le.
  destruct (rank x) as [[? ?] ?], (rank y) as [[? ?] ?], (rank z) as [[? ?] ?].
  simpl. lia.
Qed.

Lemma leb_total x y :
  F64.is_nan x = false -> F64.is_nan y = false ->
  F64.leb x y = true \/ F64.leb y x = true.
Proof.
  intros Hx Hy. rewrite !leb_rank by done. unfold lex_le.
  destruct (rank x) as [[? ?] ?], (rank y) as [[? ?] ?]. simpl. lia.
Qed.

Lemma leb_refl x : F64.is_nan x = false -> F64.leb x x = true.
Proof. intros Hx. destruct (leb_total x x Hx Hx); done. Qed.

(** On a list without NaN, [np.max] is an element that no element
    exceeds, and [np.min] an element that exceeds none. *)
Lemma fold_maximum xs x :
  Forall (fun v => F64.is_nan v = false) (x :: xs) ->
  let m := fold_left np.maximum xs x in
  m ∈ x :: xs /\ F64.is_nan m = false
  /\ Forall (fun v => F64.leb v m = true) (x :: xs).
Proof.
  revert x. induction xs as [|y xs IH]; intros x Hall; simpl.
  - inversion Hall; subst. repeat split; [left | done | ].
    constructor; [by apply leb_refl | constructor].
  - inversion Hall as [|? ? Hx Hrest]; subst.
    inversion Hrest as [|? ? Hy Hxs]; subst.
    assert (Hm : np.maximum x y = x /\ F64.leb y x = true
                 \/ np.maximum x y = y /\ F64.leb x y = true).
    { unfold np.maximum. rewrite Hx, orb_false_r.
      destruct (F64.leb y x) eqn:Hle; [by left | right; split; [done|]].
      destruct (leb_total x y Hx Hy); congruence. }
    destruct Hm as [[-> Hle]|[-> Hle]].
    + destruct (IH x) as (Hin & Hnan & Hmax); [by constructor|].
      split; [|split; [done|]].
      * apply elem_of_cons in Hin as [->|Hin]; [left | right; by right].
      * inversion Hmax as [|? ? Hxm Hrestm]; subst.
        constructor; [done|]. constructor; [|done].
        exact (leb_trans y x _ Hy Hx Hnan Hle Hxm).
    + destruct (IH y) as (Hin & Hnan & Hmax); [by constructor|].
      split; [by right | split; [done|]].
      inversion Hmax as [|? ? Hym Hrestm]; subst.
      constructor; [|by constructor].
      exact (leb_trans x y _ Hx Hy Hnan Hle Hym).
Qed.

Lemma fold_minimum xs x :
  Forall (fun v => F64.is_nan v = false) (x :: xs) ->
  let m := fold_left np.minimum xs x in
  m ∈ x :: xs /\ F64.is_nan m = false
  /\ Forall (fun v => F64.leb m v = true) (x :: xs).
Proof.
  revert x. induction xs as [|y xs IH]; intros x Hall; simpl.
  - inversion Hall; subst. repeat split; [left | done | ].
    constructor; [by apply leb_refl | constructor].
  - inversion Hall as [|? ? Hx Hrest]; subst.
    inversion Hrest as [|? ? Hy Hxs]; subst.
    assert (Hm : np.minimum x y = x /\ F64.leb x y = true
                 \/ np.minimum x y = y /\ F64.leb y x = true).
    { unfold np.minimum. rewrite Hx, orb_false_r.
      destruct (F64.leb x y) eqn:Hle; [by left | right; split; [done|]].
      destruct (leb_total x y Hx Hy); congruence. }
    destruct Hm as [[-> Hle]|[-> Hle]].
    + destruct (IH x) as (Hin & Hnan & Hmin); [by constructor|].
      split; [|split; [done|]].
      * apply elem_of_cons in Hin as [->|Hin]; [left | right; by right].
      * inversion Hmin as [|? ? Hxm Hrestm]; subst.
        constructor; [done|]. constructor; [|done].
        exact (leb_trans _ x y Hnan Hx Hy Hxm Hle).
    + destruct (IH y) as (Hin & Hnan & Hmin); [by constructor|].
      split; [by right | split; [done|]].
      inversion Hmin as [|? ? Hym Hrestm]; subst.
      constructor; [|by constructor].
      exact (leb_trans _ y x Hnan Hy Hx Hym Hle).
Qed.

End FloatFacts.

(** ** The moment estimate: [estimate_params] *)

Section EstimateFacts.
Import Gauss2D.
Open Scope f64_scope.

Lemma fold_maximum_elem xs x : fold_left np.maximum xs x ∈ x :: xs.
Proof.
  revert x. induction xs as [|y xs IH]; intros x; simpl; [left|].
  specialize (IH (np.maximum x y)). unfold np.maximum in *.
  destruct (F64.leb y x || F64.is_nan x);
    apply elem_of_cons in IH as [->|IH]; set_solver.
Qed.

Lemma fold_minimum_elem xs x : fold_left np.minimum xs x ∈ x :: xs.
Proof.
  revert x. induction xs as [|y xs IH]; intros x; simpl; [left|].
  specialize (IH (np.minimum x y)). unfold np.minimum in *.
  destruct (F64.leb x y || F64.is_nan x);
    apply elem_of_cons in IH as [->|IH]; set_solver.
Qed.

(** C6, as stated, fails: nothing guards the division. The window with
    one bright pixel has zero variance on both axes, and its correlation
    entry is 0/0 = NaN. *)
Lemma estimate_params_zero_variance :
  exists self',
    estimate_params (init hot_pixel)
    = Ok (self', [F64.of_Z 5; F64.of_Z 1; F64.of_Z 1; F64.zero; F64.zero;
                  F64.nan; F64.zero]).
Proof. eexists. vm_compute. reflexivity. Qed.

(** C6 (amended): on a non-empty 2D window [estimate_params] returns the
    maximum as amplitude, the minimum as offset, the first-order moment
    ratios as centers, the roots of the absolute second central moments
    as widths, and as correlation the mixed central moment divided by the
    root of the absolute product of the variances. The absolute values
    guard the roots: a width is NaN only if its variance is. The
    divisions are not guarded: when the root of the product is zero the
    correlation is infinite or NaN. *)
Theorem estimate_params_moments (self : Gauss2D.t) (h w : Z) :
  shape (_data self) = [h; w] ->
  flat (_data self) <> [] ->
  let pix := flat (_data self) in
  let M := moment h w pix in
  let xbar := M 1%nat 0%nat / M 0%nat 0%nat in
  let ybar := M 0%nat 1%nat / M 0%nat 0%nat in
  let xvar := M 2%nat 0%nat / M 0%nat 0%nat - xbar * xbar in
  let yvar := M 0%nat 2%nat / M 0%nat 0%nat - ybar * ybar in
  let covar := M 1%nat 1%nat / M 0%nat 0%nat - xbar * ybar in
  exists amp offset self',
    estimate_params self
    = Ok (self', [amp; xbar; ybar; F64.sqrt (F64.abs xvar);
                  F64.sqrt (F64.abs yvar);
                  covar / F64.sqrt (F64.abs (xvar * yvar)); offset])
    /\ amp ∈ pix /\ offset ∈ pix
    /\ (Forall (fun v => F64.is_nan v = false) pix ->
        Forall (fun v => F64.leb v amp = true) pix
        /\ Forall (fun v => F64.leb offset v = true) pix)
    /\ (F64.is_nan xvar = false -> F64.is_nan (F64.sqrt (F64.abs xvar)) = false)
    /\ (F64.is_nan yvar = false -> F64.is_nan (F64.sqrt (F64.abs yvar)) = false)
    /\ (F64.is_nan (xvar * yvar) = false ->
        F64.is_nan (F64.sqrt (F64.abs (xvar * yvar))) = false)
    /\ (forall s, F64.sqrt (F64.abs (xvar * yvar)) = S754_zero s ->
        F64.isfinite (covar / F64.sqrt (F64.abs (xvar * yvar))) = false).
Proof.
  intros Hshape Hne. cbv zeta.
  destruct (flat (_data self)) as [|x xs] eqn:Hflat; [done|].
  exists (fold_left np.maximum xs x), (fold_left np.minimum xs x).
  eexists. split.
  { unfold estimate_params, moments. rewrite Hshape, Hflat. simpl. reflexivity. }
  split; [apply fold_maximum_elem|]. split; [apply fold_minimum_elem|].
  split.
  { intros Hall. split.
    - apply (fold_maximum xs x Hall).
    - apply (fold_minimum xs x Hall). }
  split; [apply sqrt_abs_not_nan|]. split; [apply sqrt_abs_not_nan|].
  split; [apply sqrt_abs_not_nan|].
  intros s ->. apply div_zero_not_finite.
Qed.

Lemma estimate_params_moments_witness :
  shape (_data (init hot_pixel)) = [3; 3]%Z
  /\ flat (_data (init hot_pixel)) <> []
  /\ exists p, estimate_params (init hot_pixel) = Ok p.
Proof.
  split; [reflexivity|]. split; [discriminate|].
  destruct (estimate_params_moments (init hot_pixel) 3 3 eq_refl
              ltac:(discriminate)) as (amp & offset & self' & Heq & _).
  eexists. exact Heq.
Defined.

(** An empty window has no maximum: the estimate raises. *)
Lemma estimate_params_empty (self : Gauss2D.t) (h w : Z) :
  shape (_data self) = [h; w] -> flat (_data self) = [] ->
  estimate_params self = Raise ValueError.
Proof.
  intros Hshape Hflat. unfold estimate_params, moments.
  rewrite Hshape, Hflat. reflexivity.
Qed.

End EstimateFacts.

(** ** The fit: [model] and [optimize_params_ls] *)

Section FitFacts.
Context `{Numerics}.
Import Gauss2D.

Lemma zeros_like_length g : length (np.zeros_like g) = length g.
Proof. unfold np.zeros_like. by rewrite length_map. Qed.

Lemma zeros_like_zero g : Forall (fun v => v = F64.zero) (np.zeros_like g).
Proof. unfold np.zeros_like. induction g; simpl; constructor; auto. Qed.

Lemma solver_exception_caught self guess_params mt self1 g xy e :
  starting_point self guess_params mt = Ok (self1, g) ->
  coordinates (_data self1) = Ok xy ->
  curve_fit true model_ravel xy (flat (_data self1)) g = Raise e ->
  caught e = true ->
  optimize_params_ls self guess_params mt = Ok (failed_fit self1 g).
Proof.
  intros Hstart Hxy Hfit He.
  unfold optimize_params_ls. rewrite Hstart. simpl. rewrite Hxy. simpl.
  rewrite Hfit. destruct e; try discriminate; reflexivity.
Qed.

(** C4: an exception of the solver that the [except] clause names
    (OptimizeWarning under the filter, ValueError, RuntimeError) is
    caught: the call returns, the parameters are zeros in the length of
    the guess, and the fit is marked failed. *)
Theorem optimize_params_ls_catches self guess_params mt self1 g xy e :
  starting_point self guess_params mt = Ok (self1, g) ->
  coordinates (_data self1) = Ok xy ->
  curve_fit true model_ravel xy (flat (_data self1)) g = Raise e ->
  caught e = true ->
  optimize_params_ls self guess_params mt = Ok (failed_fit self1 g)
  /\ length (np.zeros_like g) = length g
  /\ Forall (fun v => v = F64.zero) (np.zeros_like g).
Proof.
  intros Hstart Hxy Hfit He.
  split; [|split; [apply zeros_like_length | apply zeros_like_zero]].
  eapply solver_exception_caught; eauto.
Qed.

Lemma check_widths_diverged data g popt max_s :
  np.max_dim data = Ok max_s ->
  diverged popt max_s = true ->
  check_widths data g popt = Ok (np.zeros_like g, true).
Proof.
  intros Hmax Hdiv. unfold check_widths. rewrite Hmax. simpl.
  unfold diverged, exceeds in Hdiv.
  destruct popt as [|p0 [|p1 [|p2 [|p3 [|p4 [|p5 [|p6 [|p7 rest]]]]]]]];
    simpl in *; try discriminate.
  - by rewrite Hdiv.
  - apply orb_true_iff in Hdiv. destruct (F64.gtb p3 _); [done|].
    destruct Hdiv as [? | ->]; done.
  - apply orb_true_iff in Hdiv. destruct (F64.gtb p3 _); [done|].
    destruct Hdiv as [? | ->]; done.
Qed.

(** C5: when the solver returns normally and a fitted width exceeds the
    largest dimension of the window, the call returns the zero vector and
    marks the fit failed. *)
Theorem optimize_params_ls_divergence self guess_params mt self1 g xy popt max_s :
  starting_point self guess_params mt = Ok (self1, g) ->
  coordinates (_data self1) = Ok xy ->
  curve_fit true model_ravel xy (flat (_data self1)) g = Ok popt ->
  np.max_dim (_data self1) = Ok max_s ->
  diverged popt max_s = true ->
  optimize_params_ls self guess_params mt = Ok (failed_fit self1 g)
  /\ length (np.zeros_like g) = length g
  /\ Forall (fun v => v = F64.zero) (np.zeros_like g).
Proof.
  intros Hstart Hxy Hfit Hmax Hdiv.
  split; [|split; [apply zeros_like_length | apply zeros_like_zero]].
  unfold optimize_params_ls. rewrite Hstart. simpl. rewrite Hxy. simpl.
  rewrite Hfit. rewrite (check_widths_diverged _ _ _ _ Hmax Hdiv). reflexivity.
Qed.

End FitFacts.

Section FitExamples.
Import Gauss2D.

Lemma optimize_params_ls_catches_witness :
  @optimize_params_ls never_converges (init hot_pixel) (Some guess7) full
  = Ok (failed_fit
          {| _data := hot_pixel; _guess_params := Some guess7;
             _opt_params := None; error := false |} guess7).
Proof.
  refine (proj1 (@optimize_params_ls_catches never_converges
                   (init hot_pixel) (Some guess7) full _ guess7
                   (np.meshgrid (np.arange 3) (np.arange 3)) RuntimeError
                   _ _ _ _)).
  - reflexivity.
  - reflexivity.
  - vm_compute. reflexivity.
  - reflexivity.
Defined.

Lemma optimize_params_ls_divergence_witness :
  @optimize_params_ls converges_at_start (init hot_pixel) (Some wide7) full
  = Ok (failed_fit
          {| _data := hot_pixel; _guess_params := Some wide7;
             _opt_params := None; error := false |} wide7).
Proof.
  refine (proj1 (@optimize_params_ls_divergence converges_at_start
                   (init hot_pixel) (Some wide7) full _ wide7
                   (np.meshgrid (np.arange 3) (np.arange 3)) wide7 3
                   _ _ _ _ _)).
  - reflexivity.
  - reflexivity.
  - vm_compute. reflexivity.
  - reflexivity.
  - vm_compute. reflexivity.
Defined.

(** With the same solver the guess of width 1 is accepted: the fit is
    not marked failed. *)
Example optimize_params_ls_accepts :
  @optimize_params_ls converges_at_start (init hot_pixel) (Some guess7) full
  = Ok ({| _data := hot_pixel; _guess_params := Some guess7;
           _opt_params := Some guess7; error := false |}, guess7).
Proof. vm_compute. reflexivity. Qed.

End FitExamples.

(** ** Invalid input *)

Section InvalidInput.
Context `{Numerics}.
Import Gauss2D.

Lemma gauss2D_shape_mismatch xdata amp mu0 mu1 sigma0 sigma1 rho offset :
  shape xdata.1 <> shape xdata.2 ->
  gauss2D xdata amp mu0 mu1 sigma0 sigma1 rho offset = Raise ValueError.
Proof.
  intros Hne. destruct xdata as [x0 x1]. unfold gauss2D.
  by rewrite bool_decide_eq_true_2.
Qed.

Lemma model_wrong_count xdata args :
  length args <> 5%nat -> length args <> 6%nat -> length args <> 7%nat ->
  model xdata args = Raise ValueError.
Proof.
  intros H5 H6 H7.
  destruct args as [|p0 [|p1 [|p2 [|p3 [|p4 [|p5 [|p6 [|p7 rest]]]]]]]];
    simpl in *; done.
Qed.

Lemma model_shape_mismatch xdata args :
  shape xdata.1 <> shape xdata.2 -> model xdata args = Raise ValueError.
Proof.
  intros Hne.
  destruct args as [|p0 [|p1 [|p2 [|p3 [|p4 [|p5 [|p6 [|p7 rest]]]]]]]];
    simpl; try done;
    unfold gauss2D_sym, gauss2D_norot; by apply gauss2D_shape_mismatch.
Qed.

Lemma curve_fit_model_raises {X} escalate
    (f : X -> list float -> result (list float)) xdata ydata p0 e :
  f xdata p0 = Raise e -> curve_fit escalate f xdata ydata p0 = Raise e.
Proof. intros Hf. unfold curve_fit. by rewrite Hf. Qed.

(** C8 (amended): the dispatch selects the variant by the number of
    parameters and raises ValueError for any other number; the Gaussian
    (and so every variant) raises ValueError for coordinate arrays of
    different shapes, whatever the parameters. A direct caller sees the
    exception. Raised while the solver evaluates the model inside
    [optimize_params_ls], the same ValueError is caught by the [except]
    clause and becomes the zero vector of a failed fit. *)
Theorem invalid_input_raised_then_caught
    (xdata : ndarray * ndarray) (args : list float)
    (self : Gauss2D.t) (mt : modeltype) :
  (forall amp x0 y0 sigma_x offset,
      model xdata [amp; x0; y0; sigma_x; offset]
      = gauss2D_sym xdata amp x0 y0 sigma_x offset)
  /\ (forall amp x0 y0 sigma_x sigma_y offset,
      model xdata [amp; x0; y0; sigma_x; sigma_y; offset]
      = gauss2D_norot xdata amp x0 y0 sigma_x sigma_y offset)
  /\ (forall amp mu0 mu1 sigma0 sigma1 rho offset,
      model xdata [amp; mu0; mu1; sigma0; sigma1; rho; offset]
      = gauss2D xdata amp mu0 mu1 sigma0 sigma1 rho offset)
  /\ (length args <> 5%nat -> length args <> 6%nat -> length args <> 7%nat ->
      model xdata args = Raise ValueError)
  /\ (shape xdata.1 <> shape xdata.2 ->
      (forall amp mu0 mu1 sigma0 sigma1 rho offset,
          gauss2D xdata amp mu0 mu1 sigma0 sigma1 rho offset = Raise ValueError)
      /\ model xdata args = Raise ValueError)
  /\ (length args <> 5%nat -> length args <> 6%nat -> length args <> 7%nat ->
      is_ok (coordinates (_data self)) = true ->
      optimize_params_ls self (Some args) mt
      = Ok (failed_fit
              {| _data := _data self; _guess_params := Some args;
                 _opt_params := _opt_params self; error := error self |}
              args)).
Proof.
  split; [done|]. split; [done|]. split; [done|].
  split; [apply model_wrong_count|].
  split.
  { intros Hne. split; [intros; by apply gauss2D_shape_mismatch|].
    by apply model_shape_mismatch. }
  intros H5 H6 H7 Hxy.
  destruct (coordinates (_data self)) as [xy|] eqn:Hcoord; [|done].
  refine (solver_exception_caught self (Some args) mt _ args xy
            ValueError eq_refl Hcoord _ eq_refl).
  apply curve_fit_model_raises. unfold model_ravel.
  by rewrite model_wrong_count.
Qed.

End InvalidInput.

Section InvalidInputExamples.
Import Gauss2D.

(** C8, as stated, fails: a guess of four parameters makes the dispatch
    raise ValueError during the fit, and [optimize_params_ls] returns
    normally with four zeros and the fit marked failed, although this
    solver accepts every starting point it is given. *)
Lemma wrong_count_becomes_failed_fit :
  @optimize_params_ls converges_at_start (init hot_pixel)
    (Some (map F64.of_Z [5; 1; 1; 1])) full
  = Ok ({| _data := hot_pixel;
           _guess_params := Some (map F64.of_Z [5; 1; 1; 1]);
           _opt_params := Some [F64.zero; F64.zero; F64.zero; F64.zero];
           error := true |},
        [F64.zero; F64.zero; F64.zero; F64.zero])
  /\ @model converges_at_start
       (np.meshgrid (np.arange 3) (np.arange 3)) (map F64.of_Z [5; 1; 1; 1])
     = Raise ValueError.
Proof. split; vm_compute; reflexivity. Qed.

End InvalidInputExamples.

(** ** The z-profile fit: [gauss_fit] *)

Section GaussFitFacts.
Context `{Numerics}.
Import utils.

Lemma prepare_p0 xdata ydata trim guess_z offset p0 x y :
  prepare xdata ydata trim guess_z = Ok (offset, p0, x, y) ->
  exists amp x0 sigma_x, p0 = [amp; x0; sigma_x; offset].
Proof.
  unfold prepare. intros Hp.
  destruct (np.min ydata) as [off|]; [|done]. simpl in Hp.
  destruct (np.max _) as [amp|]; [|done]. simpl in Hp.
  destruct trim; inversion Hp; subst; eauto.
Qed.

(** The preparation raises only for an empty profile. *)
Lemma prepare_ok xdata ydata trim guess_z :
  ydata <> [] -> is_ok (prepare xdata ydata trim guess_z) = true.
Proof.
  intros Hne. unfold prepare.
  destruct ydata as [|y ys]; [done|]. simpl. by destruct trim.
Qed.

(** C9 (amended): when the solver of the 1D fit fails with RuntimeError,
    which scipy raises when the least-squares minimisation does not
    converge, [gauss_fit] returns four NaN: amplitude, center, width and
    offset.  RuntimeError is the only exception it catches: any other
    exception of the solver leaves [gauss_fit] as it was raised.  The
    static method of [PSFStackAnalyzer] is the same function. *)
Theorem gauss_fit_nan_on_failure xdata ydata withoffset trim guess_z
    offset p0 x y :
  prepare xdata ydata trim guess_z = Ok (offset, p0, x, y) ->
  (solve withoffset offset p0 x y = Raise RuntimeError ->
   gauss_fit xdata ydata withoffset trim guess_z
   = Ok [F64.nan; F64.nan; F64.nan; F64.nan]
   /\ PSFStackAnalyzer.gauss_fit xdata ydata withoffset trim guess_z
      = Ok [F64.nan; F64.nan; F64.nan; F64.nan])
  /\ (forall e, e <> RuntimeError ->
        solve withoffset offset p0 x y = Raise e ->
        gauss_fit xdata ydata withoffset trim guess_z = Raise e
        /\ PSFStackAnalyzer.gauss_fit xdata ydata withoffset trim guess_z
           = Raise e).
Proof.
  intros Hprep. split.
  - intros Hsolve.
    assert (Hfit : gauss_fit xdata ydata withoffset trim guess_z
                   = Ok [F64.nan; F64.nan; F64.nan; F64.nan]).
    { destruct (prepare_p0 _ _ _ _ _ _ _ _ Hprep) as (amp & x0 & sx & ->).
      unfold gauss_fit. rewrite Hprep. simpl. rewrite Hsolve. simpl.
      by rewrite !mul_nan_r. }
    split; [exact Hfit | exact Hfit].
  - intros e He Hsolve.
    assert (Hfit : gauss_fit xdata ydata withoffset trim guess_z = Raise e).
    { unfold gauss_fit. rewrite Hprep. cbn [bind]. rewrite Hsolve.
      by destruct e. }
    split; [exact Hfit | exact Hfit].
Qed.

End GaussFitFacts.

Section GaussFitExamples.
Import utils.

Lemma gauss_fit_nan_on_failure_witness :
  @gauss_fit never_converges profile_z profile_amp true None None
  = Ok [F64.nan; F64.nan; F64.nan; F64.nan]
  /\ @gauss_fit checks_input short_z short_amp true None None
     = Raise TypeError.
Proof.
  split.
  - destruct (@prepare profile_z profile_amp None None)
      as [[[[offset p0] x] y]|] eqn:Hprep; [|discriminate].
    refine (proj1 (proj1 (@gauss_fit_nan_on_failure never_converges profile_z
                            profile_amp true None None offset p0 x y Hprep) _)).
    vm_compute in Hprep. inversion Hprep; subst. vm_compute. reflexivity.
  - destruct (@prepare short_z short_amp None None)
      as [[[[offset p0] x] y]|] eqn:Hprep; [|discriminate].
    refine (proj1 (proj2 (@gauss_fit_nan_on_failure checks_input short_z
                            short_amp true None None offset p0 x y Hprep)
                     TypeError _ _)).
    + discriminate.
    + vm_compute in Hprep. inversion Hprep; subst. vm_compute. reflexivity.
Defined.

(** C9, as stated, fails: an exception of the solver that is not a
    RuntimeError escapes from [gauss_fit].  A profile of three slices
    has fewer points than the four parameters of the fit, which scipy
    refuses with TypeError; a profile with an infinite amplitude is
    refused with ValueError. *)
Lemma gauss_fit_lets_exceptions_escape :
  @gauss_fit checks_input short_z short_amp true None None = Raise TypeError
  /\ @PSFStackAnalyzer.gauss_fit checks_input short_z short_amp true None None
     = Raise TypeError
  /\ @gauss_fit checks_input profile_z glare_amp true None None
     = Raise ValueError.
Proof.
  split; [|split].
  - vm_compute. reflexivity.
  - vm_compute. reflexivity.
  - vm_compute. reflexivity.
Qed.

End GaussFitExamples.

(** ** Tracking: [fitPeak] *)

Section TrackFacts.
Context `{Numerics}.
Import StackAnalyzer.

Lemma estimate_params_length self self1 params :
  Gauss2D.estimate_params self = Ok (self1, params) -> length params = 7%nat.
Proof.
  unfold Gauss2D.estimate_params. intros Hest.
  destruct (Gauss2D.moments _) as [M|]; [|done]. simpl in Hest.
  destruct (np.max _) as [amp|]; [|done]. simpl in Hest.
  destruct (np.min _) as [offset|]; [|done]. simpl in Hest.
  by inversion Hest.
Qed.

Lemma cold_start_length self mt self1 g :
  Gauss2D.starting_point self None mt = Ok (self1, g) ->
  length g = cold_length mt.
Proof.
  unfold Gauss2D.starting_point. intros Hstart.
  destruct (Gauss2D.estimate_params self) as [[self' params]|] eqn:Hest; [|done].
  apply estimate_params_length in Hest. simpl in Hstart.
  destruct params as [|p0 [|p1 [|p2 [|p3 [|p4 [|p5 [|p6 [|p7 rest]]]]]]]];
    try done.
  inversion Hstart; subst. by destruct mt.
Qed.

(** C1 (the code departs from it): the retry without a guess is made
    with the model type derived from the number of entries of the
    starting fit, but [optimize_params_ls] cuts the estimate to five
    parameters for ['norot'] and to six for ['sym']. A track started with
    six parameters retries with five, one started with five retries with
    six; only seven are kept. *)
Theorem retry_changes_variant (startingfit : gmap string pyval)
    (self self1 : Gauss2D.t) (g : list float) :
  Gauss2D.starting_point self None (modeltype_of startingfit) = Ok (self1, g) ->
  (size startingfit = 6%nat -> length g = 5%nat)
  /\ (size startingfit = 5%nat -> length g = 6%nat)
  /\ (size startingfit = 7%nat -> length g = 7%nat).
Proof.
  intros Hstart. apply cold_start_length in Hstart. rewrite Hstart.
  unfold modeltype_of.
  repeat split; intros Hsize; rewrite Hsize; reflexivity.
Qed.

(** The state after a slice whose two attempts both report an error. *)
Lemma step_failed stack width mt st s data d1 d2 fit bad :
  let myslice := sliceMaker stack (y0 st) (x0 st) width in
  window stack s (fst myslice) (snd myslice) = Ok data ->
  Py.isub (popt_d st) "x0" (start (snd myslice)) = Ok d1 ->
  Py.isub d1 "y0" (start (fst myslice)) = Ok d2 ->
  attempt data d2 mt = Ok fit ->
  Gauss2D.error fit = true ->
  opt_params_dict fit = Ok bad ->
  step stack width mt st s
  = Ok {| y0 := y0 st; x0 := x0 st; popt_d := d2;
          toreturn := toreturn st ++ [<["slice" := PyInt s]> bad] |}.
Proof.
  intros myslice Hwin Hx Hy Hfit Herr Hbad. subst myslice.
  unfold step. cbv zeta. rewrite Hwin. cbn [bind]. rewrite Hx. cbn [bind].
  rewrite Hy. cbn [bind]. rewrite Hfit. cbn [bind]. rewrite Herr.
  cbn [negb bind]. rewrite Hbad. reflexivity.
Qed.

Lemma isub_lookup d k z d' :
  Py.isub d k z = Ok d' ->
  exists v, d !! k = Some v /\ d' = <[k := Py.sub_int v z]> d.
Proof.
  unfold Py.isub, Py.getitem. destruct (d !! k) as [v|]; [|done].
  simpl. intros [= <-]. eauto.
Qed.

(** C3 (the code departs from it): on a slice whose two attempts fail, a
    failed row is recorded and the rounded center is kept, but the carried
    guess is not: [popt_d] was moved into the window before the fit, and
    the failure branch leaves it there. The next slice starts from a guess
    whose center is off by the start of the window. *)
Theorem failed_slice_shifts_carried_guess stack width mt st s data d1 d2 fit bad :
  let myslice := sliceMaker stack (y0 st) (x0 st) width in
  window stack s (fst myslice) (snd myslice) = Ok data ->
  Py.isub (popt_d st) "x0" (start (snd myslice)) = Ok d1 ->
  Py.isub d1 "y0" (start (fst myslice)) = Ok d2 ->
  attempt data d2 mt = Ok fit ->
  Gauss2D.error fit = true ->
  opt_params_dict fit = Ok bad ->
  exists st' vx vy,
    step stack width mt st s = Ok st'
    /\ y0 st' = y0 st /\ x0 st' = x0 st
    /\ toreturn st' = toreturn st ++ [<["slice" := PyInt s]> bad]
    /\ popt_d st !! "x0" = Some vx
    /\ popt_d st !! "y0" = Some vy
    /\ popt_d st' !! "x0" = Some (Py.sub_int vx (start (snd myslice)))
    /\ popt_d st' !! "y0" = Some (Py.sub_int vy (start (fst myslice))).
Proof.
  intros myslice Hwin Hx Hy Hfit Herr Hbad.
  pose proof (step_failed stack width mt st s data d1 d2 fit bad
                Hwin Hx Hy Hfit Herr Hbad) as Hstep.
  apply isub_lookup in Hx as (vx & Hvx & ->).
  apply isub_lookup in Hy as (vy & Hvy & ->).
  rewrite lookup_insert_ne in Hvy by done.
  eexists _, vx, vy. split; [exact Hstep|]. simpl.
  repeat split; try done.
  - rewrite lookup_insert_ne by done. by rewrite lookup_insert_eq.
  - by rewrite lookup_insert_eq.
Qed.

End TrackFacts.

Section TrackExamples.
Import StackAnalyzer.

Lemma retry_changes_variant_witness :
  size start6 = 6%nat
  /\ exists self1 g,
      @Gauss2D.starting_point (Gauss2D.init hot_pixel) None (modeltype_of start6)
      = Ok (self1, g)
      /\ length g = 5%nat.
Proof.
  split; [reflexivity|].
  destruct (@Gauss2D.starting_point (Gauss2D.init hot_pixel) None
              (modeltype_of start6)) as [[self1 g]|] eqn:Hstart;
    [|discriminate].
  exists self1, g. split; [reflexivity|].
  exact (proj1 (@retry_changes_variant start6 _ _ _ Hstart) eq_refl).
Defined.

(** In a track started with six coefficients, a slice whose first attempt
    fails and whose retry succeeds is recorded with five coefficients
    (and the slice number): the width of the second axis is gone. *)
Example retry_records_five_coefficients :
  exists row,
    @fitPeak converges_from_estimate bead [0] 4 start6 = Ok [row]
    /\ map fst (map_to_list row)
       = ["offset"; "sigma_x"; "slice"; "y0"; "amp"; "x0"]%string
    /\ size start6 = 6%nat.
Proof. eexists. split; [vm_compute; reflexivity|]. split; reflexivity. Qed.

Lemma failed_slice_shifts_carried_guess_witness :
  exists st',
    @step never_converges bead 4 full
      {| y0 := 5; x0 := 5; popt_d := start7; toreturn := [] |} 0 = Ok st'
    /\ (y0 st', x0 st') = (5, 5)
    /\ (popt_d st' !! "y0", popt_d st' !! "x0")
       = (Some (PyFloat (F64.of_Z 2)), Some (PyFloat (F64.of_Z 2))).
Proof.
  set (st := {| y0 := 5; x0 := 5; popt_d := start7; toreturn := [] |}).
  destruct (window bead 0 (fst (sliceMaker bead 5 5 4))
              (snd (sliceMaker bead 5 5 4))) as [data|] eqn:Hwin;
    [|vm_compute in Hwin; discriminate].
  destruct (Py.isub start7 "x0" 3) as [d1|] eqn:Hx;
    [|vm_compute in Hx; discriminate].
  destruct (Py.isub d1 "y0" 3) as [d2|] eqn:Hy;
    [|vm_compute in Hx; injection Hx as <-; vm_compute in Hy; discriminate].
  destruct (@attempt never_converges data d2 full) as [fit|] eqn:Hfit;
    [|vm_compute in Hwin; injection Hwin as <-;
      vm_compute in Hx; injection Hx as <-;
      vm_compute in Hy; injection Hy as <-;
      vm_compute in Hfit; discriminate].
  assert (Herr : Gauss2D.error fit = true).
  { vm_compute in Hwin; injection Hwin as <-.
    vm_compute in Hx; injection Hx as <-.
    vm_compute in Hy; injection Hy as <-.
    vm_compute in Hfit. injection Hfit as <-. reflexivity. }
  destruct (opt_params_dict fit) as [bad|] eqn:Hbad;
    [|vm_compute in Hwin; injection Hwin as <-;
      vm_compute in Hx; injection Hx as <-;
      vm_compute in Hy; injection Hy as <-;
      vm_compute in Hfit; injection Hfit as <-;
      vm_compute in Hbad; discriminate].
  destruct (@failed_slice_shifts_carried_guess never_converges bead 4 full st 0
              data d1 d2 fit bad Hwin Hx Hy Hfit Herr Hbad)
    as (st' & vx & vy & Hstep & Hy0 & Hx0 & _ & Hvx & Hvy & Hsx & Hsy).
  exists st'. split; [exact Hstep|]. split; [by rewrite Hy0, Hx0|].
  rewrite Hsx, Hsy.
  vm_compute in Hvx. injection Hvx as <-.
  vm_compute in Hvy. injection Hvy as <-.
  vm_compute. reflexivity.
Defined.

(** Two failed slices in a row: around (5, 5) the window of width 4 starts
    at (3, 3); the rounded center stays (5, 5) while the carried center
    goes from (5, 5) to (2, 2) and then to (-1, -1). *)
Example failed_slices_accumulate_shift :
  exists st1 st2,
    @step never_converges bead 4 full
      {| y0 := 5; x0 := 5; popt_d := start7; toreturn := [] |} 0 = Ok st1
    /\ @step never_converges bead 4 full st1 1 = Ok st2
    /\ (y0 st1, x0 st1) = (5, 5)
    /\ (y0 st2, x0 st2) = (5, 5)
    /\ (start7 !! "y0", start7 !! "x0")
       = (Some (PyFloat (F64.of_Z 5)), Some (PyFloat (F64.of_Z 5)))
    /\ (popt_d st1 !! "y0", popt_d st1 !! "x0")
       = (Some (PyFloat (F64.of_Z 2)), Some (PyFloat (F64.of_Z 2)))
    /\ (popt_d st2 !! "y0", popt_d st2 !! "x0")
       = (Some (PyFloat (F64.of_Z (-1))), Some (PyFloat (F64.of_Z (-1))))
    /\ map (fun row => (row !! "slice", row !! "amp")) (toreturn st2)
       = [(Some (PyInt 0), Some (PyFloat F64.zero));
          (Some (PyInt 1), Some (PyFloat F64.zero))].
Proof.
  eexists. eexists.
  split; [vm_compute; reflexivity|].
  split; [vm_compute; reflexivity|].
  repeat split; vm_compute; reflexivity.
Qed.

End TrackExamples.

(** ** Windows and seed slices *)

Section WindowFacts.
Import StackAnalyzer.

Lemma bind_length {A B} (f : A -> list B) (l : list A) n :
  (forall a, a ∈ l -> length (f a) = n) -> length (l ≫= f) = (length l * n)%nat.
Proof.
  induction l as [|a l IH]; intros Hf; [done|].
  rewrite bind_cons, length_app, Hf, IH; [simpl; lia| |left].
  intros b Hb. apply Hf. by right.
Qed.

Lemma slice_indices_length n s :
  length (slice_indices n s)
  = Z.to_nat (slice_bound n (stop s) - slice_bound n (start s)).
Proof. unfold slice_indices. by rewrite length_map, length_seq. Qed.

Lemma window_ok stack s ys xs :
  0 <= s < zmax stack ->
  exists data,
    window stack s ys xs = Ok data
    /\ shape data = [Z.of_nat (length (slice_indices (ymax stack) ys));
                     Z.of_nat (length (slice_indices (xmax stack) xs))]
    /\ length (flat data)
       = (length (slice_indices (ymax stack) ys)
          * length (slice_indices (xmax stack) xs))%nat.
Proof.
  intros Hs. unfold window.
  destruct (Z.ltb_spec s (- zmax stack)); [lia|].
  destruct (Z.leb_spec (zmax stack) s); [lia|]. simpl.
  eexists. split; [reflexivity|]. split; [reflexivity|]. simpl.
  apply bind_length. intros r _.
  rewrite (bind_length _ _ 1%nat); [lia|]. intros c _. reflexivity.
Qed.

End WindowFacts.

Section SeedFacts.

Lemma argmax_from_bounds a best ibest i :
  0 <= ibest < i ->
  0 <= np.argmax_from best ibest i a < i + Z.of_nat (length a).
Proof.
  revert best ibest i. induction a as [|v a IH]; intros best ibest i Hi; simpl.
  - lia.
  - case_match.
    + specialize (IH v i (i + 1) ltac:(lia)). lia.
    + specialize (IH best ibest (i + 1) ltac:(lia)). lia.
Qed.

Lemma brightest_ok stack ys xs :
  1 <= zmax stack ->
  exists m, PSFStackAnalyzer.brightest stack ys xs = Ok m /\ 0 <= m < zmax stack.
Proof.
  intros Hz. unfold PSFStackAnalyzer.brightest.
  assert (Hsums : forall n, (n <= Z.to_nat (zmax stack))%nat ->
            forall k, (k + n <= Z.to_nat (zmax stack))%nat ->
            exists sums,
              foldr (fun z acc =>
                       let* acc := acc in
                       let* w := window stack (Z.of_nat z) ys xs in
                       Ok (np.sum (flat w) :: acc)) (Ok []) (seq k n) = Ok sums
              /\ length sums = n).
  { induction n as [|n IH]; intros Hn k Hk; simpl; [eauto|].
    destruct (IH ltac:(lia) (S k) ltac:(lia)) as (sums & -> & Hl). cbn [bind].
    destruct (window_ok stack (Z.of_nat k) ys xs ltac:(lia)) as (w & -> & _).
    cbn [bind]. eexists. split; [reflexivity|]. simpl. by rewrite Hl. }
  destruct (Hsums (Z.to_nat (zmax stack)) ltac:(lia) 0%nat ltac:(lia))
    as (sums & -> & Hl). cbn [bind].
  destruct sums as [|v sums]; [simpl in Hl; lia|]. simpl.
  eexists. split; [reflexivity|].
  pose proof (argmax_from_bounds sums v 0 1 ltac:(lia)). simpl in Hl. lia.
Qed.

End SeedFacts.

(** * More properties of the code *)

(** ** The shape of a window *)

Section WindowShape.
Import StackAnalyzer.

(** The indices of one axis of a window whose center lies on the axis. *)
Lemma axis_indices dim c width :
  0 <= width -> 0 <= c < dim ->
  slice_indices dim (axis dim c width)
  = map (fun k => Z.max 0 (c - width / 2) + Z.of_nat k)
        (seq 0 (Z.to_nat (Z.min (dim - 1) (c + (width - width / 2))
                          - Z.max 0 (c - width / 2)))).
Proof.
  intros Hw Hc. destruct (halves_nonneg width Hw) as [H1 H2].
  unfold slice_indices. rewrite axis_start, axis_stop.
  unfold half1, half2, slice_bound in *.
  repeat case_match; try lia;
    rewrite ?Z.min_l by lia; rewrite ?Z.min_r by lia; try reflexivity.
  all: f_equal; f_equal; lia.
Qed.

(** X1: away from the edges the window is the requested one: when the
    extent [center - width // 2, center + (width - width // 2)) lies
    strictly below the last row and the last column, [sliceMaker] clamps
    nothing, the rows and the columns are the [width] consecutive indices
    from [center - width // 2] on, and the window cut from any slice has
    the shape (width, width). *)
Theorem sliceMaker_interior stack y0 x0 width :
  0 <= width ->
  width / 2 <= y0 -> y0 + (width - width / 2) < ymax stack ->
  width / 2 <= x0 -> x0 + (width - width / 2) < xmax stack ->
  let ys := fst (sliceMaker stack y0 x0 width) in
  let xs := snd (sliceMaker stack y0 x0 width) in
  ys = Slice (y0 - width / 2) (y0 + (width - width / 2))
  /\ xs = Slice (x0 - width / 2) (x0 + (width - width / 2))
  /\ slice_indices (ymax stack) ys
     = map (fun k => y0 - width / 2 + Z.of_nat k) (seq 0 (Z.to_nat width))
  /\ slice_indices (xmax stack) xs
     = map (fun k => x0 - width / 2 + Z.of_nat k) (seq 0 (Z.to_nat width))
  /\ (forall s data,
        window stack s ys xs = Ok data ->
        shape data = [width; width]
        /\ length (flat data) = Z.to_nat (width * width)).
Proof.
  intros Hw Hy1 Hy2 Hx1 Hx2. cbv zeta.
  destruct (halves_nonneg width Hw) as [H1 H2]. unfold half1, half2 in *.
  assert (Hys : fst (sliceMaker stack y0 x0 width)
                = Slice (y0 - width / 2) (y0 + (width - width / 2))).
  { unfold sliceMaker. cbv zeta. cbn [fst].
    destruct (Z.ltb_spec (y0 - width / 2) 0); [lia|].
    destruct (Z.geb_spec (y0 + (width - width / 2)) (ymax stack)); [lia|done]. }
  assert (Hxs : snd (sliceMaker stack y0 x0 width)
                = Slice (x0 - width / 2) (x0 + (width - width / 2))).
  { unfold sliceMaker. cbv zeta. cbn [snd].
    destruct (Z.ltb_spec (x0 - width / 2) 0); [lia|].
    destruct (Z.geb_spec (x0 + (width - width / 2)) (xmax stack)); [lia|done]. }
  assert (Hidx : forall dim c,
            width / 2 <= c -> c + (width - width / 2) < dim ->
            slice_indices dim (Slice (c - width / 2) (c + (width - width / 2)))
            = map (fun k => c - width / 2 + Z.of_nat k) (seq 0 (Z.to_nat width))).
  { intros dim c Hc1 Hc2. unfold slice_indices, slice_bound. simpl.
    repeat case_match; try lia.
    rewrite !Z.min_l by lia. do 2 f_equal. lia. }
  rewrite Hys, Hxs. split; [done|]. split; [done|].
  split; [by apply Hidx|]. split; [by apply Hidx|].
  intros s data Hwin. unfold window in Hwin.
  destruct (_ || _); [done|]. injection Hwin as <-. simpl.
  rewrite !Hidx by done. rewrite !length_map, !length_seq.
  split; [by rewrite Z2Nat.id by lia|].
  rewrite (bind_length _ _ (Z.to_nat width)).
  - rewrite length_map, length_seq. lia.
  - intros r _. rewrite (bind_length _ _ 1%nat).
    + rewrite length_map, length_seq. lia.
    + done.
Qed.

Lemma sliceMaker_interior_witness :
  fst (sliceMaker (blank 3 64 64) 20 30 7) = Slice 17 24
  /\ slice_indices 64 (fst (sliceMaker (blank 3 64 64) 20 30 7))
     = [17; 18; 19; 20; 21; 22; 23].
Proof.
  destruct (sliceMaker_interior (blank 3 64 64) 20 30 7)
    as (Hys & _ & Hrows & _); try (vm_compute; first [reflexivity | discriminate]).
  split; [exact Hys | exact Hrows].
Defined.

(** X2: at an edge the window shrinks and never grows. For a center on
    the stack and a width >= 0, each axis of the window holds at most
    [width] indices, all of them on the stack; the window holds its own
    center exactly when the width is at least 1 and the center is not on
    the last row (or column). *)
Theorem sliceMaker_clipped stack y0 x0 width :
  0 <= width -> 0 <= y0 < ymax stack -> 0 <= x0 < xmax stack ->
  let rows := slice_indices (ymax stack) (fst (sliceMaker stack y0 x0 width)) in
  let cols := slice_indices (xmax stack) (snd (sliceMaker stack y0 x0 width)) in
  (length rows <= Z.to_nat width)%nat
  /\ (length cols <= Z.to_nat width)%nat
  /\ (forall i, i ∈ rows ->
        0 <= i < ymax stack /\ y0 - width / 2 <= i < y0 + (width - width / 2))
  /\ (forall j, j ∈ cols ->
        0 <= j < xmax stack /\ x0 - width / 2 <= j < x0 + (width - width / 2))
  /\ (y0 ∈ rows <-> 1 <= width /\ y0 <= ymax stack - 2)
  /\ (x0 ∈ cols <-> 1 <= width /\ x0 <= xmax stack - 2).
Proof.
  intros Hw Hy Hx. cbv zeta. rewrite sliceMaker_axes. cbn [fst snd].
  destruct (halves_nonneg width Hw) as [H1 H2]. unfold half1, half2 in *.
  assert (Haxis : forall dim c, 0 <= c < dim ->
            (length (slice_indices dim (axis dim c width)) <= Z.to_nat width)%nat
            /\ (forall i, i ∈ slice_indices dim (axis dim c width) ->
                  0 <= i < dim /\ c - width / 2 <= i < c + (width - width / 2))
            /\ (c ∈ slice_indices dim (axis dim c width)
                <-> 1 <= width /\ c <= dim - 2)).
  { intros dim c Hc. rewrite (axis_indices dim c width Hw Hc).
    split; [rewrite length_map, length_seq; lia|]. split.
    - intros i Hi. apply list_elem_of_fmap in Hi as (k & -> & Hk).
      apply elem_of_seq in Hk. lia.
    - rewrite list_elem_of_fmap. split.
      + intros (k & Hk & Hin). apply elem_of_seq in Hin. lia.
      + intros [Hw1 Hc2]. exists (Z.to_nat (c - Z.max 0 (c - width / 2))).
        assert (width / 2 < width) by (apply Z.div_lt; lia).
        split; [lia|]. apply elem_of_seq. lia. }
  destruct (Haxis (ymax stack) y0 Hy) as (Hly & Hiy & Hcy).
  destruct (Haxis (xmax stack) x0 Hx) as (Hlx & Hix & Hcx).
  done.
Qed.

Lemma sliceMaker_clipped_witness :
  (length (slice_indices 64 (fst (sliceMaker (blank 3 64 64) 63 1 10))) <= 10)%nat
  /\ ~ 63 ∈ slice_indices 64 (fst (sliceMaker (blank 3 64 64) 63 1 10))
  /\ 1 ∈ slice_indices 64 (snd (sliceMaker (blank 3 64 64) 63 1 10)).
Proof.
  destruct (sliceMaker_clipped (blank 3 64 64) 63 1 10)
    as (Hl & _ & _ & _ & Hy & Hx); try (vm_compute; split; first [reflexivity | discriminate]);
    try (vm_compute; discriminate).
  split; [exact Hl|]. split.
  - intros Hin. apply Hy in Hin. cbn [ymax blank] in Hin. lia.
  - apply Hx. cbn [xmax blank]. lia.
Defined.

End WindowShape.

(** ** The records of a track *)

Section TrackRows.
Context `{Numerics}.
Import StackAnalyzer.

(** Every pass through the loop of [fitPeak] records one row, labelled
    with the slice. *)
Lemma step_appends stack width mt st s st' :
  step stack width mt st s = Ok st' ->
  exists row,
    toreturn st' = toreturn st ++ [row] /\ row !! "slice" = Some (PyInt s).
Proof.
  unfold step. cbv zeta. intros Hstep.
  destruct (window _ _ _ _) as [data|]; [|done]. cbn [bind] in Hstep.
  destruct (Py.isub (popt_d st) _ _) as [d1|]; [|done]. cbn [bind] in Hstep.
  destruct (Py.isub d1 _ _) as [d2|]; [|done]. cbn [bind] in Hstep.
  destruct (attempt data d2 mt) as [fit|]; [|done]. cbn [bind] in Hstep.
  destruct (opt_params_dict fit) as [d|]; [|by destruct (negb _)].
  cbn [bind] in Hstep.
  destruct (negb (Gauss2D.error fit)).
  - destruct (Py.iadd d _ _) as [d3|]; [|done]. cbn [bind] in Hstep.
    destruct (Py.iadd d3 _ _) as [d4|]; [|done]. cbn [bind] in Hstep.
    destruct (Py.getitem _ "y0") as [vy|]; [|done]. cbn [bind] in Hstep.
    destruct (Py.int_round vy) as [cy|]; [|done]. cbn [bind] in Hstep.
    destruct (Py.getitem _ "x0") as [vx|]; [|done]. cbn [bind] in Hstep.
    destruct (Py.int_round vx) as [cx|]; [|done]. cbn [bind] in Hstep.
    injection Hstep as <-. simpl. eexists. split; [done|].
    by rewrite lookup_insert_eq.
  - injection Hstep as <-. simpl. eexists. split; [done|].
    by rewrite lookup_insert_eq.
Qed.

Lemma loop_appends stack width mt slices st st' :
  loop stack width mt slices st = Ok st' ->
  map (fun row => row !! "slice") (toreturn st')
  = map (fun row => row !! "slice") (toreturn st)
    ++ map (fun s => Some (PyInt s)) slices.
Proof.
  revert st. induction slices as [|s slices IH]; intros st; simpl.
  - intros [= <-]. by rewrite app_nil_r.
  - destruct (step stack width mt st s) as [st1|] eqn:Hstep; [|done].
    cbn [bind]. intros Hloop. rewrite (IH _ Hloop).
    destruct (step_appends _ _ _ _ _ _ Hstep) as (row & -> & Hrow).
    rewrite map_app. simpl. rewrite Hrow. by rewrite <- app_assoc.
Qed.

Lemma fitPeak_slices stack slices width startingfit rows :
  fitPeak stack slices width startingfit = Ok rows ->
  map (fun row => row !! "slice") rows
  = map (fun s => Some (PyInt s)) slices.
Proof.
  unfold fitPeak. intros Hfit.
  destruct (initial startingfit) as [st0|] eqn:Hinit; [|done].
  cbn [bind] in Hfit.
  destruct (loop _ _ _ _ _) as [st'|] eqn:Hloop; [|done].
  injection Hfit as <-. rewrite (loop_appends _ _ _ _ _ _ Hloop).
  unfold initial in Hinit.
  destruct (Py.getitem _ "y0") as [vy|]; [|done]. cbn [bind] in Hinit.
  destruct (Py.int_round vy) as [cy|]; [|done]. cbn [bind] in Hinit.
  destruct (Py.getitem _ "x0") as [vx|]; [|done]. cbn [bind] in Hinit.
  destruct (Py.int_round vx) as [cx|]; [|done]. cbn [bind] in Hinit.
  by injection Hinit as <-.
Qed.

(** X3: when [fitPeak] returns, it returns one record per slice it was
    given, in the order of the slices, and each record carries the number
    of its slice under the key 'slice', whether the fit of that slice
    succeeded or not. *)
Theorem fitPeak_one_row_per_slice stack slices width startingfit rows :
  fitPeak stack slices width startingfit = Ok rows ->
  length rows = length slices
  /\ map (fun row => row !! "slice") rows
     = map (fun s => Some (PyInt s)) slices
  /\ (forall k s, slices !! k = Some s ->
        exists row, rows !! k = Some row /\ row !! "slice" = Some (PyInt s)).
Proof.
  intros Hfit. apply fitPeak_slices in Hfit.
  assert (Hlen : length rows = length slices).
  { apply (f_equal length) in Hfit. by rewrite !length_map in Hfit. }
  split; [done|]. split; [done|].
  intros k s Hk.
  destruct (lookup_lt_is_Some_2 rows k) as [row Hrow].
  { rewrite Hlen. by eapply lookup_lt_Some. }
  exists row. split; [done|].
  apply (f_equal (fun l => l !! k)) in Hfit.
  rewrite !list_lookup_fmap, Hrow, Hk in Hfit. simpl in Hfit. congruence.
Qed.

(** X4: [fitPeak] reads the center of the starting fit before it looks
    at a slice. A starting fit without 'y0' or 'x0' raises KeyError, a
    center that is NaN raises ValueError and an infinite one
    OverflowError, whatever the slices; with a center that rounds and no
    slice to fit the result is the empty list. *)
Theorem fitPeak_reads_center_first stack slices width (d : gmap string pyval) :
  (d !! "y0" = None -> fitPeak stack slices width d = Raise KeyError)
  /\ (forall vy cy, d !! "y0" = Some vy -> Py.int_round vy = Ok cy ->
        d !! "x0" = None -> fitPeak stack slices width d = Raise KeyError)
  /\ (d !! "y0" = Some (PyFloat F64.nan) ->
        fitPeak stack slices width d = Raise ValueError)
  /\ (forall s, d !! "y0" = Some (PyFloat (S754_infinity s)) ->
        fitPeak stack slices width d = Raise OverflowError)
  /\ (forall vy cy, d !! "y0" = Some vy -> Py.int_round vy = Ok cy ->
        d !! "x0" = Some (PyFloat F64.nan) ->
        fitPeak stack slices width d = Raise ValueError)
  /\ (forall vy cy s, d !! "y0" = Some vy -> Py.int_round vy = Ok cy ->
        d !! "x0" = Some (PyFloat (S754_infinity s)) ->
        fitPeak stack slices width d = Raise OverflowError)
  /\ (forall vy cy vx cx, d !! "y0" = Some vy -> Py.int_round vy = Ok cy ->
        d !! "x0" = Some vx -> Py.int_round vx = Ok cx ->
        fitPeak stack [] width d = Ok []).
Proof.
  unfold fitPeak, initial, Py.getitem.
  split; [by intros ->|].
  split; [intros vy cy -> Hcy ->; cbn [bind]; by rewrite Hcy|].
  split; [by intros ->|].
  split; [by intros s ->|].
  split; [intros vy cy -> Hcy ->; cbn [bind]; by rewrite Hcy|].
  split; [intros vy cy s -> Hcy ->; cbn [bind]; by rewrite Hcy|].
  intros vy cy vx cx -> Hcy -> Hcx. cbn [bind]. rewrite Hcy. cbn [bind].
  by rewrite Hcx.
Qed.

End TrackRows.

Lemma fitPeak_one_row_per_slice_witness :
  exists rows,
    @StackAnalyzer.fitPeak never_converges dark [1; 0] 2 start_dark = Ok rows
    /\ map (fun row => row !! "slice") rows
       = [Some (PyInt 1); Some (PyInt 0)].
Proof.
  assert (Hfit : { rows | @StackAnalyzer.fitPeak never_converges dark [1; 0] 2
                            start_dark = Ok rows })
    by (eexists; vm_compute; reflexivity).
  destruct Hfit as [rows Hfit]. exists rows. split; [exact Hfit|].
  exact (proj1 (proj2 (@fitPeak_one_row_per_slice never_converges dark [1; 0] 2
                         start_dark rows Hfit))).
Defined.

(** ** The table of a peak *)

Section PeakTable.
Context `{Numerics}.
Import PSFStackAnalyzer.

Lemma window_sums_length stack ys xs k n sums :
  foldr (fun z acc =>
           let* acc := acc in
           let* w := window stack (Z.of_nat z) ys xs in
           Ok (np.sum (flat w) :: acc)) (Ok []) (seq k n) = Ok sums ->
  length sums = n.
Proof.
  revert k sums. induction n as [|n IH]; intros k sums; simpl.
  - by intros [= <-].
  - destruct (foldr _ _ (seq (S k) n)) as [acc|] eqn:Hacc; [|done].
    cbn [bind]. destruct (window _ _ _ _) as [w|]; [|done]. cbn [bind].
    intros [= <-]. simpl. f_equal. by eapply IH.
Qed.

(** The brightest slice is a slice of the stack. *)
Lemma brightest_range stack ys xs m :
  brightest stack ys xs = Ok m -> 0 <= m < zmax stack.
Proof.
  unfold brightest.
  destruct (foldr _ _ _) as [sums|] eqn:Hsums; [|done]. cbn [bind].
  apply window_sums_length in Hsums.
  destruct sums as [|v sums]; [done|]. simpl. intros [= <-].
  pose proof (argmax_from_bounds sums v 0 1 ltac:(lia)). simpl in Hsums. lia.
Qed.

Lemma entries_index rs es :
  pd.entries "slice" rs = Ok es ->
  map (fun r => r !! "slice") rs = map (fun e => Some (PyInt e.1)) es.
Proof.
  revert es. induction rs as [|r rs IH]; intros es; simpl.
  - by intros [= <-].
  - destruct (pd.entry "slice" r) as [e|] eqn:He; [|done]. cbn [bind].
    destruct (pd.entries "slice" rs) as [es'|]; [|done]. cbn [bind].
    intros [= <-]. simpl. rewrite (IH es' eq_refl). f_equal.
    unfold pd.entry in He.
    destruct (r !! "slice") as [[f|z]|]; try done. by injection He as <-.
Qed.

Lemma abs_columns_rows cols df df' :
  pd.abs_columns cols df = Ok df' ->
  pd.rows df'
  = map (fun e =>
           (e.1, foldr (fun c row => <[c := F64.abs (pd.cell row c)]> row)
                       e.2 cols)) (pd.rows df).
Proof. unfold pd.abs_columns. case_match; [|done]. by intros [= <-]. Qed.

Lemma insert_row_perm e l : pd.insert_row e l ≡ₚ e :: l.
Proof.
  induction l as [|e' l IH]; simpl; [done|].
  case_match; [done|]. by rewrite IH, Permutation_swap.
Qed.

Lemma sort_perm l : foldr pd.insert_row [] l ≡ₚ l.
Proof.
  induction l as [|e l IH]; simpl; [done|]. by rewrite insert_row_perm, IH.
Qed.

Lemma insert_row_sorted e l :
  StronglySorted Z.le (map fst l) ->
  StronglySorted Z.le (map fst (pd.insert_row e l)).
Proof.
  induction l as [|e' l IH]; simpl; intros Hs.
  - repeat constructor.
  - inversion Hs as [|? ? Hl Hall]; subst.
    destruct (Z.leb_spec e.1 e'.1) as [Hle|Hgt]; simpl.
    + constructor; [done|]. constructor; [done|].
      eapply Forall_impl; [exact Hall|]. simpl. lia.
    + constructor; [by apply IH|].
      rewrite (insert_row_perm e l). simpl. constructor; [lia|done].
Qed.

Lemma sort_sorted l : StronglySorted Z.le (map fst (foldr pd.insert_row [] l)).
Proof.
  induction l as [|e l IH]; simpl; [constructor|]. by apply insert_row_sorted.
Qed.

Lemma seq_sorted k n : StronglySorted Z.le (map Z.of_nat (seq k n)).
Proof.
  revert k. induction n as [|n IH]; intros k; simpl; constructor; [apply IH|].
  apply Forall_forall. intros z Hz. apply list_elem_of_fmap in Hz as (j & -> & Hj).
  apply elem_of_seq in Hj. lia.
Qed.

Lemma seq_shifted (b a k : nat) :
  map (fun j => Z.of_nat b + 1 + Z.of_nat j) (seq k a)
  = map Z.of_nat (seq (S b + k) a).
Proof.
  revert k. induction a as [|a IH]; intros k; simpl; [done|].
  f_equal; [lia|]. rewrite IH. f_equal. f_equal. lia.
Qed.

(** The slices of a peak: the brightest one, those above it in rising
    order and those below it in falling order are the slices of the
    stack. *)
Lemma track_order_perm (n : nat) (m : Z) :
  0 <= m < Z.of_nat n ->
  m :: map (fun k => m + 1 + Z.of_nat k) (seq 0 (Z.to_nat (Z.of_nat n - (m + 1))))
    ++ rev (map Z.of_nat (seq 0 (Z.to_nat m)))
  ≡ₚ map Z.of_nat (seq 0 n).
Proof.
  intros Hm.
  remember (Z.to_nat (Z.of_nat n - (m + 1))) as a eqn:Ha.
  remember (Z.to_nat m) as b eqn:Hb.
  assert (Hn : n = (b + S a)%nat) by lia.
  assert (Hmb : m = Z.of_nat b) by lia.
  clear Ha Hb Hm. subst n m.
  rewrite seq_app, map_app. simpl. rewrite <- Permutation_rev.
  rewrite (Permutation_app_comm (map Z.of_nat (seq 0 b))). simpl.
  constructor. apply Permutation_app; [|done].
  rewrite seq_shifted. by rewrite Nat.add_0_r.
Qed.

Lemma labels_inj (l1 l2 : list Z) :
  map (fun z => Some (PyInt z)) l1 = map (fun z => Some (PyInt z)) l2 ->
  l1 = l2.
Proof.
  revert l2. induction l1 as [|a l1 IH]; intros [|b l2]; simpl; try done.
  intros [= -> Hl]. f_equal. by apply IH.
Qed.

Lemma iadd_slice d k z d' :
  k <> "slice"%string -> Py.iadd d k z = Ok d' -> d' !! "slice" = d !! "slice".
Proof.
  intros Hk. unfold Py.iadd.
  destruct (Py.getitem d k) as [v|]; [|done]. cbn [bind]. intros [= <-].
  by rewrite lookup_insert_ne.
Qed.

(** What [fitBlob] returns for a fittable blob: the sorted table of the
    seed row followed by the rows of the two tracks, the widths replaced
    by their absolute values. *)
Lemma fitBlob_table stack fitwidth mt blob df :
  fitBlob stack fitwidth mt blob = Ok (Some df) ->
  exists m row0 fwd bwd df0 df1,
    0 <= m < zmax stack
    /\ row0 !! "slice" = Some (PyInt m)
    /\ StackAnalyzer.fitPeak stack
         (map (fun k => m + 1 + Z.of_nat k)
              (seq 0 (Z.to_nat (zmax stack - (m + 1)))))
         fitwidth (delete "slice" row0) = Ok fwd
    /\ StackAnalyzer.fitPeak stack (rev (map Z.of_nat (seq 0 (Z.to_nat m))))
         fitwidth (delete "slice" row0) = Ok bwd
    /\ pd.of_records "slice" (([row0] ++ fwd) ++ bwd) = Ok df0
    /\ pd.abs_columns ["sigma_x"; "sigma_y"]%string df0 = Ok df1
    /\ df = pd.sort df1.
Proof.
  unfold fitBlob. cbv zeta. intros Hfit.
  destruct (brightest _ _ _) as [m|] eqn:Hm; [|done]. cbn [bind] in Hfit.
  apply brightest_range in Hm.
  destruct (window _ _ _ _) as [substack|]; [|done]. cbn [bind] in Hfit.
  destruct (Gauss2D.optimize_params_ls _ _ _) as [[max_z popt]|]; [|done].
  cbn [bind] in Hfit.
  destruct (Gauss2D.opt_params max_z) as [opt|]; [|done]. cbn [bind] in Hfit.
  destruct (np.all_finite opt); [|done].
  destruct (opt_params_dict max_z) as [d|]; [|done]. cbn [bind] in Hfit.
  destruct (Py.iadd _ "x0" _) as [d1|] eqn:Hd1; [|done]. cbn [bind] in Hfit.
  destruct (Py.iadd d1 "y0" _) as [d2|] eqn:Hd2; [|done]. cbn [bind] in Hfit.
  destruct (StackAnalyzer.fitPeak _ (map _ _) _ _) as [fwd|] eqn:Hfwd; [|done].
  cbn [bind] in Hfit.
  destruct (StackAnalyzer.fitPeak _ (rev _) _ _) as [bwd|] eqn:Hbwd; [|done].
  cbn [bind] in Hfit.
  destruct (pd.of_records _ _) as [df0|] eqn:Hdf0; [|done]. cbn [bind] in Hfit.
  destruct (pd.abs_columns _ _) as [df1|] eqn:Hdf1; [|done]. cbn [bind] in Hfit.
  injection Hfit as <-.
  exists m, d2, fwd, bwd, df0, df1. split; [done|].
  split; [|repeat split; assumption].
  rewrite (iadd_slice _ "y0" _ _ ltac:(done) Hd2).
  rewrite (iadd_slice _ "x0" _ _ ltac:(done) Hd1).
  by rewrite lookup_insert_eq.
Qed.

(** X5: the table [fitPeaks] builds for a fittable blob has exactly one
    row for every slice of the stack, and its rows are in the order of
    the slices: the index of the table is 0, 1, ..., zmax - 1. The seed
    slice, the slices above it and the slices below it, which are fitted
    in that order, are put back in place by the final sort. *)
Theorem fitBlob_one_row_per_slice stack fitwidth mt blob df :
  fitBlob stack fitwidth mt blob = Ok (Some df) ->
  map fst (pd.rows df) = map Z.of_nat (seq 0 (Z.to_nat (zmax stack)))
  /\ length (pd.rows df) = Z.to_nat (zmax stack).
Proof.
  intros Hfit.
  destruct (fitBlob_table _ _ _ _ _ Hfit)
    as (m & row0 & fwd & bwd & df0 & df1 & Hm & Hrow0 & Hfwd & Hbwd
        & Hdf0 & Hdf1 & ->).
  assert (Hidx : map fst (pd.rows (pd.sort df1))
                 = map Z.of_nat (seq 0 (Z.to_nat (zmax stack)))).
  { apply (StronglySorted_unique Z.le);
      [apply sort_sorted | apply seq_sorted |].
    simpl. rewrite sort_perm.
    rewrite (abs_columns_rows _ _ _ Hdf1), map_map. simpl.
    unfold pd.of_records in Hdf0.
    destruct (pd.entries _ _) as [es|] eqn:Hes; [|done].
    injection Hdf0 as <-. simpl.
    apply entries_index in Hes.
    rewrite !map_app in Hes. simpl in Hes.
    rewrite (fitPeak_slices _ _ _ _ _ Hfwd), (fitPeak_slices _ _ _ _ _ Hbwd),
      Hrow0 in Hes.
    assert (Hkeys : map fst es
                    = m :: map (fun k => m + 1 + Z.of_nat k)
                               (seq 0 (Z.to_nat (zmax stack - (m + 1))))
                        ++ rev (map Z.of_nat (seq 0 (Z.to_nat m)))).
    { apply labels_inj. rewrite map_map. simpl. rewrite <- Hes. simpl.
      by rewrite map_app. }
    change (map (fun x : Z * gmap string float => x.1) es) with (map fst es).
    rewrite Hkeys.
    rewrite <- (track_order_perm (Z.to_nat (zmax stack)) m) by lia.
    by rewrite Z2Nat.id by lia. }
  split; [done|].
  apply (f_equal length) in Hidx. by rewrite !length_map, length_seq in Hidx.
Qed.

(** X6: in the table of a peak no width is negative: for every row the
    entries 'sigma_x' and 'sigma_y' are their own absolute values, so
    the sign of a width that the solver returned negative is lost. *)
Theorem fitBlob_widths_not_negative stack fitwidth mt blob df :
  fitBlob stack fitwidth mt blob = Ok (Some df) ->
  forall e c, e ∈ pd.rows df -> c ∈ ["sigma_x"; "sigma_y"]%string ->
    F64.abs (pd.cell e.2 c) = pd.cell e.2 c
    /\ F64.ltb (pd.cell e.2 c) F64.zero = false.
Proof.
  intros Hfit e c He Hc.
  destruct (fitBlob_table _ _ _ _ _ Hfit)
    as (m & row0 & fwd & bwd & df0 & df1 & _ & _ & _ & _ & _ & Hdf1 & ->).
  simpl in He. rewrite sort_perm in He.
  rewrite (abs_columns_rows _ _ _ Hdf1) in He.
  apply list_elem_of_fmap in He as (e0 & -> & _). simpl.
  assert (Habs : exists v, pd.cell
             (<["sigma_x":=F64.abs (pd.cell (<["sigma_y":=F64.abs (pd.cell e0.2 "sigma_y")]> e0.2) "sigma_x")]>
                (<["sigma_y":=F64.abs (pd.cell e0.2 "sigma_y")]> e0.2)) c
             = F64.abs v).
  { apply elem_of_cons in Hc as [->|Hc].
    - eexists. unfold pd.cell at 1. by rewrite lookup_insert_eq.
    - apply list_elem_of_singleton in Hc as ->.
      eexists. unfold pd.cell at 1. rewrite lookup_insert_ne by done.
      by rewrite lookup_insert_eq. }
  destruct Habs as [v ->]. by destruct v as [[]|[]| |[] ? ?].
Qed.

End PeakTable.

(** The table of the bead of the example stack. *)
Lemma bead_table :
  { df | @PSFStackAnalyzer.fitBlob converges_from_estimate bead 4 full
           (blob_at 5 5) = Ok (Some df) }.
Proof. eexists. vm_compute. reflexivity. Defined.

Lemma fitBlob_one_row_per_slice_witness :
  exists df,
    @PSFStackAnalyzer.fitBlob converges_from_estimate bead 4 full (blob_at 5 5)
    = Ok (Some df)
    /\ map fst (pd.rows df) = [0; 1; 2].
Proof.
  exists (proj1_sig bead_table). split; [exact (proj2_sig bead_table)|].
  exact (proj1 (@fitBlob_one_row_per_slice converges_from_estimate bead 4 full
                  (blob_at 5 5) _ (proj2_sig bead_table))).
Defined.

Lemma fitBlob_widths_not_negative_witness :
  exists df,
    @PSFStackAnalyzer.fitBlob converges_from_estimate bead 4 full (blob_at 5 5)
    = Ok (Some df)
    /\ forall e, e ∈ pd.rows df ->
         F64.ltb (pd.cell e.2 "sigma_x") F64.zero = false.
Proof.
  exists (proj1_sig bead_table). split; [exact (proj2_sig bead_table)|].
  intros e He.
  refine (proj2 (@fitBlob_widths_not_negative converges_from_estimate bead 4
                   full (blob_at 5 5) _ (proj2_sig bead_table) e "sigma_x"
                   He _)).
  apply list_elem_of_In. simpl. left. reflexivity.
Defined.

(** ** The parameters of the PSF *)

Section ProfileFacts.
Context `{Numerics}.
Import PSFStackAnalyzer.

Lemma profile_column df c :
  c ∈ pd.columns df ->
  pd.column df c = Ok (map (fun e => pd.cell e.2 c) (pd.rows df)).
Proof. intros Hc. unfold pd.column. by rewrite bool_decide_eq_true_2. Qed.

Lemma profile_column_elem c : In c profile_columns -> c ∈ profile_columns.
Proof. apply list_elem_of_In. Qed.

(** The profile [psf_of_fit] works on depends on the table through its
    columns and the rows that are kept. *)
Lemma psf_of_fit_rows subrange withoffset trim guess_z df df' :
  pd.columns df = pd.columns df' ->
  pd.rows (pd.loc subrange (pd.dropna df))
  = pd.rows (pd.loc subrange (pd.dropna df')) ->
  psf_of_fit subrange withoffset trim guess_z df
  = psf_of_fit subrange withoffset trim guess_z df'.
Proof.
  intros Hcols Hrows. unfold psf_of_fit.
  assert (Heq : pd.loc subrange (pd.dropna df) = pd.loc subrange (pd.dropna df')).
  { unfold pd.loc. f_equal; [exact Hcols | exact Hrows]. }
  by rewrite Heq.
Qed.

Lemma dropped_row subrange df e :
  has_nan df e \/ outside subrange e ->
  filter (fun e => (from_option (fun lo => lo <=? e.1) true subrange.1
                    && from_option (fun hi => e.1 <=? hi) true subrange.2) = true)
    (filter (fun e => forallb (fun c => negb (F64.is_nan (pd.cell e.2 c)))
                              (elements (pd.columns df)) = true) [e]) = [].
Proof.
  intros [(c & Hc & Hnan)|Hout].
  - rewrite filter_cons_False, filter_nil; [done|].
    intros Hall. rewrite forallb_forall in Hall.
    specialize (Hall c). rewrite Hnan in Hall. simpl in Hall.
    assert (false = true); [|done]. apply Hall.
    apply list_elem_of_In. by apply elem_of_elements.
  - destruct (decide (forallb (fun c => negb (F64.is_nan (pd.cell e.2 c)))
                              (elements (pd.columns df)) = true)) as [Hp|Hp].
    + rewrite filter_cons_True, filter_nil by done.
      rewrite filter_cons_False, filter_nil; [done|].
      destruct Hout as [(lo & -> & Hlo)|(hi & -> & Hhi)]; simpl.
      * destruct (Z.leb_spec lo e.1); [lia|done].
      * destruct (Z.leb_spec e.1 hi); [lia|]. by rewrite andb_false_r.
    + by rewrite filter_cons_False, filter_nil.
Qed.

(** X7: a row of the table that holds a NaN, and a row whose label lies
    outside the sub-range, have no influence on the PSF parameters of
    the peak: a table sorted by slice, as [fitPeaks] leaves it, gives
    with such a row what it gives without it, be it a result or an
    exception. *)
Theorem psf_of_fit_ignores_row subrange withoffset trim guess_z cols l1 l2 e :
  StronglySorted Z.le (map fst (l1 ++ e :: l2)) ->
  has_nan {| pd.columns := cols; pd.rows := l1 ++ l2 |} e
  \/ outside subrange e ->
  psf_of_fit subrange withoffset trim guess_z
    {| pd.columns := cols; pd.rows := l1 ++ e :: l2 |}
  = psf_of_fit subrange withoffset trim guess_z
      {| pd.columns := cols; pd.rows := l1 ++ l2 |}.
Proof.
  intros _ He. apply psf_of_fit_rows; [done|]. simpl.
  pose proof (dropped_row subrange {| pd.columns := cols; pd.rows := l1 ++ l2 |}
                e He) as Hdrop. simpl in Hdrop.
  rewrite (cons_middle e l1 l2). rewrite !filter_app. rewrite Hdrop.
  by rewrite app_nil_l.
Qed.

Lemma prepare_nonempty xdata ydata trim guess_z r :
  utils.prepare xdata ydata trim guess_z = Ok r -> ydata <> [].
Proof. intros Hp ->. by unfold utils.prepare in Hp. Qed.

Lemma interp_nan xp fp :
  (2 <= length xp)%nat -> length xp = length fp ->
  np.interp F64.nan xp fp = Ok F64.nan.
Proof.
  intros Hne Hlen. unfold np.interp.
  destruct xp as [|x0 [|x1 xp]]; [simpl in Hne; lia..|].
  destruct fp as [|y0 fp]; [done|].
  rewrite bool_decide_eq_true_2 by done.
  rewrite bool_decide_eq_false_2 by (simpl; lia). reflexivity.
Qed.

(** X8: when the solver of the profile fit fails with RuntimeError and
    the profile of the peak has two rows or more, the peak is kept: its
    row of PSF parameters is made of the four NaN of [gauss_fit], and the
    positions and widths interpolated at a NaN depth are NaN as well, so
    that all seven entries are NaN.  (A single sample point is not
    interpolated by [np.interp].) *)
Theorem psf_of_fit_failed_profile subrange withoffset trim guess_z df
    offset p0 x y :
  Forall (fun c => c ∈ pd.columns df) profile_columns ->
  (2 <= length (pd.rows (pd.loc subrange (pd.dropna df))))%nat ->
  utils.prepare
    (pd.index_values (pd.loc subrange (pd.dropna df)))
    (map (fun e => pd.cell e.2 "amp") (pd.rows (pd.loc subrange (pd.dropna df))))
    trim guess_z = Ok (offset, p0, x, y) ->
  utils.solve withoffset offset p0 x y = Raise RuntimeError ->
  psf_of_fit subrange withoffset trim guess_z df = Ok nan_params.
Proof.
  intros Hcols Hrows Hprep Hsolve. unfold psf_of_fit.
  set (tempfit := pd.loc subrange (pd.dropna df)) in *.
  assert (Hcol : forall c, In c profile_columns ->
            pd.column tempfit c = Ok (map (fun e => pd.cell e.2 c) (pd.rows tempfit))).
  { intros c Hc. apply profile_column. simpl.
    rewrite Forall_forall in Hcols. by apply Hcols, profile_column_elem. }
  rewrite !Hcol by (simpl; tauto). cbn [bind].
  destruct (prepare_p0 _ _ _ _ _ _ _ _ Hprep) as (amp & x0 & sx & ->).
  unfold gauss_fit, utils.gauss_fit. rewrite Hprep. cbn [bind].
  rewrite Hsolve. cbn [bind map]. rewrite !mul_nan_r. cbn [bind].
  assert (Hz : (2 <= length (pd.index_values tempfit))%nat).
  { unfold pd.index_values. by rewrite length_map. }
  assert (Hl : forall c,
             length (pd.index_values tempfit)
             = length (map (fun e => pd.cell e.2 c) (pd.rows tempfit)))
    by (intros c; unfold pd.index_values; by rewrite !length_map).
  rewrite !interp_nan by (done || apply Hl). reflexivity.
Qed.


End ProfileFacts.

Lemma psf_of_fit_ignores_row_witness :
  @PSFStackAnalyzer.psf_of_fit never_converges (None, Some 2) true None None
    {| pd.columns := params_set;
       pd.rows := pd.rows peak_table ++ [table_row 3 [9; 5; 5; 1; 1; 0; 0]] |}
  = @PSFStackAnalyzer.psf_of_fit never_converges (None, Some 2) true None None
      {| pd.columns := params_set; pd.rows := pd.rows peak_table ++ [] |}.
Proof.
  apply (@psf_of_fit_ignores_row never_converges).
  - exact (seq_sorted 0 4).
  - right. right. exists 2. split; [reflexivity|]. simpl. lia.
Defined.

Lemma psf_of_fit_failed_profile_witness :
  @PSFStackAnalyzer.psf_of_fit never_converges (None, None) true None None
    long_table = Ok nan_params.
Proof.
  assert (Hp : { r | @utils.prepare
                       (pd.index_values (pd.loc (None, None) (pd.dropna long_table)))
                       (map (fun e => pd.cell e.2 "amp")
                            (pd.rows (pd.loc (None, None) (pd.dropna long_table))))
                       None None = Ok r })
    by (eexists; vm_compute; reflexivity).
  destruct Hp as [[[[offset p0] x] y] Hp].
  apply (@psf_of_fit_failed_profile never_converges (None, None) true None None
           long_table offset p0 x y).
  - repeat constructor; vm_compute; reflexivity.
  - vm_compute. lia.
  - exact Hp.
  - unfold utils.solve, curve_fit.
    destruct (utils.gauss x p0) as [v|e] eqn:Hg.
    + reflexivity.
    + vm_compute in Hp. injection Hp as _ <- <- _. vm_compute in Hg.
      discriminate.
Defined.


(** ** The profile fit: [gauss_fit] *)

Section ProfileFit.
Context `{Numerics}.
Import utils.
Open Scope f64_scope.

(** X10: without an offset the solver fits three parameters, started
    from the first three entries of the estimate, and [gauss_fit] puts the
    minimum of the data behind them: the fourth entry of the result is
    not fitted, it is [ydata.min()]. *)
Theorem gauss_fit_without_offset xdata ydata trim guess_z offset p0 x y a c s :
  length xdata = length ydata ->
  prepare xdata ydata trim guess_z = Ok (offset, p0, x, y) ->
  curve_fit false gauss_no_offset x y (take 3 p0) = Ok [a; c; s] ->
  gauss_fit xdata ydata false trim guess_z = Ok [a; c; s; offset]
  /\ np.min ydata = Ok offset
  /\ exists amp0 x0 sigma0,
      p0 = [amp0; x0; sigma0; offset] /\ take 3 p0 = [amp0; x0; sigma0].
Proof.
  intros _ Hprep Hfit. split; [|split].
  - unfold gauss_fit. rewrite Hprep. cbn [bind]. unfold solve.
    by rewrite Hfit.
  - unfold prepare in Hprep.
    destruct (np.min ydata) as [off|]; [|done]. cbn [bind] in Hprep.
    destruct (np.max _) as [amp|]; [|done]. cbn [bind] in Hprep.
    destruct trim; by injection Hprep as <- _ _ _.
  - destruct (prepare_p0 _ _ _ _ _ _ _ _ Hprep) as (amp & x0 & sx & ->).
    by exists amp, x0, sx.
Qed.

(** The points a mask keeps. *)
Lemma mask_zip (f : float -> bool) (xs ys : list float) :
  length xs = length ys ->
  zip (map snd (filter (fun p : bool * float => p.1 = true) (zip (map f xs) xs)))
      (map snd (filter (fun p : bool * float => p.1 = true) (zip (map f xs) ys)))
  = filter (fun p : float * float => f p.1 = true) (zip xs ys)
  /\ length (map snd (filter (fun p : bool * float => p.1 = true)
                             (zip (map f xs) xs)))
     = length (map snd (filter (fun p : bool * float => p.1 = true)
                               (zip (map f xs) ys))).
Proof.
  revert ys. induction xs as [|a xs IH]; intros [|b ys] Hlen; try done.
  injection Hlen as Hlen. destruct (IH ys Hlen) as [IH1 IH2]. simpl.
  destruct (f a) eqn:Hfa.
  - rewrite !filter_cons_True by done. simpl. by rewrite IH1, IH2.
  - rewrite !filter_cons_False by (simpl; congruence). done.
Qed.

Lemma mask_none (f : float -> bool) (xs ys : list float) :
  (forall a, f a = false) ->
  map snd (filter (fun p : bool * float => p.1 = true) (zip (map f xs) ys)) = [].
Proof.
  intros Hf. revert ys. induction xs as [|a xs IH]; intros [|b ys]; try done.
  simpl. rewrite filter_cons_False by (simpl; rewrite Hf; congruence).
  apply IH.
Qed.

Lemma ltb_nan_r a : F64.ltb a F64.nan = false.
Proof. by destruct a as [[]|[]| |[] ? ?]. Qed.

Lemma sub_nan_r a : a - F64.nan = F64.nan.
Proof. by destruct a as [[]|[]| |[] ? ?]. Qed.

(** X11: the trim keeps the points whose distance to the estimated
    center is below [trim] times the estimated width, and it keeps the
    two arrays aligned: the pairs (x, y) that are left are the pairs of
    the data that pass the test, in their order. When the estimated
    width, the estimated center or [trim] is NaN the test fails for every
    point, and the solver is handed two empty arrays. *)
Theorem gauss_fit_trim xdata ydata t guess_z offset p0 x y :
  length xdata = length ydata ->
  prepare xdata ydata (Some t) guess_z = Ok (offset, p0, x, y) ->
  exists amp x0 sigma,
    p0 = [amp; x0; sigma; offset]
    /\ length x = length y
    /\ zip x y
       = filter (fun p => F64.ltb (F64.abs (p.1 - x0)) (t * sigma) = true)
                (zip xdata ydata)
    /\ (F64.is_nan sigma = true \/ F64.is_nan x0 = true \/ F64.is_nan t = true ->
        x = [] /\ y = []).
Proof.
  intros Hlen Hprep. unfold prepare in Hprep.
  destruct (np.min ydata) as [off|]; [|done]. cbn [bind] in Hprep.
  destruct (np.max _) as [amp|]; [|done]. cbn [bind] in Hprep.
  injection Hprep as <- <- <- <-.
  eexists amp, _, _. split; [reflexivity|].
  match goal with
  | |- context [F64.ltb (F64.abs (_ - ?c)) (t * ?s)] =>
      set (sigma := s); set (x0 := c)
  end.
  destruct (mask_zip (fun xi => F64.ltb (F64.abs (xi - x0)) (t * sigma))
              xdata ydata Hlen) as [Hzip Hl].
  split; [exact Hl|]. split; [exact Hzip|].
  intros Hnan.
  assert (Hnone : forall a, F64.ltb (F64.abs (a - x0)) (t * sigma) = false).
  { intros a. destruct Hnan as [Hs|[Hx|Ht]].
    - apply is_nan_true in Hs. rewrite Hs, mul_nan_r. apply ltb_nan_r.
    - apply is_nan_true in Hx. rewrite Hx, sub_nan_r. reflexivity.
    - apply is_nan_true in Ht. rewrite Ht.
      replace (F64.nan * sigma) with F64.nan by (by destruct sigma).
      apply ltb_nan_r. }
  split; by apply mask_none.
Qed.

End ProfileFit.

Lemma gauss_fit_without_offset_witness :
  exists popt,
    @utils.gauss_fit converges_at_start profile_z profile_amp false None None
    = Ok popt
    /\ popt !! 3%nat = Some (F64.of_Z 1).
Proof.
  assert (Hp : { r | @utils.prepare profile_z profile_amp None None = Ok r })
    by (eexists; vm_compute; reflexivity).
  destruct Hp as [[[[offset p0] x] y] Hp].
  assert (Hf : { r | @curve_fit converges_at_start _ false
                       (@utils.gauss_no_offset converges_at_start)
                       x y (take 3 p0) = Ok [r.1.1; r.1.2; r.2] }).
  { vm_compute in Hp. injection Hp as _ <- <- <-.
    eexists (_, _, _). vm_compute. reflexivity. }
  destruct Hf as [[[a c] s] Hf]. simpl in Hf.
  destruct (@gauss_fit_without_offset converges_at_start profile_z profile_amp
              None None offset p0 x y a c s eq_refl Hp Hf) as (Hfit & Hmin & _).
  eexists. split; [exact Hfit|]. simpl.
  vm_compute in Hmin. by injection Hmin as <-.
Defined.

Lemma gauss_fit_trim_witness :
  exists offset p0 x y,
    @utils.prepare profile_z profile_amp (Some (F64.of_Z 1)) None
    = Ok (offset, p0, x, y)
    /\ length x = length y.
Proof.
  assert (Hp : { r | @utils.prepare profile_z profile_amp (Some (F64.of_Z 1)) None
                     = Ok r })
    by (eexists; vm_compute; reflexivity).
  destruct Hp as [[[[offset p0] x] y] Hp].
  exists offset, p0, x, y. split; [exact Hp|].
  destruct (@gauss_fit_trim profile_z profile_amp (F64.of_Z 1) None offset p0 x y
              eq_refl Hp) as (amp & x0 & sigma & _ & Hl & _).
  exact Hl.
Defined.

(** ** The estimate and the fit of a window *)

Section EstimateMore.
Import Gauss2D.

Lemma add_nan_l a : (F64.nan + a)%f64 = F64.nan.
Proof. by destruct a as [[]|[]| |[] ? ?]. Qed.

Lemma add_nan_r a : (a + F64.nan)%f64 = F64.nan.
Proof. by destruct a as [[]|[]| |[] ? ?]. Qed.

Lemma mul_nan_l a : (F64.nan * a)%f64 = F64.nan.
Proof. by destruct a as [[]|[]| |[] ? ?]. Qed.

Lemma maximum_nan_r a : np.maximum a F64.nan = F64.nan.
Proof. by destruct a as [[]|[]| |[] ? ?]. Qed.

Lemma minimum_nan_r a : np.minimum a F64.nan = F64.nan.
Proof. by destruct a as [[]|[]| |[] ? ?]. Qed.

Lemma maximum_nan_l a : np.maximum F64.nan a = F64.nan.
Proof. unfold np.maximum. by destruct (F64.leb a F64.nan). Qed.

Lemma minimum_nan_l a : np.minimum F64.nan a = F64.nan.
Proof. unfold np.minimum. by destruct (F64.leb F64.nan a). Qed.

(** [np.max] and [np.min] propagate NaN. *)
Lemma fold_maximum_nan xs x :
  F64.nan ∈ x :: xs -> fold_left np.maximum xs x = F64.nan.
Proof.
  revert x. induction xs as [|y xs IH]; intros x Hin; simpl.
  - by apply list_elem_of_singleton in Hin.
  - apply IH. apply elem_of_cons in Hin as [<-|Hin].
    + rewrite maximum_nan_l. left.
    + apply elem_of_cons in Hin as [<-|Hin]; [|by right].
      rewrite maximum_nan_r. left.
Qed.

Lemma fold_minimum_nan xs x :
  F64.nan ∈ x :: xs -> fold_left np.minimum xs x = F64.nan.
Proof.
  revert x. induction xs as [|y xs IH]; intros x Hin; simpl.
  - by apply list_elem_of_singleton in Hin.
  - apply IH. apply elem_of_cons in Hin as [<-|Hin].
    + rewrite minimum_nan_l. left.
    + apply elem_of_cons in Hin as [<-|Hin]; [|by right].
      rewrite minimum_nan_r. left.
Qed.

(** A sum with a NaN term is NaN. *)
Lemma fold_add_nan {A} (step : float -> A -> float) (g : A -> float)
    (l : list A) acc :
  (forall acc a, step acc a = (acc + g a)%f64) ->
  acc = F64.nan \/ (exists a, a ∈ l /\ g a = F64.nan) ->
  fold_left step l acc = F64.nan.
Proof.
  intros Hstep. revert acc.
  induction l as [|b l IH]; intros acc [Hacc|(a & Ha & Hg)]; simpl.
  - done.
  - by apply elem_of_nil in Ha.
  - apply IH. left. by rewrite Hstep, Hacc, add_nan_l.
  - apply IH. apply elem_of_cons in Ha as [->|Ha].
    + left. by rewrite Hstep, Hg, add_nan_r.
    + right. eauto.
Qed.

Lemma moment_nan h w pix p q :
  0 <= h -> 0 <= w -> Z.of_nat (length pix) = h * w -> F64.nan ∈ pix ->
  moment h w pix p q = F64.nan.
Proof.
  intros Hh Hw Hlen Hin.
  apply list_elem_of_lookup in Hin as [i Hi].
  pose proof (lookup_lt_Some _ _ _ Hi) as Hlt.
  assert (Hwpos : 0 < w) by nia.
  unfold moment.
  apply (fold_add_nan _
           (fun rc : Z * Z =>
              (nth (Z.to_nat (rc.1 * w + rc.2)) pix F64.nan
               * F64.pow (F64.of_Z rc.1) q * F64.pow (F64.of_Z rc.2) p)%f64));
    [by intros acc [r c]|]. right.
  exists (Z.of_nat i / w, Z.of_nat i mod w). split.
  - pose proof (Z.mod_pos_bound (Z.of_nat i) w Hwpos).
    pose proof (Z.div_pos (Z.of_nat i) w ltac:(lia) Hwpos).
    assert (Z.of_nat i / w < h) by (apply Z.div_lt_upper_bound; nia).
    apply list_elem_of_bind. exists (Z.of_nat i / w). split.
    + apply list_elem_of_bind. exists (Z.of_nat i mod w). split; [left|].
      apply list_elem_of_fmap. exists (Z.to_nat (Z.of_nat i mod w)).
      split; [lia|]. apply elem_of_seq. lia.
    + apply list_elem_of_fmap. exists (Z.to_nat (Z.of_nat i / w)).
      split; [lia|]. apply elem_of_seq. lia.
  - simpl. replace (Z.of_nat i / w * w + Z.of_nat i mod w) with (Z.of_nat i)
      by (rewrite (Z.div_mod (Z.of_nat i) w) at 1; lia).
    rewrite Nat2Z.id. rewrite (nth_lookup_Some _ _ _ _ Hi).
    by rewrite !mul_nan_l.
Qed.

(** X12: one pixel that is not a number spoils the whole estimate: on a
    window that holds a NaN, the amplitude, the offset, both centers,
    both widths and the correlation returned by [estimate_params] are
    NaN. *)
Theorem estimate_params_nan_pixel (self : Gauss2D.t) (h w : Z) :
  shape (_data self) = [h; w] -> 0 <= h -> 0 <= w ->
  Z.of_nat (length (flat (_data self))) = h * w ->
  F64.nan ∈ flat (_data self) ->
  exists self',
    estimate_params self = Ok (self', replicate 7 F64.nan)
    /\ _guess_params self' = Some (replicate 7 F64.nan).
Proof.
  intros Hshape Hh Hw Hlen Hin.
  unfold estimate_params, moments. rewrite Hshape. cbn [bind].
  rewrite !(moment_nan h w _ _ _ Hh Hw Hlen Hin).
  destruct (flat (_data self)) as [|x xs] eqn:Hflat;
    [by apply elem_of_nil in Hin|].
  unfold np.max, np.min. cbn [bind].
  rewrite (fold_maximum_nan xs x Hin), (fold_minimum_nan xs x Hin).
  eexists. split; reflexivity.
Qed.

End EstimateMore.

Lemma estimate_params_nan_pixel_witness :
  exists self',
    Gauss2D.estimate_params (Gauss2D.init dead_pixel)
    = Ok (self', replicate 7 F64.nan).
Proof.
  destruct (estimate_params_nan_pixel (Gauss2D.init dead_pixel) 2 2)
    as (self' & Hest & _).
  - reflexivity.
  - lia.
  - lia.
  - reflexivity.
  - simpl. apply list_elem_of_In. simpl. right. left. reflexivity.
  - exists self'. exact Hest.
Defined.

Section FitMore.
Context `{Numerics}.
Import Gauss2D.

Lemma gtb_nan_l a : F64.gtb F64.nan a = false.
Proof. by destruct a as [[]|[]| |[] ? ?]. Qed.

(** X13: the validation of a fit tests one thing, a width greater than
    the largest dimension of the window. When the solver returns and the
    width at position 3 (and, for six or seven parameters, the width at
    position 4) is not greater, the result of the solver is stored and
    returned as it is. A width that is NaN is not greater than anything,
    so a fit with NaN widths passes the validation. *)
Theorem optimize_params_ls_keeps self guess_params mt self1 g xy popt max_s s3 :
  starting_point self guess_params mt = Ok (self1, g) ->
  coordinates (_data self1) = Ok xy ->
  curve_fit true model_ravel xy (flat (_data self1)) g = Ok popt ->
  np.max_dim (_data self1) = Ok max_s ->
  popt !! 3%nat = Some s3 ->
  F64.gtb s3 (F64.of_Z max_s) = false ->
  ((6 <= length popt)%nat ->
   exists s4, popt !! 4%nat = Some s4 /\ F64.gtb s4 (F64.of_Z max_s) = false) ->
  optimize_params_ls self guess_params mt
  = Ok ({| _data := _data self1; _guess_params := _guess_params self1;
           _opt_params := Some popt; error := false |}, popt)
  /\ (forall m, F64.gtb F64.nan m = false).
Proof.
  intros Hstart Hxy Hfit Hmax H3 Hs3 H4. split; [|apply gtb_nan_l].
  unfold optimize_params_ls. rewrite Hstart. cbn [bind]. rewrite Hxy.
  cbn [bind]. rewrite Hfit.
  unfold check_widths. rewrite Hmax. cbn [bind].
  unfold np.item. rewrite H3. cbn [bind]. rewrite Hs3.
  destruct (Z.ltb_spec (Z.of_nat (length popt)) 6) as [Hlt|Hge].
  - reflexivity.
  - destruct H4 as (s4 & H4a & H4b); [lia|].
    rewrite H4a. cbn [bind]. by rewrite H4b.
Qed.

(** X14: what the object remembers as its guess. After a fit from a
    given guess the stored guess is that guess. After a fit without a
    guess it is the estimate of all seven parameters, whatever the model
    type: for 'sym' and 'norot' the vector the solver was started from,
    which has six or five entries, is not the one that is stored. The
    optimised parameters that are stored are those that are returned. *)
Theorem optimize_params_ls_stored_guess self guess_params mt fit popt :
  optimize_params_ls self guess_params mt = Ok (fit, popt) ->
  _opt_params fit = Some popt
  /\ _data fit = _data self
  /\ match guess_params with
     | Some g => _guess_params fit = Some g
     | None =>
         exists self1 est g,
           estimate_params self = Ok (self1, est)
           /\ starting_point self None mt = Ok (self1, g)
           /\ _guess_params fit = Some est
           /\ length est = 7%nat
           /\ length g = cold_length mt
     end.
Proof.
  unfold optimize_params_ls. intros Hopt.
  destruct (starting_point self guess_params mt) as [[self1 g]|] eqn:Hstart;
    [|done]. cbn [bind] in Hopt.
  destruct (coordinates _) as [xy|]; [|done]. cbn [bind] in Hopt.
  destruct (match curve_fit true model_ravel xy _ g with
            | Ok popt => _ | Raise e => _ end) as [[r b]|]; [|done].
  cbn [bind] in Hopt. injection Hopt as <- <-. simpl.
  split; [done|].
  destruct guess_params as [g0|].
  - unfold starting_point in Hstart. injection Hstart as <- <-. done.
  - pose proof Hstart as Hstart'. unfold starting_point in Hstart.
    destruct (estimate_params self) as [[self' est]|] eqn:Hest; [|done].
    cbn [bind] in Hstart. injection Hstart as <- <-.
    assert (Hd : _data self' = _data self /\ _guess_params self' = Some est).
    { unfold estimate_params in Hest.
      destruct (moments _) as [M|]; [|done]. cbn [bind] in Hest.
      destruct (np.max _) as [amp|]; [|done]. cbn [bind] in Hest.
      destruct (np.min _) as [offset|]; [|done]. cbn [bind] in Hest.
      by injection Hest as <- <-. }
    destruct Hd as [Hd Hg]. split; [done|].
    eexists self', est, _. split; [done|]. split; [reflexivity|].
    split; [done|]. split; [by eapply estimate_params_length|].
    by eapply cold_start_length.
Qed.

End FitMore.

Lemma optimize_params_ls_keeps_witness :
  exists fit popt,
    @Gauss2D.optimize_params_ls loses_widths (Gauss2D.init hot_pixel)
      (Some guess7) full = Ok (fit, popt)
    /\ Gauss2D.error fit = false
    /\ popt !! 3%nat = Some F64.nan.
Proof.
  eexists _, _. split.
  - refine (proj1 (@optimize_params_ls_keeps loses_widths
                     (Gauss2D.init hot_pixel) (Some guess7) full _ guess7
                     (np.meshgrid (np.arange 3) (np.arange 3))
                     (<[3%nat := F64.nan]> (<[4%nat := F64.nan]> guess7)) 3
                     F64.nan _ _ _ _ _ _ _)).
    + reflexivity.
    + reflexivity.
    + vm_compute. reflexivity.
    + reflexivity.
    + reflexivity.
    + reflexivity.
    + intros _. exists F64.nan. split; reflexivity.
  - split; reflexivity.
Defined.

Lemma optimize_params_ls_stored_guess_witness :
  exists fit popt est,
    @Gauss2D.optimize_params_ls never_converges (Gauss2D.init hot_pixel) None sym
    = Ok (fit, popt)
    /\ Gauss2D._guess_params fit = Some est
    /\ length est = 7%nat
    /\ length popt = 6%nat.
Proof.
  assert (Hfit : { r | @Gauss2D.optimize_params_ls never_converges
                         (Gauss2D.init hot_pixel) None sym = Ok r })
    by (eexists; vm_compute; reflexivity).
  destruct Hfit as [[fit popt] Hfit].
  destruct (@optimize_params_ls_stored_guess never_converges
              (Gauss2D.init hot_pixel) None sym fit popt Hfit)
    as (_ & _ & self1 & est & g & _ & _ & Hg & Hl & _).
  exists fit, popt, est. split; [exact Hfit|]. split; [exact Hg|].
  split; [exact Hl|].
  vm_compute in Hfit. injection Hfit as _ <-. reflexivity.
Defined.

(** ** The model on the pixels of a window *)

Section ModelPixels.
Context `{Numerics}.
Import Gauss2D.

Lemma zip_with_const_r {A B C} (f : A -> B -> C) (xs : list A) (b : B) :
  zip_with f xs (map (fun _ => b) xs) = map (fun a => f a b) xs.
Proof. induction xs as [|a xs IH]; simpl; [done|]. by rewrite IH. Qed.

(** [np.meshgrid] pairs every column number with every row number, row
    after row. *)
Lemma meshgrid_zip {C} (f : float -> float -> C) (xs ys : list float) :
  zip_with f (flat (np.meshgrid xs ys).1) (flat (np.meshgrid xs ys).2)
  = concat (map (fun yi => map (fun xi => f xi yi) xs) ys).
Proof.
  unfold np.meshgrid. simpl.
  induction ys as [|y ys IH]; simpl; [done|].
  rewrite zip_with_app by (by rewrite length_map).
  by rewrite IH, zip_with_const_r.
Qed.

Lemma rows_concat {C} (g : Z -> Z -> C) (h w : nat) :
  concat (map (fun r => map (fun c => g (Z.of_nat c) (Z.of_nat r)) (seq 0 w))
              (seq 0 h))
  = map (fun k => g (Z.of_nat k mod Z.of_nat w) (Z.of_nat k / Z.of_nat w))
        (seq 0 (h * w)).
Proof.
  induction h as [|h IH]; [done|].
  rewrite seq_S, map_app, concat_app, IH. simpl. rewrite app_nil_r.
  replace (w + h * w)%nat with (h * w + w)%nat by lia.
  rewrite seq_app, map_app. f_equal. simpl.
  replace (seq (h * w) w) with (map (Nat.add (h * w)) (seq 0 w))
    by (change (map ?f ?l) with (f <$> l); rewrite fmap_add_seq; f_equal; lia).
  rewrite map_map.
  apply map_ext_in. intros c Hc. apply in_seq in Hc.
  assert (Hmod : Z.of_nat (h * w + c) mod Z.of_nat w = Z.of_nat c).
  { rewrite Nat2Z.inj_add, Nat2Z.inj_mul, Z.add_comm, Z.mod_add by lia.
    apply Z.mod_small. lia. }
  assert (Hdiv : Z.of_nat (h * w + c) / Z.of_nat w = Z.of_nat h).
  { rewrite Nat2Z.inj_add, Nat2Z.inj_mul, Z.add_comm, Z.div_add by lia.
    rewrite Z.div_small by lia. lia. }
  by rewrite Hmod, Hdiv.
Qed.

Lemma map_zip_with {A B C D} (g : C -> D) (f : A -> B -> C) l k :
  map g (zip_with f l k) = zip_with (fun a b => g (f a b)) l k.
Proof.
  revert k. induction l as [|a l IH]; intros [|b k]; simpl; try done.
  by rewrite IH.
Qed.

Lemma concat_map_map {A B C D E} (f : C -> D -> E) (a : A -> C) (b : B -> D)
    (xs : list A) (ys : list B) :
  concat (map (fun y => map (fun x => f x y) (map a xs)) (map b ys))
  = concat (map (fun r => map (fun c => f (a c) (b r)) xs) ys).
Proof.
  rewrite map_map. f_equal. apply map_ext. intros r. by rewrite map_map.
Qed.

(** The values of a function of the coordinates over the grid of an
    [h] x [w] window, in the order of the pixels. *)
Lemma meshgrid_pixels {C} (f : float -> float -> C) (h w : Z) :
  0 <= h -> 0 <= w ->
  zip_with f (flat (np.meshgrid (np.arange w) (np.arange h)).1)
             (flat (np.meshgrid (np.arange w) (np.arange h)).2)
  = map (fun cr : Z * Z => f (F64.of_Z cr.1) (F64.of_Z cr.2)) (pixels h w).
Proof.
  intros Hh Hw. rewrite meshgrid_zip. unfold np.arange.
  rewrite (concat_map_map f (fun k => F64.of_Z (Z.of_nat k))
             (fun k => F64.of_Z (Z.of_nat k))).
  etransitivity;
    [exact (rows_concat (fun c r => f (F64.of_Z c) (F64.of_Z r))
              (Z.to_nat h) (Z.to_nat w))|].
  unfold pixels. rewrite map_map. cbn [fst snd].
  rewrite Z2Nat.inj_mul, !Z2Nat.id by lia. reflexivity.
Qed.

Lemma gauss2D_pixels h w amp mu0 mu1 sigma0 sigma1 rho offset :
  0 <= h -> 0 <= w ->
  gauss2D (np.meshgrid (np.arange w) (np.arange h))
    amp mu0 mu1 sigma0 sigma1 rho offset
  = Ok {| shape := [Z.of_nat (length (np.arange h));
                    Z.of_nat (length (np.arange w))];
          flat := map (fun cr => gauss_at amp mu0 mu1 sigma0 sigma1 rho offset
                                   cr.1 cr.2) (pixels h w) |}.
Proof.
  intros Hh Hw. unfold gauss2D. cbv zeta.
  rewrite (surjective_pairing (np.meshgrid (np.arange w) (np.arange h))).
  rewrite bool_decide_eq_false_2 by (intros Hne; by apply Hne).
  rewrite map_zip_with, meshgrid_pixels by done.
  reflexivity.
Qed.

(** X15: the model is evaluated pixel by pixel in the order of
    [data.ravel()]. On the coordinates [optimize_params_ls] builds for an
    [h] x [w] window, entry [k] of the raveled model is the Gaussian at
    column [k mod w] and row [k / w]: the second and third parameters are
    the center along the columns and along the rows, as in the estimate.
    Six parameters give the Gaussian with correlation 0, five the one
    with equal widths and correlation 0; there is one value per pixel. *)
Theorem model_ravel_pixelwise data h w :
  shape data = [h; w] -> 0 <= h -> 0 <= w ->
  exists xy,
    coordinates data = Ok xy
    /\ (forall amp mu0 mu1 sigma0 sigma1 rho offset,
          model_ravel xy [amp; mu0; mu1; sigma0; sigma1; rho; offset]
          = Ok (map (fun cr => gauss_at amp mu0 mu1 sigma0 sigma1 rho offset
                                 cr.1 cr.2) (pixels h w)))
    /\ (forall amp x0 y0 sigma_x sigma_y offset,
          model_ravel xy [amp; x0; y0; sigma_x; sigma_y; offset]
          = Ok (map (fun cr => gauss_at amp x0 y0 sigma_x sigma_y F64.zero offset
                                 cr.1 cr.2) (pixels h w)))
    /\ (forall amp x0 y0 sigma_x offset,
          model_ravel xy [amp; x0; y0; sigma_x; offset]
          = Ok (map (fun cr => gauss_at amp x0 y0 sigma_x sigma_x F64.zero offset
                                 cr.1 cr.2) (pixels h w)))
    /\ length (pixels h w) = Z.to_nat (h * w).
Proof.
  intros Hshape Hh Hw. eexists. split.
  { unfold coordinates, np.dim. rewrite Hshape. simpl. reflexivity. }
  unfold model_ravel, model, gauss2D_sym, gauss2D_norot.
  split; [|split; [|split]]; intros;
    rewrite ?gauss2D_pixels by done; try reflexivity.
  unfold pixels. by rewrite length_map, length_seq.
Qed.

End ModelPixels.

Lemma model_ravel_pixelwise_witness :
  exists xy v,
    Gauss2D.coordinates hot_pixel = Ok xy
    /\ @Gauss2D.model_ravel converges_at_start xy guess7 = Ok v
    /\ length v = 9%nat.
Proof.
  destruct (@model_ravel_pixelwise converges_at_start hot_pixel 3 3 eq_refl)
    as (xy & Hxy & H7 & _ & _ & Hlen); [lia | lia |].
  exists xy. eexists. split; [exact Hxy|]. split; [apply H7|].
  rewrite length_map. exact Hlen.
Defined.

(** ** [detrend]: the retries of the regression *)

Section DetrendFacts.
Context `{utils.Sklearn}.
Import utils.

(** The loop from attempt [i] on, when the attempts before [k] raise
    ValueError. *)
Lemma fit_with_retries_skip X_ vector (k : nat) :
  forall n i,
    (i <= k)%nat -> (k < i + n)%nat -> (k < ntries)%nat ->
    (forall j, (i <= j < k)%nat -> ransac_fit j X_ vector = Raise ValueError) ->
    fit_with_retries X_ vector (seq i n)
    = match ransac_fit k X_ vector with
      | Ok clf => Ok (Some clf)
      | Raise ValueError =>
          if (k =? ntries - 1)%nat then Raise ValueError
          else fit_with_retries X_ vector (seq (S k) (i + n - S k))
      | Raise e => Raise e
      end.
Proof.
  unfold ntries.
  induction n as [|n IH]; intros i Hik Hkn Hk Hbefore; [lia|].
  cbn [seq fit_with_retries]. destruct (decide (i = k)) as [->|Hne].
  - replace (k + S n - S k)%nat with n by lia. reflexivity.
  - rewrite Hbefore by lia.
    destruct (Nat.eqb_spec i (ntries - 1)) as [Hlast|_];
      [unfold ntries in Hlast; lia|].
    rewrite (IH (S i)) by (try lia; intros j Hj; apply Hbefore; lia).
    by replace (S i + n - S k)%nat with (i + S n - S k)%nat by lia.
Qed.

Lemma design_length h w :
  0 <= h -> 0 <= w -> Z.of_nat (length (design_points h w)) = np.prod [h; w].
Proof.
  intros Hh Hw. unfold design_points, pixels, np.prod.
  rewrite !length_map, length_seq. simpl. lia.
Qed.

(** The part of [detrend] before the loop. *)
Lemma detrend_unfold data h w degree X_ :
  shape data = [h; w] -> 0 <= h -> 0 <= w ->
  fit_transform degree (design_points h w) = Ok X_ ->
  detrend data degree
  = let* clf := fit_with_retries X_ (flat data) (seq 0 ntries) in
    match clf with
    | None => Raise ValueError
    | Some clf =>
        let* values := predict clf X_ in
        let* background := np.reshape values [h; w] in
        Ok ({| shape := [h; w];
               flat := zip_with F64.sub (flat data) (flat background) |},
            background)
    end.
Proof.
  intros Hshape Hh Hw HX. unfold detrend, np.dim. rewrite Hshape. cbn [bind].
  simpl lookup. cbn [bind].
  rewrite (surjective_pairing (np.meshgrid (np.arange w) (np.arange h))).
  change (zip ?a ?b) with (zip_with pair a b).
  rewrite (meshgrid_pixels pair h w Hh Hw).
  change (map (fun cr : Z * Z => (F64.of_Z cr.1, F64.of_Z cr.2)) (pixels h w))
    with (design_points h w).
  rewrite bool_decide_eq_true_2 by (by apply design_length).
  cbn [bind]. rewrite HX. cbn [bind]. reflexivity.
Qed.

(** X16: [detrend] uses the first fit that succeeds. When attempt [k]
    (counted from 0, [k] < 10) of the regression returns and every
    attempt before it raised ValueError, the errors are dropped and the
    result is built from that fit: the background is its prediction at
    the pixels of the image, in the shape of the image, and the
    detrended image is the difference of the two, pixel by pixel. No
    attempt after [k] is made. *)
Theorem detrend_first_success data h w degree X_ k clf values :
  shape data = [h; w] -> 0 <= h -> 0 <= w ->
  fit_transform degree (design_points h w) = Ok X_ ->
  (k < ntries)%nat ->
  (forall i, (i < k)%nat -> ransac_fit i X_ (flat data) = Raise ValueError) ->
  ransac_fit k X_ (flat data) = Ok clf ->
  predict clf X_ = Ok values ->
  Z.of_nat (length values) = h * w ->
  detrend data degree
  = Ok ({| shape := [h; w]; flat := zip_with F64.sub (flat data) values |},
        {| shape := [h; w]; flat := values |}).
Proof.
  intros Hshape Hh Hw HX Hk Hbefore Hfit Hpred Hlen.
  rewrite (detrend_unfold data h w degree X_ Hshape Hh Hw HX).
  rewrite (fit_with_retries_skip X_ (flat data) k ntries 0)
    by (try lia; intros j Hj; apply Hbefore; lia).
  rewrite Hfit. cbn [bind]. rewrite Hpred. cbn [bind].
  unfold np.reshape. rewrite bool_decide_eq_true_2; [done|].
  unfold np.prod. simpl. lia.
Qed.

(** X17: [detrend] gives up after ten attempts, and only then: when all
    ten attempts raise ValueError the tenth error is raised. An exception
    of another class is not retried: raised by an attempt that follows
    only ValueErrors, it leaves [detrend] at once. *)
Theorem detrend_gives_up data h w degree X_ :
  shape data = [h; w] -> 0 <= h -> 0 <= w ->
  fit_transform degree (design_points h w) = Ok X_ ->
  ((forall i, (i < ntries)%nat ->
      ransac_fit i X_ (flat data) = Raise ValueError) ->
   detrend data degree = Raise ValueError)
  /\ (forall k e,
        (k < ntries)%nat -> e <> ValueError ->
        (forall i, (i < k)%nat -> ransac_fit i X_ (flat data) = Raise ValueError) ->
        ransac_fit k X_ (flat data) = Raise e ->
        detrend data degree = Raise e).
Proof.
  intros Hshape Hh Hw HX.
  rewrite (detrend_unfold data h w degree X_ Hshape Hh Hw HX). split.
  - intros Hall.
    rewrite (fit_with_retries_skip X_ (flat data) (ntries - 1) ntries 0)
      by (unfold ntries; try lia; intros j Hj; apply Hall; unfold ntries; lia).
    rewrite Hall by (unfold ntries; lia). by rewrite Nat.eqb_refl.
  - intros k e Hk He Hbefore Hfit.
    rewrite (fit_with_retries_skip X_ (flat data) k ntries 0)
      by (try lia; intros j Hj; apply Hbefore; lia).
    rewrite Hfit. by destruct e.
Qed.

End DetrendFacts.

Lemma detrend_first_success_witness :
  @utils.detrend third_time_lucky hot_pixel 1
  = Ok ({| shape := [3; 3];
           flat := zip_with F64.sub (flat hot_pixel)
                     (replicate 9 (F64.of_Z 1)) |},
        {| shape := [3; 3]; flat := replicate 9 (F64.of_Z 1) |}).
Proof.
  refine (@detrend_first_success third_time_lucky hot_pixel 3 3 1
            (map (fun p => [p.1; p.2]) (design_points 3 3)) 2 (F64.of_Z 1)
            (replicate 9 (F64.of_Z 1)) eq_refl _ _ eq_refl _ _ eq_refl _ eq_refl).
  - lia.
  - lia.
  - unfold utils.ntries. lia.
  - intros i Hi. simpl. destruct (Nat.ltb_spec i 2); [reflexivity|lia].
  - vm_compute. reflexivity.
Defined.

Lemma detrend_gives_up_witness :
  @utils.detrend no_consensus hot_pixel 1 = Raise ValueError.
Proof.
  refine (proj1 (@detrend_gives_up no_consensus hot_pixel 3 3 1
                   (map (fun p => [p.1; p.2]) (design_points 3 3))
                   eq_refl _ _ eq_refl) _).
  - lia.
  - lia.
  - intros i Hi. reflexivity.
Defined.

(** ** [grid]: the test of the input *)

Section GridFacts.
Context `{utils.Gridding}.
Import utils.

Lemma add_not_finite a b :
  F64.isfinite a = false \/ F64.isfinite b = false ->
  F64.isfinite (F64.add a b) = false.
Proof.
  destruct a as [[]|[]| |[] ? ?], b as [[]|[]| |[] ? ?];
    intros [Ha|Hb]; try done.
Qed.

Lemma zip_with_add_not_finite a b :
  length a = length b ->
  Exists (fun v => F64.isfinite v = false) a
  \/ Exists (fun v => F64.isfinite v = false) b ->
  Exists (fun v => F64.isfinite v = false) (zip_with F64.add a b).
Proof.
  revert b. induction a as [|x a IH]; intros [|y b] Hlen Hex; try done.
  - destruct Hex as [Hex|Hex]; by apply Exists_nil in Hex.
  - injection Hlen as Hlen. simpl. apply Exists_cons.
    destruct Hex as [Hex|Hex]; apply Exists_cons in Hex as [Hx|Hex].
    + left. apply add_not_finite. by left.
    + right. apply IH; auto.
    + left. apply add_not_finite. by right.
    + right. apply IH; auto.
Qed.

Lemma all_finite_false a :
  Exists (fun v => F64.isfinite v = false) a -> np.all_finite a = false.
Proof.
  unfold np.all_finite. induction 1 as [x a Hx|x a _ IH]; simpl.
  - by rewrite Hx.
  - rewrite IH. apply andb_false_r.
Qed.

(** X18: [grid] refuses input that is not finite before it interpolates
    anything. For three arrays of one length, a NaN or an infinity at any
    place of [x], [y] or [z] makes [grid] raise ValueError; neither the
    grid nor the interpolation is computed. *)
Theorem grid_refuses_non_finite x y z resX resY method :
  length x = length y -> length y = length z ->
  Exists (fun v => F64.isfinite v = false) (x ++ y ++ z) ->
  grid x y z resX resY method = Raise ValueError.
Proof.
  intros Hxy Hyz Hex. unfold grid, np.add.
  rewrite bool_decide_eq_true_2 by done. cbn [bind].
  rewrite bool_decide_eq_true_2
    by (rewrite length_zip_with; lia).
  cbn [bind].
  rewrite all_finite_false; [done|].
  apply zip_with_add_not_finite; [rewrite length_zip_with; lia|].
  apply Exists_app in Hex as [Hx|Hex].
  - left. apply zip_with_add_not_finite; auto.
  - apply Exists_app in Hex as [Hy|Hz].
    + left. apply zip_with_add_not_finite; auto.
    + by right.
Qed.

End GridFacts.

Lemma grid_refuses_non_finite_witness :
  @utils.grid flat_gridding [F64.of_Z 0; F64.of_Z 1] [F64.of_Z 0; F64.nan]
    [F64.of_Z 5; F64.of_Z 6] 1000 1000 "cubic" = Raise ValueError.
Proof.
  apply (@grid_refuses_non_finite flat_gridding).
  - reflexivity.
  - reflexivity.
  - simpl. do 3 apply Exists_cons_tl. apply Exists_cons_hd. reflexivity.
Defined.

(** The test is made on the sum [x + y + z]: two finite coordinates whose
    sum overflows are refused as well. *)
Example grid_refuses_overflow :
  let big := S754_finite false 9007199254740991 971 in
  F64.isfinite big = true
  /\ @utils.grid flat_gridding [big] [big] [F64.zero] 1000 1000 "cubic"
     = Raise ValueError.
Proof. split; vm_compute; reflexivity. Qed.

(** ** The seed slice of a peak *)

Section SeedSlice.
Import PSFStackAnalyzer.

Lemma ltb_not_leb x y :
  F64.is_nan x = false -> F64.is_nan y = false ->
  F64.ltb x y = negb (F64.leb y x).
Proof.
  intros Hx Hy. unfold F64.ltb, F64.leb, SFltb, SFleb, SFcompare.
  destruct x as [[]|[]| |[] mx ex], y as [[]|[]| |[] my ey];
    try discriminate; try reflexivity.
  - rewrite (Z.compare_antisym ey ex).
    change (Pos.compare_cont Eq mx my) with (Pos.compare mx my).
    change (Pos.compare_cont Eq my mx) with (Pos.compare my mx).
    rewrite (Pos.compare_antisym my mx).
    by destruct (ey ?= ex), (my ?= mx)%positive.
  - rewrite (Z.compare_antisym ey ex).
    change (Pos.compare_cont Eq mx my) with (Pos.compare mx my).
    change (Pos.compare_cont Eq my mx) with (Pos.compare my mx).
    rewrite (Pos.compare_antisym my mx).
    by destruct (ey ?= ex), (my ?= mx)%positive.
Qed.

(** [argmax] on an array without NaN: the position of an entry that no
    entry exceeds, and the first such position. *)
Lemma argmax_from_max a :
  forall (seen : list float) best ibest,
    Forall (fun v => F64.is_nan v = false) (seen ++ a) ->
    seen !! ibest = Some best ->
    Forall (fun v => F64.leb v best = true) seen ->
    (forall j v, (j < ibest)%nat -> seen !! j = Some v -> F64.ltb v best = true) ->
    exists m top,
      np.argmax_from best (Z.of_nat ibest) (Z.of_nat (length seen)) a
      = Z.of_nat m
      /\ (seen ++ a) !! m = Some top
      /\ Forall (fun v => F64.leb v top = true) (seen ++ a)
      /\ (forall j v, (j < m)%nat -> (seen ++ a) !! j = Some v ->
            F64.ltb v top = true).
Proof.
  induction a as [|v a IH]; intros seen best ibest Hnan Hbest Hle Hfirst.
  - simpl. rewrite app_nil_r in *. eauto 10.
  - simpl.
    assert (Hnb : F64.is_nan best = false).
    { rewrite Forall_forall in Hnan. apply Hnan.
      apply elem_of_app. left. by eapply list_elem_of_lookup_2. }
    assert (Hnv : F64.is_nan v = false).
    { rewrite Forall_forall in Hnan. apply Hnan.
      apply elem_of_app. right. left. }
    rewrite Hnv. simpl. rewrite orb_false_r.
    replace (Z.of_nat (length seen) + 1) with (Z.of_nat (length (seen ++ [v])))
      by (rewrite length_app; simpl; lia).
    rewrite (cons_middle v seen a), app_assoc in Hnan |- *.
    destruct (F64.ltb best v) eqn:Hlt.
    + apply (IH (seen ++ [v]) v (length seen)); [done| | |].
      * by rewrite lookup_app_r, Nat.sub_diag by lia.
      * apply Forall_app. split.
        -- eapply Forall_impl; [exact Hle|]. simpl. intros u Hu.
           assert (Hnu : F64.is_nan u = false).
           { destruct u; try done. }
           eapply (leb_trans u best v); try done.
           rewrite ltb_not_leb in Hlt by done.
           destruct (leb_total best v Hnb Hnv) as [?|Hvb]; [done|].
           rewrite Hvb in Hlt. done.
        -- constructor; [by apply leb_refl|constructor].
      * intros j u Hj Hu. rewrite lookup_app_l in Hu by done.
        assert (Hub : F64.leb u best = true).
        { rewrite Forall_forall in Hle. apply Hle.
          by eapply list_elem_of_lookup_2. }
        assert (Hnu : F64.is_nan u = false) by (by destruct u).
        rewrite ltb_not_leb by done.
        destruct (F64.leb v u) eqn:Hvu; [|done].
        pose proof (leb_trans v u best Hnv Hnu Hnb Hvu Hub) as Hvb.
        rewrite ltb_not_leb in Hlt by done. by rewrite Hvb in Hlt.
    + apply (IH (seen ++ [v]) best ibest); [done| | |].
      * rewrite lookup_app_l; [done|]. by eapply lookup_lt_Some.
      * apply Forall_app. split; [done|]. constructor; [|constructor].
        rewrite ltb_not_leb in Hlt by done. by destruct (F64.leb v best).
      * intros j u Hj Hu. apply (Hfirst j u Hj).
        rewrite lookup_app_l in Hu; [done|].
        apply lookup_lt_Some in Hbest. lia.
Qed.

Lemma window_sums_lookup stack ys xs n :
  forall k sums,
    foldr (fun z acc =>
             let* acc := acc in
             let* w := window stack (Z.of_nat z) ys xs in
             Ok (np.sum (flat w) :: acc)) (Ok []) (seq k n) = Ok sums ->
    forall j, (j < n)%nat ->
      sums !! j = Some (slice_total stack ys xs (Z.of_nat (k + j))).
Proof.
  induction n as [|n IH]; intros k sums Hsums j Hj; [lia|].
  simpl in Hsums.
  destruct (foldr _ _ (seq (S k) n)) as [acc|] eqn:Hacc; [|done].
  cbn [bind] in Hsums.
  destruct (window stack (Z.of_nat k) ys xs) as [w|] eqn:Hw; [|done].
  cbn [bind] in Hsums. injection Hsums as <-.
  destruct j as [|j]; simpl.
  - unfold slice_total. by rewrite Nat.add_0_r, Hw.
  - rewrite (IH (S k) acc Hacc j) by lia. do 3 f_equal. lia.
Qed.

(** X19: the seed slice is the brightest one. When no window total is
    NaN, the slice [fitPeaks] fits first is a slice of the stack whose
    window has a total intensity that no other slice exceeds, and it is
    the first such slice: every slice before it is strictly darker. *)
Theorem brightest_is_max stack ys xs m :
  brightest stack ys xs = Ok m ->
  (forall z, 0 <= z < zmax stack ->
     F64.is_nan (slice_total stack ys xs z) = false) ->
  0 <= m < zmax stack
  /\ (forall z, 0 <= z < zmax stack ->
        F64.leb (slice_total stack ys xs z) (slice_total stack ys xs m) = true)
  /\ (forall z, 0 <= z < m ->
        F64.ltb (slice_total stack ys xs z) (slice_total stack ys xs m) = true).
Proof.
  intros Hm Hnan. unfold brightest in Hm.
  destruct (foldr _ _ _) as [sums|] eqn:Hsums; [|done]. cbn [bind] in Hm.
  pose proof (window_sums_length _ _ _ _ _ _ Hsums) as Hlen.
  pose proof (window_sums_lookup _ _ _ _ _ _ Hsums) as Hlook.
  assert (Hall : Forall (fun v => F64.is_nan v = false) sums).
  { apply Forall_lookup. intros j v Hv.
    pose proof (lookup_lt_Some _ _ _ Hv) as Hj. rewrite Hlen in Hj.
    rewrite (Hlook j Hj) in Hv. injection Hv as <-. apply Hnan. lia. }
  destruct sums as [|v sums]; [done|]. simpl in Hm. injection Hm as <-.
  destruct (argmax_from_max sums [v] v 0%nat) as (i & top & Harg & Htop & Hmax & Hfirst).
  - exact Hall.
  - reflexivity.
  - constructor; [|constructor]. apply leb_refl. by inversion Hall.
  - intros j u Hj. lia.
  - change (np.argmax_from v 0 1 sums = Z.of_nat i) in Harg.
    change ([v] ++ sums) with (v :: sums) in *. rewrite Harg.
    pose proof (lookup_lt_Some _ _ _ Htop) as Hi. rewrite Hlen in Hi.
    rewrite (Hlook i Hi) in Htop. injection Htop as <-. simpl.
    split; [lia|]. split.
    + intros z Hz. rewrite Forall_lookup in Hmax.
      apply (Hmax (Z.to_nat z)). rewrite (Hlook (Z.to_nat z)) by lia.
      do 2 f_equal. lia.
    + intros z Hz. apply (Hfirst (Z.to_nat z)); [lia|].
      rewrite (Hlook (Z.to_nat z)) by lia. do 2 f_equal. lia.
Qed.

End SeedSlice.

Lemma brightest_is_max_witness :
  @PSFStackAnalyzer.brightest bead (Slice 3 7) (Slice 3 7) = Ok 1
  /\ F64.ltb (slice_total bead (Slice 3 7) (Slice 3 7) 0)
             (slice_total bead (Slice 3 7) (Slice 3 7) 1) = true.
Proof.
  assert (Hm : PSFStackAnalyzer.brightest bead (Slice 3 7) (Slice 3 7) = Ok 1)
    by (vm_compute; reflexivity).
  split; [exact Hm|].
  refine (proj2 (proj2 (brightest_is_max bead (Slice 3 7) (Slice 3 7) 1 Hm _))
            0 _).
  - intros z Hz. simpl in Hz.
    assert (z = 0 \/ z = 1 \/ z = 2) as [->|[->| ->]] by lia;
      vm_compute; reflexivity.
  - lia.
Defined.

(** ** A flat profile *)

Section FlatProfile.
Import utils.

Lemma sub_diag c : F64.isfinite c = true -> (c - c)%f64 = F64.zero.
Proof.
  destruct c as [[]|[]| |s m e]; try done. intros _.
  unfold F64.sub, SFsub. rewrite Z.sub_diag. reflexivity.
Qed.

Lemma mul_zero_r a : zero_or_nan (a * F64.zero)%f64.
Proof. by destruct a as [[]|[]| |[] ? ?]. Qed.

Lemma add_zero_or_nan a b :
  zero_or_nan a -> zero_or_nan b -> zero_or_nan (a + b)%f64.
Proof. by destruct a as [[]|[]| |[] ? ?], b as [[]|[]| |[] ? ?]. Qed.

Lemma sum_zero_or_nan l : Forall zero_or_nan l -> zero_or_nan (np.sum l).
Proof.
  unfold np.sum. assert (Hz : zero_or_nan F64.zero) by done.
  revert Hz. generalize F64.zero. induction l as [|v l IH]; intros acc Hacc Hl.
  - done.
  - inversion Hl; subst. simpl. apply IH; [by apply add_zero_or_nan|done].
Qed.

Lemma div_zero_or_nan a : zero_or_nan a -> (a / F64.zero)%f64 = F64.nan.
Proof. by destruct a as [[]|[]| |[] ? ?]. Qed.

Lemma sum_zeros n : np.sum (replicate n F64.zero) = F64.zero.
Proof.
  unfold np.sum.
  assert (Hstep : (F64.zero + F64.zero)%f64 = F64.zero) by reflexivity.
  induction n as [|n IH]; [done|].
  cbn [replicate fold_left]. by rewrite Hstep.
Qed.

Lemma weights_zero (f : float -> float) xs n :
  Forall zero_or_nan
    (zip_with (fun xi ci => (f xi * ci)%f64) xs (replicate n F64.zero)).
Proof.
  revert n. induction xs as [|x xs IH]; intros [|n]; simpl; try constructor.
  - apply mul_zero_r.
  - apply IH.
Qed.

Lemma nmoment_flat xs n c k :
  nmoment xs (replicate n F64.zero) c k = F64.nan.
Proof.
  unfold nmoment. rewrite sum_zeros. apply div_zero_or_nan, sum_zero_or_nan.
  apply (weights_zero (fun xi => F64.pow (xi - c)%f64 k)).
Qed.

Lemma fold_minimum_replicate n c : fold_left np.minimum (replicate n c) c = c.
Proof.
  induction n as [|n IH]; simpl; [done|].
  replace (np.minimum c c) with c; [done|].
  unfold np.minimum. by destruct (_ || _).
Qed.

Lemma fold_maximum_replicate n c : fold_left np.maximum (replicate n c) c = c.
Proof.
  induction n as [|n IH]; simpl; [done|].
  replace (np.maximum c c) with c; [done|].
  unfold np.maximum. by destruct (_ || _).
Qed.

(** X20: a flat profile has no estimated center and no estimated width.
    When all amplitudes are the same finite number [c] (as for a stack
    of a single slice), the corrected profile is zero everywhere, both
    moments are 0/0, and [gauss_fit] starts the solver from the
    amplitude 0, a NaN width, the offset [c], and a center that is NaN
    unless [guess_z] gives one. *)
Theorem gauss_fit_flat_profile xdata n c trim guess_z :
  length xdata = S n ->
  F64.isfinite c = true ->
  exists x y,
    prepare xdata (replicate (S n) c) trim guess_z
    = Ok (c, [F64.zero; default F64.nan guess_z; F64.nan; c], x, y).
Proof.
  intros _ Hc. unfold prepare. simpl np.min. cbn [bind].
  rewrite fold_minimum_replicate.
  change (map (fun y => (y - c)%f64) (c :: replicate n c))
    with (map (fun y => (y - c)%f64) (replicate (S n) c)).
  replace (map (fun y => (y - c)%f64) (replicate (S n) c))
    with (replicate (S n) F64.zero)
    by (change (map ?f ?l) with (f <$> l);
        by rewrite fmap_replicate, (sub_diag c Hc)).
  rewrite !nmoment_flat.
  change (np.max (replicate (S n) F64.zero))
    with (Ok (fold_left np.maximum (replicate n F64.zero) F64.zero)
          : result float).
  rewrite fold_maximum_replicate. cbn [bind].
  destruct guess_z as [g|], trim as [t|]; eexists _, _; reflexivity.
Qed.

End FlatProfile.

(** ** A slice that is not in the stack *)

Section SliceRange.
Context `{Numerics}.
Import StackAnalyzer.

Lemma loop_app stack width mt l1 l2 st :
  loop stack width mt (l1 ++ l2) st
  = let* st1 := loop stack width mt l1 st in loop stack width mt l2 st1.
Proof.
  revert st. induction l1 as [|s l1 IH]; intros st; simpl; [done|].
  destruct (step stack width mt st s) as [st1|]; cbn [bind]; [apply IH|done].
Qed.

(** X21: a slice number that is not in the stack stops [fitPeak]. The
    slices before it are fitted; at the first slice number below
    [-zmax] or from [zmax] on, the indexing of the stack raises
    IndexError, and the rows recorded so far are not returned. *)
Theorem fitPeak_slice_out_of_range stack good s rest width d st0 st1 :
  initial d = Ok st0 ->
  loop stack width (modeltype_of d) good st0 = Ok st1 ->
  s < - zmax stack \/ zmax stack <= s ->
  fitPeak stack (good ++ s :: rest) width d = Raise IndexError.
Proof.
  intros Hinit Hgood Hs. unfold fitPeak. rewrite Hinit. cbn [bind].
  assert (Hd : popt_d st0 = d).
  { unfold initial in Hinit.
    destruct (Py.getitem _ "y0") as [vy|]; [|done]. cbn [bind] in Hinit.
    destruct (Py.int_round vy) as [cy|]; [|done]. cbn [bind] in Hinit.
    destruct (Py.getitem _ "x0") as [vx|]; [|done]. cbn [bind] in Hinit.
    destruct (Py.int_round vx) as [cx|]; [|done]. cbn [bind] in Hinit.
    by injection Hinit as <-. }
  rewrite Hd, loop_app, Hgood. cbn [bind loop].
  unfold step, window. cbv zeta.
  assert (Hout : (s <? - zmax stack) || (zmax stack <=? s) = true).
  { destruct Hs; [destruct (Z.ltb_spec s (- zmax stack)); [done|lia]|].
    destruct (Z.leb_spec (zmax stack) s); [|lia]. apply orb_true_r. }
  by rewrite Hout.
Qed.

End SliceRange.

Lemma gauss_fit_flat_profile_witness :
  exists x y,
    utils.prepare [F64.of_Z 0] [F64.of_Z 7] None None
    = Ok (F64.of_Z 7, [F64.zero; F64.nan; F64.nan; F64.of_Z 7], x, y).
Proof.
  exact (gauss_fit_flat_profile [F64.of_Z 0] 0 (F64.of_Z 7) None None
           eq_refl eq_refl).
Defined.

Lemma fitPeak_slice_out_of_range_witness :
  @StackAnalyzer.fitPeak never_converges dark [2] 2 start_dark
  = Raise IndexError.
Proof.
  refine (@fitPeak_slice_out_of_range never_converges dark [] 2 [] 2 start_dark
            _ _ _ eq_refl _).
  - vm_compute. reflexivity.
  - right. simpl. lia.
Defined.

(** * The completion of the pipeline *)

(** ** The fit of a window *)

Section OptimizeFacts.
Context `{Numerics}.
Import Gauss2D.

Lemma gauss2D_raises xy amp mu0 mu1 sigma0 sigma1 rho offset e :
  gauss2D xy amp mu0 mu1 sigma0 sigma1 rho offset = Raise e -> e = ValueError.
Proof.
  destruct xy as [x0 x1]. unfold gauss2D. case_bool_decide; congruence.
Qed.

Lemma model_ravel_raises xy g e : model_ravel xy g = Raise e -> e = ValueError.
Proof.
  unfold model_ravel.
  destruct (model xy g) as [v|e'] eqn:Hm; simpl; [done|]. intros [= <-].
  destruct g as [|p0 [|p1 [|p2 [|p3 [|p4 [|p5 [|p6 [|p7 rest]]]]]]]];
    simpl in Hm; try congruence;
    unfold gauss2D_sym, gauss2D_norot in Hm; by eapply gauss2D_raises.
Qed.

Lemma model_ravel_ok_length xy g v :
  model_ravel xy g = Ok v -> (5 <= length g <= 7)%nat.
Proof.
  unfold model_ravel.
  destruct g as [|p0 [|p1 [|p2 [|p3 [|p4 [|p5 [|p6 [|p7 rest]]]]]]]];
    simpl; try done; lia.
Qed.

Lemma coordinates_ok data h w :
  shape data = [h; w] -> exists xy, coordinates data = Ok xy.
Proof. intros Hs. unfold coordinates, np.dim. rewrite Hs. simpl. eauto. Qed.

(** The test of the widths either keeps the optimum or replaces it by
    zeros and reports the failure. *)
Lemma check_widths_ok data g popt h w :
  shape data = [h; w] -> (5 <= length popt)%nat ->
  exists r b, check_widths data g popt = Ok (r, b)
              /\ ((b = false /\ r = popt) \/ (b = true /\ r = np.zeros_like g)).
Proof.
  intros Hs Hl. unfold check_widths, np.max_dim. rewrite Hs. simpl.
  destruct popt as [|p0 [|p1 [|p2 [|p3 [|p4 rest]]]]]; simpl in Hl; try lia.
  unfold np.item. simpl.
  repeat (case_match; simpl); eexists _, _; (split; [reflexivity|]); auto.
Qed.

Lemma starting_point_some self g mt :
  starting_point self (Some g) mt
  = Ok ({| _data := _data self; _guess_params := Some g;
           _opt_params := _opt_params self; error := error self |}, g).
Proof. reflexivity. Qed.

Lemma estimate_params_ok self h w :
  shape (_data self) = [h; w] -> flat (_data self) <> [] ->
  exists self1 params,
    estimate_params self = Ok (self1, params)
    /\ _data self1 = _data self /\ length params = 7%nat.
Proof.
  intros Hshape Hne. unfold estimate_params, moments. rewrite Hshape.
  destruct (flat (_data self)) as [|x xs]; [done|]. simpl.
  eexists _, _. split; [reflexivity|]. done.
Qed.

Lemma starting_point_none self mt h w :
  shape (_data self) = [h; w] -> flat (_data self) <> [] ->
  exists self1 g,
    starting_point self None mt = Ok (self1, g)
    /\ _data self1 = _data self /\ length g = cold_length mt.
Proof.
  intros Hshape Hne.
  destruct (estimate_params_ok self h w Hshape Hne)
    as (self1 & params & Hest & Hdata & Hlen7).
  unfold starting_point. rewrite Hest. cbn [bind].
  eexists _, _. split; [reflexivity|]. split; [done|].
  destruct params as [|p0 [|p1 [|p2 [|p3 [|p4 [|p5 [|p6 [|p7 rest]]]]]]]];
    try done. by destruct mt.
Qed.

Lemma all_finite_zeros g : np.all_finite (np.zeros_like g) = true.
Proof. induction g as [|v g IH]; [done|]. simpl. exact IH. Qed.

(** The vector [optimize_params_ls] returns is the one it saves. *)
Lemma opt_params_saved self guess mt fit popt :
  optimize_params_ls self guess mt = Ok (fit, popt) ->
  _opt_params fit = Some popt /\ opt_params fit = Ok popt.
Proof.
  unfold optimize_params_ls. intros Hopt.
  destruct (starting_point self guess mt) as [[self1 g]|]; [|done].
  cbn [bind] in Hopt.
  destruct (coordinates _) as [xy|]; [|done]. cbn [bind] in Hopt.
  match type of Hopt with
  | bind ?m _ = _ => destruct m as [[r failed]|]; [|done]
  end.
  cbn [bind] in Hopt. injection Hopt as <- <-. by unfold opt_params.
Qed.

End OptimizeFacts.

Section OptimizeTotal.
Context `{Numerics}.
Import Gauss2D.

Hypothesis Hlen : keeps_length.
Hypothesis Hsoft : fails_softly.

(** With a window that has a row and a column and at least as many pixels
    as the guess has parameters, [optimize_params_ls] returns; a fit it
    reports as failed is the zero vector. *)
Lemma optimize_total self guess mt self1 g h w :
  starting_point self guess mt = Ok (self1, g) ->
  shape (_data self1) = [h; w] ->
  (length g <= length (flat (_data self1)))%nat ->
  exists fit popt,
    optimize_params_ls self guess mt = Ok (fit, popt)
    /\ _opt_params fit = Some popt
    /\ length popt = length g
    /\ _data fit = _data self1
    /\ (error fit = true -> popt = np.zeros_like g).
Proof.
  intros Hstart Hshape Hsize. unfold optimize_params_ls. rewrite Hstart.
  cbn [bind].
  destruct (coordinates_ok _ _ _ Hshape) as [xy ->]. cbn [bind].
  assert (Hcf : exists r b,
             match curve_fit true model_ravel xy (flat (_data self1)) g with
             | Ok popt => check_widths (_data self1) g popt
             | Raise OptimizeWarning | Raise ValueError | Raise RuntimeError =>
                 Ok (np.zeros_like g, true)
             | Raise e => Raise e
             end = Ok (r, b)
             /\ length r = length g
             /\ (b = true -> r = np.zeros_like g)).
  { unfold curve_fit.
    destruct (model_ravel xy g) as [v|e] eqn:Hm; cbn [bind].
    - apply model_ravel_ok_length in Hm.
      destruct (minimize _ _ g) as [[popt warned]|e] eqn:Hmin; cbn [bind].
      + apply Hlen in Hmin. destruct warned; simpl.
        * eexists _, _. split; [reflexivity|].
          split; [apply zeros_like_length|done].
        * destruct (check_widths_ok (_data self1) g popt h w Hshape ltac:(lia))
            as (r & b & -> & [[-> ->] | [-> ->]]); eexists _, _;
            (split; [reflexivity|]); split;
            [done | done | apply zeros_like_length | done].
      + apply Hsoft in Hmin as [-> | [-> _]]; [| |exact Hsize];
          (eexists _, _; split; [reflexivity|];
           split; [apply zeros_like_length | done]).
    - apply model_ravel_raises in Hm as ->. eexists _, _.
      split; [reflexivity|]. split; [apply zeros_like_length | done]. }
  destruct Hcf as (r & b & -> & Hr & Hb). cbn [bind].
  eexists _, _. split; [reflexivity|]. simpl. done.
Qed.

End OptimizeTotal.

(** ** Dictionaries of coefficients *)

Section DictFacts.

Lemma has_params_insert d k v : has_params d -> has_params (<[k := v]> d).
Proof.
  unfold has_params. intros Hd. eapply Forall_impl; [exact Hd|].
  intros k' [v' Hk']. simpl.
  destruct (decide (k = k')) as [->|Hne].
  - rewrite lookup_insert_eq. eauto.
  - rewrite lookup_insert_ne by done. eauto.
Qed.

Lemma has_params_lookup d k : has_params d -> k ∈ param_keys -> is_Some (d !! k).
Proof. unfold has_params. rewrite Forall_forall. auto. Qed.

Lemma guess_of_dict_length d : has_params d -> length (guess_of_dict d) = 7%nat.
Proof.
  intros Hd. unfold guess_of_dict.
  assert (Hk : forall k, k ∈ param_keys -> is_Some (d !! k))
    by (intros k; by apply has_params_lookup).
  unfold param_keys in *. simpl.
  destruct (Hk "amp"%string ltac:(set_solver)) as [? ->].
  destruct (Hk "x0"%string ltac:(set_solver)) as [? ->].
  destruct (Hk "y0"%string ltac:(set_solver)) as [? ->].
  destruct (Hk "sigma_x"%string ltac:(set_solver)) as [? ->].
  destruct (Hk "sigma_y"%string ltac:(set_solver)) as [? ->].
  destruct (Hk "rho"%string ltac:(set_solver)) as [? ->].
  destruct (Hk "offset"%string ltac:(set_solver)) as [? ->].
  reflexivity.
Qed.

Lemma x0_key : "x0"%string ∈ param_keys.
Proof. unfold param_keys. set_solver. Qed.

Lemma y0_key : "y0"%string ∈ param_keys.
Proof. unfold param_keys. set_solver. Qed.

Lemma not_slice c : c ∈ param_keys -> c <> "slice"%string.
Proof.
  unfold param_keys. intros Hc ->.
  repeat (apply elem_of_cons in Hc as [Hc|Hc]; [discriminate|]).
  by apply elem_of_nil in Hc.
Qed.

Lemma shape_key_param c : c ∈ shape_keys -> c ∈ param_keys.
Proof. unfold shape_keys, param_keys. set_solver. Qed.

Lemma shape_key_not_center c :
  c ∈ shape_keys -> c <> "x0"%string /\ c <> "y0"%string.
Proof.
  unfold shape_keys. intros Hc.
  split; intros ->;
    repeat (apply elem_of_cons in Hc as [Hc|Hc]; [discriminate|]);
    by apply elem_of_nil in Hc.
Qed.

Lemma finite_at_insert_ne d k k' v :
  k <> k' -> finite_at d k' -> finite_at (<[k := v]> d) k'.
Proof.
  intros Hne (f & Hf & Hfin). exists f. by rewrite lookup_insert_ne.
Qed.

Lemma finite_at_insert d k f :
  F64.isfinite f = true -> finite_at (<[k := PyFloat f]> d) k.
Proof. intros Hf. exists f. by rewrite lookup_insert_eq. Qed.

(** Moving the center of a steady guess leaves it steady. *)
Lemma steady_insert d k v :
  k = "x0"%string \/ k = "y0"%string -> steady d -> steady (<[k := v]> d).
Proof.
  intros Hk [Hp Hs]. split; [by apply has_params_insert|].
  rewrite Forall_forall in Hs. apply Forall_forall. intros c Hc.
  apply finite_at_insert_ne; [|by apply Hs].
  destruct (shape_key_not_center c Hc) as [Hx Hy].
  destruct Hk as [-> | ->]; congruence.
Qed.

Lemma isub_steady d k z :
  k = "x0"%string \/ k = "y0"%string -> steady d ->
  exists d', Py.isub d k z = Ok d' /\ steady d'.
Proof.
  intros Hk Hd.
  assert (Hin : k ∈ param_keys) by (destruct Hk as [-> | ->]; [apply x0_key|apply y0_key]).
  destruct (has_params_lookup d k (proj1 Hd) Hin) as [v Hv].
  unfold Py.isub, Py.getitem. rewrite Hv. cbn [bind].
  eexists. split; [reflexivity|]. by apply steady_insert.
Qed.

(** A dictionary whose seven coefficients are finite is a steady guess. *)
Lemma finite_steady d : Forall (finite_at d) param_keys -> steady d.
Proof.
  intros Hd. rewrite Forall_forall in Hd. split.
  - apply Forall_forall. intros k Hk. destruct (Hd k Hk) as (f & -> & _). eauto.
  - apply Forall_forall. intros k Hk. by apply Hd, shape_key_param.
Qed.

Lemma opt_params_dict_full fit popt :
  Gauss2D._opt_params fit = Some popt -> length popt = 7%nat ->
  exists d,
    opt_params_dict fit = Ok d
    /\ dom d = params_set
    /\ d !! "slice" = None
    /\ d !! "x0" = PyFloat <$> popt !! 1%nat
    /\ d !! "y0" = PyFloat <$> popt !! 2%nat
    /\ (np.all_finite popt = true -> Forall (finite_at d) param_keys).
Proof.
  intros Hopt Hlen. unfold opt_params_dict. rewrite Hopt, Hlen. cbn [bind].
  destruct popt as [|p0 [|p1 [|p2 [|p3 [|p4 [|p5 [|p6 [|p7 rest]]]]]]]];
    try done.
  eexists. split; [reflexivity|]. simpl.
  split; [unfold params_set, param_keys; simpl; set_solver|].
  split; [done|]. split; [done|]. split; [done|].
  intros Hfin. rewrite !andb_true_iff in Hfin.
  destruct Hfin as (F0 & F1 & F2 & F3 & F4 & F5 & F6 & _).
  unfold param_keys.
  repeat (constructor; [eexists; split; [reflexivity|done]|]). constructor.
Qed.

Lemma has_params_of_dom d : params_set ⊆ dom d -> has_params d.
Proof.
  intros Hsub. unfold has_params. rewrite Forall_forall. intros k Hk.
  apply elem_of_dom, Hsub. unfold params_set. set_solver.
Qed.

Lemma dom_recentered (d : gmap string pyval) vy vx :
  dom d = params_set -> dom (<["y0":=vy]> (<["x0":=vx]> d)) = params_set.
Proof.
  intros Hdom. rewrite !dom_insert_L, Hdom. unfold params_set, param_keys.
  set_solver.
Qed.

Lemma good_row_slice d s :
  dom d = params_set -> good_row (<["slice" := PyInt s]> d).
Proof.
  intros Hd. split.
  - exists s. by rewrite lookup_insert_eq.
  - by rewrite dom_insert_L, Hd.
Qed.

Lemma size_params_dict (d : gmap string pyval) : dom d = params_set -> size d = 7%nat.
Proof. intros Hd. rewrite <- size_dom, Hd. reflexivity. Qed.

Lemma int_round_finite f z : F64.int_round f = Ok z -> F64.isfinite f = true.
Proof. by destruct f. Qed.

(** A dictionary of finite coefficients stays one when its center is
    replaced by finite numbers. *)
Lemma recentered_finite d vy vx :
  Forall (finite_at d) param_keys ->
  F64.isfinite vy = true -> F64.isfinite vx = true ->
  Forall (finite_at (<["y0":=PyFloat vy]> (<["x0":=PyFloat vx]> d))) param_keys.
Proof.
  intros Hd Hy Hx. rewrite Forall_forall in Hd. apply Forall_forall.
  intros k Hk.
  destruct (decide (k = "y0"%string)) as [->|Hny];
    [by apply finite_at_insert|].
  apply finite_at_insert_ne; [done|].
  destruct (decide (k = "x0"%string)) as [->|Hnx];
    [by apply finite_at_insert|].
  apply finite_at_insert_ne; [done|]. by apply Hd.
Qed.

Lemma labelled_finite d s :
  Forall (finite_at d) param_keys ->
  Forall (finite_at (<["slice":=PyInt s]> d)) param_keys.
Proof.
  intros Hd. rewrite Forall_forall in Hd. apply Forall_forall. intros k Hk.
  apply finite_at_insert_ne; [|by apply Hd].
  apply not_eq_sym. by apply not_slice.
Qed.

End DictFacts.

(** ** Tracking through roomy windows *)

Section TrackTotal.
Context `{Numerics}.
Import StackAnalyzer.
Variable stack : Stack.
Variable fitwidth : Z.
Hypothesis Hlen : keeps_length.
Hypothesis Hsoft : fails_softly.
Hypothesis Htrack : tracks_stay_roomy stack fitwidth.

(** The window of a roomy center holds seven pixels in every slice. *)
Lemma window_roomy s cy cx :
  0 <= s < zmax stack -> roomy stack fitwidth cy cx ->
  exists data h w,
    window stack s (fst (sliceMaker stack cy cx fitwidth))
                   (snd (sliceMaker stack cy cx fitwidth)) = Ok data
    /\ shape data = [h; w] /\ (7 <= length (flat data))%nat.
Proof.
  intros Hs Hroomy.
  destruct (window_ok stack s (fst (sliceMaker stack cy cx fitwidth))
              (snd (sliceMaker stack cy cx fitwidth)) Hs)
    as (data & Hwin & Hshape & Hsize).
  eexists data, _, _. split; [done|]. split; [exact Hshape|].
  rewrite Hsize. exact Hroomy.
Qed.

(** Both attempts of a slice return, and a slice that fails twice leaves
    the zero vector. *)
Lemma attempt_total data guess h w :
  shape data = [h; w] -> (7 <= length (flat data))%nat -> has_params guess ->
  exists fit popt,
    attempt data guess full = Ok fit
    /\ Gauss2D._opt_params fit = Some popt /\ length popt = 7%nat
    /\ (Gauss2D.error fit = true -> np.all_finite popt = true).
Proof.
  intros Hshape Hsize Hguess. unfold attempt.
  destruct (optimize_total Hlen Hsoft (Gauss2D.init data)
              (Some (guess_of_dict guess)) full _ _ h w
              (starting_point_some _ _ _) Hshape)
    as (fit1 & popt1 & -> & Hopt1 & Hlen1 & Hdata1 & _).
  { simpl. rewrite guess_of_dict_length by done. exact Hsize. }
  cbn [bind]. rewrite guess_of_dict_length in Hlen1 by done.
  destruct (Gauss2D.error fit1) eqn:Herr1.
  - simpl in Hdata1.
    assert (Hne : flat data <> []) by (destruct (flat data); [simpl in Hsize; lia|done]).
    destruct (starting_point_none fit1 full h w)
      as (self1 & g & Hstart & Hd & Hg);
      [by rewrite Hdata1 | by rewrite Hdata1 |].
    destruct (optimize_total Hlen Hsoft fit1 None full self1 g h w Hstart)
      as (fit2 & popt2 & -> & Hopt2 & Hlen2 & Hdata2 & Hzero);
      [by rewrite Hd, Hdata1 | rewrite Hd, Hdata1, Hg; exact Hsize |].
    cbn [bind]. exists fit2, popt2. split; [done|]. split; [done|].
    split; [by rewrite Hlen2, Hg|].
    intros Herr2. rewrite (Hzero Herr2). apply all_finite_zeros.
  - exists fit1, popt1. split; [done|]. split; [done|]. split; [done|].
    intros Herr. congruence.
Qed.

(** One pass through the loop of [fitPeak] keeps the invariant of the
    track, whether the slice is accepted or not. *)
Lemma step_total st s :
  tracking stack fitwidth st -> 0 <= s < zmax stack ->
  exists st', step stack fitwidth full st s = Ok st'
              /\ tracking stack fitwidth st'.
Proof.
  intros (Hin & Hsteady & Hrows) Hs. unfold step. cbv zeta.
  destruct (window_roomy s (y0 st) (x0 st) Hs Hin)
    as (data & h & w & Hwin & Hshape & Hsize).
  rewrite Hwin. cbn [bind].
  destruct (isub_steady (popt_d st) "x0"
              (start (snd (sliceMaker stack (y0 st) (x0 st) fitwidth)))
              ltac:(by left) Hsteady) as (d1 & -> & Hd1). cbn [bind].
  destruct (isub_steady d1 "y0"
              (start (fst (sliceMaker stack (y0 st) (x0 st) fitwidth)))
              ltac:(by right) Hd1) as (d2 & -> & Hd2). cbn [bind].
  destruct (attempt_total data d2 h w Hshape Hsize (proj1 Hd2))
    as (fit & popt & Hfit & Hopt & Hlen7 & Hzero).
  rewrite Hfit. cbn [bind].
  destruct (opt_params_dict_full fit popt Hopt Hlen7)
    as (d & Hdict & Hdom & Hslice & Hx & Hy & Hvals).
  rewrite Hdict. cbn [bind].
  destruct (Gauss2D.error fit) eqn:Herr; cbn [negb].
  - (* both attempts failed *)
    eexists. split; [reflexivity|]. split; [done|]. split; [done|]. simpl.
    apply Forall_app. split; [done|]. constructor; [|constructor].
    split; [by apply good_row_slice|].
    apply labelled_finite, Hvals, Hzero. reflexivity.
  - (* an accepted fit *)
    destruct (Htrack _ _ _ _ _ _ _ Hin Hwin Hd2 Hfit Herr Hopt)
      as (Hfin & px & py & cy & cx & Hpx & Hpy & Hcx & Hcy & Hin').
    rewrite Hpx in Hx. rewrite Hpy in Hy. simpl in Hx, Hy.
    unfold Py.iadd, Py.getitem. rewrite Hx. cbn [bind].
    rewrite lookup_insert_ne by done. rewrite Hy. cbn [bind].
    rewrite lookup_insert_ne by done. rewrite lookup_insert_eq. cbn [bind].
    cbn [Py.add_int Py.int_round]. rewrite Hcy. cbn [bind].
    rewrite lookup_insert_ne by done. rewrite lookup_insert_ne by done.
    rewrite lookup_insert_eq. cbn [bind Py.int_round]. rewrite Hcx. cbn [bind].
    eexists. split; [reflexivity|].
    assert (Hrow : Forall
              (finite_at
                 (<["slice":=PyInt s]>
                    (<["y0":=PyFloat (py + F64.of_Z
                         (start (fst (sliceMaker stack (y0 st) (x0 st) fitwidth))))%f64]>
                       (<["x0":=PyFloat (px + F64.of_Z
                            (start (snd (sliceMaker stack (y0 st) (x0 st) fitwidth))))%f64]>
                          d)))) param_keys).
    { apply labelled_finite, recentered_finite;
        [by apply Hvals | by eapply int_round_finite..]. }
    split; [done|]. simpl. split; [by apply finite_steady|].
    apply Forall_app. split; [done|]. constructor; [|constructor].
    split; [|done]. apply good_row_slice. by apply dom_recentered.
Qed.

Lemma loop_total slices st :
  tracking stack fitwidth st -> Forall (fun s => 0 <= s < zmax stack) slices ->
  exists st', loop stack fitwidth full slices st = Ok st'
              /\ tracking stack fitwidth st'.
Proof.
  revert st. induction slices as [|s slices IH]; intros st Hst Hall; simpl.
  - eauto.
  - inversion Hall as [|? ? Hs Hrest]; subst.
    destruct (step_total st s Hst Hs) as (st1 & -> & Hst1). cbn [bind].
    apply IH; done.
Qed.

(** A track that starts from a steady fit at a roomy center returns, with
    finite rows. *)
Lemma fitPeak_total slices (d : gmap string pyval) fy fx cy cx :
  dom d = params_set -> steady d ->
  d !! "y0" = Some (PyFloat fy) -> F64.int_round fy = Ok cy ->
  d !! "x0" = Some (PyFloat fx) -> F64.int_round fx = Ok cx ->
  roomy stack fitwidth cy cx ->
  Forall (fun s => 0 <= s < zmax stack) slices ->
  exists rows,
    fitPeak stack slices fitwidth d = Ok rows /\ Forall finite_row rows.
Proof.
  intros Hdom Hsteady Hy Hcy Hx Hcx Hin Hslices.
  unfold fitPeak, initial, Py.getitem.
  rewrite Hy. cbn [bind Py.int_round]. rewrite Hcy. cbn [bind].
  rewrite Hx. cbn [bind Py.int_round]. rewrite Hcx. cbn [bind popt_d].
  assert (Hmt : modeltype_of d = full).
  { unfold modeltype_of. rewrite (size_params_dict d Hdom). reflexivity. }
  rewrite Hmt.
  destruct (loop_total slices
              {| y0 := cy; x0 := cx; popt_d := d; toreturn := [] |})
    as (st' & -> & _ & _ & Hrows); [|done|].
  { split; [done|]. split; [done|constructor]. }
  cbn [bind]. eauto.
Qed.

End TrackTotal.

(** ** Tables of finite rows *)

Section TableFacts.

Lemma elem_of_params_set c : c ∈ params_set <-> c ∈ param_keys.
Proof. unfold params_set. by rewrite elem_of_list_to_set. Qed.

Lemma entries_ok rs :
  Forall good_row rs ->
  exists es,
    pd.entries "slice" rs = Ok es
    /\ Forall2 (fun r e => e.2 = Py.as_float <$> delete "slice" r) rs es.
Proof.
  induction 1 as [|r rs [[z Hz] Hdom] Hrs (es & IH & IH2)]; simpl.
  - eexists. split; [reflexivity|constructor].
  - unfold pd.entry. rewrite Hz. cbn [bind]. rewrite IH. cbn [bind].
    eexists. split; [reflexivity|]. constructor; [reflexivity|exact IH2].
Qed.

Lemma entry_dom (r : gmap string pyval) :
  good_row r -> dom (Py.as_float <$> delete "slice" r) = params_set.
Proof.
  intros [_ Hdom]. rewrite dom_fmap_L, dom_delete_L, Hdom.
  unfold params_set, param_keys. set_solver.
Qed.

Lemma entry_finite (r : gmap string pyval) :
  finite_row r -> finite_entries (Py.as_float <$> delete "slice" r).
Proof.
  intros [_ Hf]. rewrite Forall_forall in Hf. unfold finite_entries.
  apply Forall_forall.
  intros c Hc. destruct (Hf c Hc) as (f & Hr & Hfin).
  unfold pd.cell. rewrite lookup_fmap.
  rewrite lookup_delete_ne by (apply not_eq_sym; by apply not_slice).
  by rewrite Hr.
Qed.

Lemma union_list_same (X : gset string) (l : list (gset string)) :
  l <> [] -> Forall (fun Y => Y = X) l -> ⋃ l = X.
Proof.
  intros Hne Hall. destruct l as [|Y l]; [done|].
  inversion Hall as [|? ? -> Hl]; subst. clear Hne Hall.
  induction Hl as [|Z l -> Hl IH].
  - simpl. apply union_empty_r_L.
  - simpl in *. by rewrite (assoc_L (∪)), union_idemp_L.
Qed.

(** The frame of finite records: the seven coefficients are its columns,
    and its rows are finite. *)
Lemma of_records_finite r rs :
  Forall finite_row (r :: rs) ->
  exists df,
    pd.of_records "slice" (r :: rs) = Ok df
    /\ pd.columns df = params_set
    /\ Forall (fun e => finite_entries e.2) (pd.rows df).
Proof.
  intros Hall.
  assert (Hgood : Forall good_row (r :: rs))
    by (eapply Forall_impl; [exact Hall|]; by intros ? [? _]).
  destruct (entries_ok _ Hgood) as (es & Hes & H2).
  unfold pd.of_records. rewrite Hes. cbn [bind].
  eexists. split; [reflexivity|]. simpl. split.
  - apply union_list_same.
    + inversion H2; subst. done.
    + apply Forall_fmap. eapply Forall2_Forall_r; [exact H2|].
      eapply Forall_impl; [exact Hgood|]. simpl.
      intros r' Hr' e' ->. by apply entry_dom.
  - eapply Forall2_Forall_r; [exact H2|].
    eapply Forall_impl; [exact Hall|]. simpl.
    intros r' Hr' e' ->. by apply entry_finite.
Qed.

Lemma isfinite_abs v : F64.isfinite (F64.abs v) = F64.isfinite v.
Proof. by destruct v. Qed.

Lemma abs_columns_finite df :
  pd.columns df = params_set ->
  Forall (fun e => finite_entries e.2) (pd.rows df) ->
  exists df',
    pd.abs_columns ["sigma_x"; "sigma_y"]%string df = Ok df'
    /\ pd.columns df' = params_set
    /\ Forall (fun e => finite_entries e.2) (pd.rows df').
Proof.
  intros Hcols Hfin. unfold pd.abs_columns.
  assert (Hin : forallb (fun c => bool_decide (c ∈ pd.columns df))
                        ["sigma_x"; "sigma_y"]%string = true).
  { rewrite Hcols. reflexivity. }
  rewrite Hin. eexists. split; [reflexivity|]. split; [done|]. simpl.
  apply Forall_fmap. eapply Forall_impl; [exact Hfin|]. simpl.
  intros e He. unfold finite_entries in *.
  rewrite Forall_forall in He. apply Forall_forall.
  intros c Hc. specialize (He c Hc). unfold pd.cell in *.
  destruct (decide (c = "sigma_x"%string)) as [->|Hx].
  { rewrite lookup_insert_eq. simpl. rewrite isfinite_abs.
    by rewrite lookup_insert_ne. }
  rewrite lookup_insert_ne by done.
  destruct (decide (c = "sigma_y"%string)) as [->|Hy].
  { rewrite lookup_insert_eq. simpl. by rewrite isfinite_abs. }
  by rewrite lookup_insert_ne.
Qed.

Lemma sort_finite df :
  Forall (fun e => finite_entries e.2) (pd.rows df) ->
  Forall (fun e => finite_entries e.2) (pd.rows (pd.sort df)).
Proof. intros Hfin. simpl. by rewrite sort_perm. Qed.

Lemma column_ok df c :
  pd.columns df = params_set -> c ∈ param_keys ->
  pd.column df c = Ok (map (fun e => pd.cell e.2 c) (pd.rows df)).
Proof.
  intros Hcols Hc. unfold pd.column.
  rewrite bool_decide_eq_true_2; [done|].
  rewrite Hcols. by apply elem_of_params_set.
Qed.

Lemma interp_ok x xp fp :
  xp <> [] -> length xp = length fp -> exists v, np.interp x xp fp = Ok v.
Proof.
  intros Hne Hlen. unfold np.interp.
  destruct xp as [|x0 xp]; [done|]. destruct fp as [|y0 fp]; [done|].
  rewrite bool_decide_eq_true_2 by done. simpl.
  repeat case_match; eauto.
Qed.

Lemma filter_all {A} (P : A -> Prop) `{forall x, Decision (P x)} (l : list A) :
  Forall P l -> filter P l = l.
Proof.
  induction 1 as [|x l Hx Hl IH]; [done|].
  rewrite filter_cons_True by done. by rewrite IH.
Qed.

Lemma isfinite_not_nan f : F64.isfinite f = true -> F64.is_nan f = false.
Proof. by destruct f. Qed.

(** No row of the table of a whole track is dropped by [dropna], nor by
    the default sub-range. *)
Lemma whole_rows stack df :
  whole_track stack df ->
  pd.loc (None, None) (pd.dropna df) = df.
Proof.
  intros (Hcols & _ & Hfin). destruct df as [cols rows]. simpl in *.
  unfold pd.loc, pd.dropna. simpl. f_equal.
  rewrite (filter_all _ (filter _ rows)); [|by apply Forall_forall].
  apply filter_all. eapply Forall_impl; [exact Hfin|]. simpl.
  intros e He. unfold finite_entries in He. rewrite Forall_forall in He.
  apply forallb_forall. intros c Hc. apply list_elem_of_In in Hc.
  apply elem_of_elements in Hc. rewrite Hcols in Hc.
  apply elem_of_params_set in Hc. by rewrite (isfinite_not_nan _ (He c Hc)).
Qed.

End TableFacts.

(** ** The profile of a whole track *)

Section ProfileTotal.
Context `{Numerics}.
Import utils.
Hypothesis Hlen : keeps_length.
Hypothesis Hsoft : fails_softly.

Lemma prepare_none xdata ydata guess_z :
  ydata <> [] ->
  exists offset amp x0 sigma_x,
    prepare xdata ydata None guess_z
    = Ok (offset, [amp; x0; sigma_x; offset], xdata, ydata).
Proof.
  intros Hne. unfold prepare. destruct ydata as [|y ys]; [done|]. simpl.
  eexists _, _, _, _. reflexivity.
Qed.

(** Without a trim, a finite profile of four points or more is fitted:
    the solver returns four numbers, or fails by RuntimeError and leaves
    four NaN. *)
Lemma gauss_fit_total xdata ydata withoffset guess_z :
  (4 <= length ydata)%nat -> np.all_finite ydata = true ->
  exists popt,
    gauss_fit xdata ydata withoffset None guess_z = Ok popt
    /\ length popt = 4%nat.
Proof.
  intros Hsize Hfin.
  destruct (prepare_none xdata ydata guess_z) as (offset & amp & x0 & sx & Hprep).
  { destruct ydata; [simpl in Hsize; lia|done]. }
  unfold gauss_fit. rewrite Hprep. cbn [bind].
  unfold solve, curve_fit.
  destruct withoffset; cbn [gauss gauss_no_offset take bind].
  - destruct (minimize _ ydata _) as [[popt w]|e] eqn:Hmin; cbn [bind].
    + apply Hlen in Hmin. rewrite andb_false_r. eauto.
    + apply Hsoft in Hmin as [-> | [_ Hnf]]; [eauto|congruence|simpl; lia].
  - destruct (minimize _ ydata _) as [[popt w]|e] eqn:Hmin; cbn [bind].
    + apply Hlen in Hmin. rewrite andb_false_r. cbn [bind].
      destruct popt as [|p0 [|p1 [|p2 [|p3 rest]]]]; try done. eauto.
    + apply Hsoft in Hmin as [-> | [_ Hnf]]; [eauto|congruence|simpl; lia].
Qed.

Lemma psf_of_fit_total stack df withoffset guess_z :
  4 <= zmax stack -> whole_track stack df ->
  exists row,
    PSFStackAnalyzer.psf_of_fit (None, None) withoffset None guess_z df = Ok row.
Proof.
  intros Hz Hdf. unfold PSFStackAnalyzer.psf_of_fit.
  rewrite (whole_rows stack df Hdf).
  destruct Hdf as (Hcols & Hidx & Hfin).
  assert (Hrows : length (pd.rows df) = Z.to_nat (zmax stack)).
  { apply (f_equal length) in Hidx. by rewrite !length_map, length_seq in Hidx. }
  rewrite !(column_ok df) by (done || (apply list_elem_of_In; simpl; tauto)).
  cbn [bind].
  destruct (gauss_fit_total (pd.index_values df)
              (map (fun e => pd.cell e.2 "amp") (pd.rows df))
              withoffset guess_z) as (popt & Hfit & Hlen4).
  { rewrite length_map, Hrows. lia. }
  { apply forallb_forall. intros v Hv. apply in_map_iff in Hv as (e & <- & He).
    apply list_elem_of_In in He. rewrite Forall_forall in Hfin.
    specialize (Hfin e He). unfold finite_entries in Hfin.
    rewrite Forall_forall in Hfin. apply Hfin.
    apply list_elem_of_In. simpl. tauto. }
  unfold PSFStackAnalyzer.gauss_fit. rewrite Hfit. cbn [bind].
  destruct popt as [|famp [|z0 [|sigma_z [|offset [|? ?]]]]]; try done.
  assert (Hne : pd.index_values df <> []).
  { unfold pd.index_values. destruct (pd.rows df); [simpl in Hrows; lia|done]. }
  assert (Hl : forall c,
             length (pd.index_values df)
             = length (map (fun e => pd.cell e.2 c) (pd.rows df)))
    by (intros c; unfold pd.index_values; by rewrite !length_map).
  destruct (interp_ok z0 _ _ Hne (Hl "x0"%string)) as [v1 ->]. cbn [bind].
  destruct (interp_ok z0 _ _ Hne (Hl "y0"%string)) as [v2 ->]. cbn [bind].
  destruct (interp_ok z0 _ _ Hne (Hl "sigma_x"%string)) as [v3 ->]. cbn [bind].
  destruct (interp_ok z0 _ _ Hne (Hl "sigma_y"%string)) as [v4 ->]. cbn [bind].
  eauto.
Qed.

Lemma calc_psf_params_total stack fits withoffset guess_z :
  4 <= zmax stack -> Forall (whole_track stack) fits ->
  exists rows,
    PSFStackAnalyzer.calc_psf_params fits (None, None) withoffset None guess_z
    = Ok rows
    /\ Forall2
         (fun df row =>
            PSFStackAnalyzer.psf_of_fit (None, None) withoffset None guess_z df
            = Ok row) fits rows.
Proof.
  intros Hz.
  induction 1 as [|df fits Hdf Hfits (rows & IH & IHrows)]; simpl.
  - exists []. split; [reflexivity|constructor].
  - destruct (psf_of_fit_total stack df withoffset guess_z Hz Hdf) as [row Hrow].
    rewrite Hrow. cbn [bind]. rewrite IH. cbn [bind].
    exists (row :: rows). split; [reflexivity|]. by constructor.
Qed.

End ProfileTotal.

(** ** The peaks of a stack *)

Section TableIndex.
Context `{Numerics}.
Import PSFStackAnalyzer.

(** The rows of the table of a peak are labelled with the slices of the
    stack, in their order. *)
Lemma fitBlob_index stack fitwidth mt blob df :
  fitBlob stack fitwidth mt blob = Ok (Some df) ->
  map fst (pd.rows df) = map Z.of_nat (seq 0 (Z.to_nat (zmax stack))).
Proof.
  intros Hfit.
  destruct (fitBlob_table _ _ _ _ _ Hfit)
    as (m & row0 & fwd & bwd & df0 & df1 & Hm & Hrow0 & Hfwd & Hbwd
        & Hdf0 & Hdf1 & ->).
  apply (StronglySorted_unique Z.le);
    [apply sort_sorted | apply seq_sorted |].
  simpl. rewrite sort_perm.
  rewrite (abs_columns_rows _ _ _ Hdf1), map_map. simpl.
  unfold pd.of_records in Hdf0.
  destruct (pd.entries _ _) as [es|] eqn:Hes; [|done].
  injection Hdf0 as <-. simpl.
  apply entries_index in Hes.
  rewrite !map_app in Hes. simpl in Hes.
  rewrite (fitPeak_slices _ _ _ _ _ Hfwd), (fitPeak_slices _ _ _ _ _ Hbwd),
    Hrow0 in Hes.
  assert (Hkeys : map fst es
                  = m :: map (fun k => m + 1 + Z.of_nat k)
                             (seq 0 (Z.to_nat (zmax stack - (m + 1))))
                      ++ rev (map Z.of_nat (seq 0 (Z.to_nat m)))).
  { apply labels_inj. rewrite map_map. simpl. rewrite <- Hes. simpl.
    by rewrite map_app. }
  change (map (fun x : Z * gmap string float => x.1) es) with (map fst es).
  rewrite Hkeys.
  rewrite <- (track_order_perm (Z.to_nat (zmax stack)) m) by lia.
  by rewrite Z2Nat.id by lia.
Qed.

(** A blob whose seed fit is not finite contributes no table; the other
    blobs are fitted as if it were not there. *)
Lemma unfittable_blob_skipped stack blob blobs fitwidth mt :
  fitBlob stack fitwidth mt blob = Ok None ->
  fitPeaks stack (blob :: blobs) fitwidth mt = fitPeaks stack blobs fitwidth mt.
Proof.
  intros Hblob. simpl. rewrite Hblob. cbn [bind].
  by destruct (fitPeaks stack blobs fitwidth mt).
Qed.

(** An exception in the fit of one blob is the result of [fitPeaks],
    whatever tables the blobs before it have given. *)
Lemma fitPeaks_aborts stack done blob blobs fitwidth mt e :
  Forall (fun b => is_ok (fitBlob stack fitwidth mt b) = true) done ->
  fitBlob stack fitwidth mt blob = Raise e ->
  fitPeaks stack (done ++ blob :: blobs) fitwidth mt = Raise e.
Proof.
  intros Hdone Hblob.
  induction Hdone as [|b done Hb Hdone IH]; simpl.
  - by rewrite Hblob.
  - destruct (fitBlob stack fitwidth mt b) as [t|]; [|done]. cbn [bind].
    by rewrite IH.
Qed.

End TableIndex.

Section PipelineTotal.
Context `{Numerics}.
Import StackAnalyzer.
Variable stack : Stack.
Variable fitwidth : Z.
Hypothesis Hz : 4 <= zmax stack.
Hypothesis Hlen : keeps_length.
Hypothesis Hsoft : fails_softly.
Hypothesis Htrack : tracks_stay_roomy stack fitwidth.

(** The fit of one blob returns.  A seed fit that is not finite gives no
    table; a finite one gives the table of a whole track. *)
Lemma fitBlob_total blob :
  roomy stack fitwidth (blob_y blob) (blob_x blob) ->
  seed_stays_roomy stack fitwidth blob ->
  exists t opt,
    PSFStackAnalyzer.fitBlob stack fitwidth full blob = Ok t
    /\ seed_fit stack fitwidth full blob = Ok opt
    /\ match t with
       | None => np.all_finite opt = false
       | Some df => np.all_finite opt = true /\ whole_track stack df
       end.
Proof.
  intros Hin Hseed. unfold seed_stays_roomy in Hseed.
  set (ys := fst (sliceMaker stack (blob_y blob) (blob_x blob) fitwidth)) in *.
  set (xs := snd (sliceMaker stack (blob_y blob) (blob_x blob) fitwidth)) in *.
  destruct (brightest_ok stack ys xs ltac:(lia)) as (m & Hbright & Hm).
  destruct (window_roomy stack fitwidth m _ _ Hm Hin)
    as (data & h & w & Hwin & Hshape & Hsize).
  fold ys xs in Hwin.
  assert (Hne : flat data <> [])
    by (destruct (flat data); [simpl in Hsize; lia|done]).
  destruct (starting_point_none (Gauss2D.init data) full h w Hshape Hne)
    as (self1 & g & Hstart & Hdata & Hg).
  destruct (optimize_total Hlen Hsoft (Gauss2D.init data) None full self1 g h w
              Hstart ltac:(by rewrite Hdata)
              ltac:(rewrite Hdata, Hg; exact Hsize))
    as (max_z & opt & Hopt & Hoptp & Hlen7 & _ & _).
  rewrite Hg in Hlen7. simpl in Hlen7.
  assert (Hacc : Gauss2D.opt_params max_z = Ok opt)
    by (unfold Gauss2D.opt_params; by rewrite Hoptp).
  assert (Hseedfit : seed_fit stack fitwidth full blob = Ok opt).
  { unfold seed_fit. cbv zeta. fold ys xs. rewrite Hbright. cbn [bind].
    rewrite Hwin. cbn [bind]. rewrite Hopt. cbn [bind]. exact Hacc. }
  destruct (np.all_finite opt) eqn:Hfin.
  2: { exists None, opt. split; [|by rewrite Hfin].
       unfold PSFStackAnalyzer.fitBlob. cbv zeta. fold ys xs.
       rewrite Hbright. cbn [bind]. rewrite Hwin. cbn [bind].
       rewrite Hopt. cbn [bind]. rewrite Hacc. cbn [bind]. by rewrite Hfin. }
  assert (Hfit : exists df,
             PSFStackAnalyzer.fitBlob stack fitwidth full blob = Ok (Some df)
             /\ pd.columns df = params_set
             /\ Forall (fun e => finite_entries e.2) (pd.rows df)).
  { unfold PSFStackAnalyzer.fitBlob. cbv zeta. fold ys xs.
    rewrite Hbright. cbn [bind]. rewrite Hwin. cbn [bind].
    rewrite Hopt. cbn [bind]. rewrite Hacc. cbn [bind]. rewrite Hfin.
    destruct (opt_params_dict_full max_z opt Hoptp Hlen7)
      as (d & Hdict & Hdom & Hslice & Hx & Hy & Hvals).
    specialize (Hvals Hfin).
    rewrite Hdict. cbn [bind].
    destruct (Hseed opt Hseedfit Hfin)
      as (px & py & cy & cx & Hpx & Hpy & Hcx & Hcy & Hin').
    rewrite Hpx in Hx. rewrite Hpy in Hy. simpl in Hx, Hy.
    unfold Py.iadd, Py.getitem.
    rewrite lookup_insert_ne by done. rewrite Hx. cbn [bind].
    rewrite lookup_insert_ne by done. rewrite lookup_insert_ne by done.
    rewrite Hy. cbn [bind Py.add_int].
    set (vy := (py + F64.of_Z (start ys))%f64) in *.
    set (vx := (px + F64.of_Z (start xs))%f64) in *.
    set (row0 := <["y0":=PyFloat vy]>
                   (<["x0":=PyFloat vx]> (<["slice":=PyInt m]> d))).
    assert (Hdel : delete "slice" row0
                   = <["y0":=PyFloat vy]> (<["x0":=PyFloat vx]> d)).
    { unfold row0. rewrite delete_insert_ne by done.
      rewrite delete_insert_ne by done. rewrite delete_insert_eq.
      by rewrite delete_id. }
    assert (Hfy : F64.isfinite vy = true) by (by eapply int_round_finite).
    assert (Hfx : F64.isfinite vx = true) by (by eapply int_round_finite).
    assert (Hdom0 : dom (delete "slice" row0) = params_set)
      by (rewrite Hdel; by apply dom_recentered).
    assert (Hsteady : steady (delete "slice" row0))
      by (rewrite Hdel; by apply finite_steady, recentered_finite).
    assert (Hy0 : delete "slice" row0 !! "y0" = Some (PyFloat vy))
      by (rewrite Hdel; by rewrite lookup_insert_eq).
    assert (Hx0 : delete "slice" row0 !! "x0" = Some (PyFloat vx)).
    { rewrite Hdel. rewrite lookup_insert_ne by done.
      by rewrite lookup_insert_eq. }
    assert (Hfwd : Forall (fun s => 0 <= s < zmax stack)
                     (map (fun k => m + 1 + Z.of_nat k)
                          (seq 0 (Z.to_nat (zmax stack - (m + 1)))))).
    { apply Forall_forall. intros s Hs.
      apply list_elem_of_fmap in Hs as (k & -> & Hk).
      apply elem_of_seq in Hk. lia. }
    assert (Hbwd : Forall (fun s => 0 <= s < zmax stack)
                     (rev (map Z.of_nat (seq 0 (Z.to_nat m))))).
    { apply Forall_forall. intros s Hs.
      apply list_elem_of_In, in_rev, list_elem_of_In in Hs.
      apply list_elem_of_fmap in Hs as (k & -> & Hk).
      apply elem_of_seq in Hk. lia. }
    destruct (fitPeak_total stack fitwidth Hlen Hsoft Htrack _ _ _ _ _ _
                Hdom0 Hsteady Hy0 Hcy Hx0 Hcx Hin' Hfwd)
      as (fwd & -> & Hgf). cbn [bind].
    destruct (fitPeak_total stack fitwidth Hlen Hsoft Htrack _ _ _ _ _ _
                Hdom0 Hsteady Hy0 Hcy Hx0 Hcx Hin' Hbwd)
      as (bwd & -> & Hgb). cbn [bind].
    assert (Hrow0 : finite_row row0).
    { split; [split|].
      - exists m. unfold row0. rewrite lookup_insert_ne by done.
        rewrite lookup_insert_ne by done. by rewrite lookup_insert_eq.
      - unfold row0. rewrite (insert_insert_ne _ "x0" "slice") by done.
        rewrite (insert_insert_ne _ "y0" "slice") by done.
        rewrite dom_insert_L. by rewrite dom_recentered.
      - unfold row0. by apply recentered_finite; [apply labelled_finite|..]. }
    destruct (of_records_finite row0 (fwd ++ bwd))
      as (df0 & Hdf0 & Hcols0 & Hfin0).
    { constructor; [done|]. by apply Forall_app. }
    replace (([row0] ++ fwd) ++ bwd) with (row0 :: fwd ++ bwd) by reflexivity.
    rewrite Hdf0. cbn [bind].
    destruct (abs_columns_finite df0 Hcols0 Hfin0) as (df1 & -> & Hcols1 & Hfin1).
    cbn [bind]. eexists. split; [reflexivity|]. split; [done|].
    by apply sort_finite. }
  destruct Hfit as (df & Hfit & Hcols & Hfinite).
  exists (Some df), opt. split; [done|]. split; [done|]. split; [done|].
  split; [done|]. split; [|done]. by eapply fitBlob_index.
Qed.

(** Every blob is fitted on its own: the result of [fitPeaks] is the
    list of the tables that are there, in the order of the blobs. *)
Lemma fitPeaks_total blobs :
  Forall (fun b => roomy stack fitwidth (blob_y b) (blob_x b)) blobs ->
  Forall (seed_stays_roomy stack fitwidth) blobs ->
  exists tables,
    PSFStackAnalyzer.fitPeaks stack blobs fitwidth full = Ok (omap id tables)
    /\ Forall (whole_track stack) (omap id tables)
    /\ Forall2
         (fun b t =>
            PSFStackAnalyzer.fitBlob stack fitwidth full b = Ok t
            /\ exists opt,
                seed_fit stack fitwidth full b = Ok opt
                /\ match t with
                   | None => np.all_finite opt = false
                   | Some df => np.all_finite opt = true /\ whole_track stack df
                   end)
         blobs tables.
Proof.
  induction 1 as [|blob blobs Hb Hbs IH]; intros Hseeds; simpl.
  - exists []. split; [reflexivity|]. split; constructor.
  - inversion Hseeds as [|? ? Hseed Hrest]; subst.
    destruct (IH Hrest) as (tables & IHfits & Hwhole & Hall).
    destruct (fitBlob_total blob Hb Hseed) as (t & opt & Hfit & Hopt & Ht).
    rewrite Hfit. cbn [bind]. rewrite IHfits. cbn [bind].
    exists (t :: tables). split; [by destruct t|]. split.
    + destruct t as [df|]; simpl; [|done]. constructor; [by destruct Ht|done].
    + constructor; [|done]. split; [done|]. by exists opt.
Qed.

End PipelineTotal.

Section Completion.
Context `{Numerics}.
Import PSFStackAnalyzer.


End Completion.

(** ** A run of the pipeline *)

Section FollowsLight.
Import Gauss2D StackAnalyzer.

Lemma follows_light_keeps_length : @keeps_length follows_light.
Proof.
  intros g y p popt w. simpl.
  case_bool_decide as Hp; [|by intros [= <- _]].
  destruct (lit y); [|done].
  destruct (np.all_finite (shape_of p)); intros [= <- _]; [|done].
  by rewrite Hp.
Qed.

Lemma follows_light_fails_softly : @fails_softly follows_light.
Proof.
  intros g y p e _. simpl.
  case_bool_decide; [|done].
  destruct (lit y); [by destruct (np.all_finite _)|].
  intros [= <-]. by left.
Qed.

Lemma shape_of_full p0 p1 p2 p3 p4 p5 p6 :
  shape_of [p0; p1; p2; p3; p4; p5; p6] = [p0; p3; p4; p5; p6].
Proof. reflexivity. Qed.

Lemma all_finite_shape p :
  length p = 7%nat -> np.all_finite p = true ->
  np.all_finite (shape_of p) = true.
Proof.
  intros Hp.
  destruct p as [|p0 [|p1 [|p2 [|p3 [|p4 [|p5 [|p6 [|p7 rest]]]]]]]];
    try done.
  rewrite shape_of_full. simpl. rewrite !andb_true_iff. tauto.
Qed.

(** The vector of a steady guess has a finite shape. *)
Lemma steady_guess_shape d :
  steady d ->
  length (guess_of_dict d) = 7%nat
  /\ np.all_finite (shape_of (guess_of_dict d)) = true.
Proof.
  intros [Hp Hs]. split; [by apply guess_of_dict_length|].
  rewrite Forall_forall in Hs.
  assert (Hk : forall k, k ∈ param_keys -> is_Some (d !! k))
    by (intros k; by apply has_params_lookup).
  assert (Hf : forall k, k ∈ shape_keys ->
            exists f, d !! k = Some (PyFloat f) /\ F64.isfinite f = true)
    by (intros k Hin; by apply Hs).
  unfold guess_of_dict, param_keys, shape_keys in *. simpl.
  destruct (Hf "amp"%string ltac:(set_solver)) as (a & -> & Ha).
  destruct (Hk "x0"%string ltac:(set_solver)) as [vx ->].
  destruct (Hk "y0"%string ltac:(set_solver)) as [vy ->].
  destruct (Hf "sigma_x"%string ltac:(set_solver)) as (sx & -> & Hsx).
  destruct (Hf "sigma_y"%string ltac:(set_solver)) as (sy & -> & Hsy).
  destruct (Hf "rho"%string ltac:(set_solver)) as (r & -> & Hr).
  destruct (Hf "offset"%string ltac:(set_solver)) as (o & -> & Ho).
  change (np.all_finite
            (shape_of [a; Py.as_float vx; Py.as_float vy; sx; sy; r; o])
          = true).
  rewrite shape_of_full. simpl. by rewrite Ha, Hsx, Hsy, Hr, Ho.
Qed.

(** The full model is defined on the coordinates of every window. *)
Lemma model_ravel_full `{Numerics} x y g :
  length g = 7%nat -> exists v, model_ravel (np.meshgrid x y) g = Ok v.
Proof.
  intros Hg.
  destruct g as [|p0 [|p1 [|p2 [|p3 [|p4 [|p5 [|p6 [|p7 rest]]]]]]]];
    try done.
  unfold model_ravel, model, gauss2D, np.meshgrid. cbv zeta.
  rewrite bool_decide_eq_false_2 by (intros Hne; by apply Hne).
  cbn [bind]. eauto.
Qed.

Lemma cold_start_data self mt self1 g :
  starting_point self None mt = Ok (self1, g) -> _data self1 = _data self.
Proof.
  unfold starting_point, estimate_params. intros Hstart.
  destruct (moments _) as [M|]; [|done]. cbn [bind] in Hstart.
  destruct (np.max _) as [amp|]; [|done]. cbn [bind] in Hstart.
  destruct (np.min _) as [offset|]; [|done]. cbn [bind] in Hstart.
  by injection Hstart as <- _.
Qed.

(** A width of one pixel does not exceed a window of the example. *)
Lemma unit_width_fits k :
  1 <= k <= 7 -> F64.gtb (F64.of_Z 1) (F64.of_Z k) = false.
Proof.
  intros Hk.
  assert (k = 1 \/ k = 2 \/ k = 3 \/ k = 4 \/ k = 5 \/ k = 6 \/ k = 7)
    as Hcases by lia.
  destruct Hcases as [->|[->|[->|[->|[->|[->| ->]]]]]]; reflexivity.
Qed.

(** What a fit of seven parameters comes to with the example solver. *)
Lemma follows_light_fit self guess mt self1 g fit popt h w :
  starting_point self guess mt = Ok (self1, g) ->
  length g = 7%nat ->
  shape (_data self1) = [h; w] -> 1 <= h <= 7 -> 1 <= w <= 7 ->
  @optimize_params_ls follows_light self guess mt = Ok (fit, popt) ->
  _data fit = _data self1
  /\ if lit (flat (_data self1)) then
       if np.all_finite (shape_of g)
       then error fit = false /\ popt = unit_bead
       else popt = g \/ popt = np.zeros_like g
     else error fit = true /\ popt = np.zeros_like g.
Proof.
  intros Hstart Hg Hshape Hh Hw. unfold optimize_params_ls.
  rewrite Hstart. cbn [bind].
  unfold coordinates, np.dim. rewrite Hshape. cbn [lookup list_lookup bind].
  destruct (@model_ravel_full follows_light (np.arange w) (np.arange h) g Hg)
    as [v Hv].
  unfold curve_fit. rewrite Hv. cbn [bind].
  cbn [minimize follows_light].
  rewrite bool_decide_eq_true_2 by done.
  destruct (lit (flat (_data self1))).
  - destruct (np.all_finite (shape_of g)).
    + cbn [bind andb].
      unfold check_widths, np.max_dim. rewrite Hshape. cbn [fold_left bind].
      change (Z.of_nat (length unit_bead) <? 6) with false. cbv iota.
      change (np.item unit_bead 3) with (Ok (F64.of_Z 1)).
      change (np.item unit_bead 4) with (Ok (F64.of_Z 1)).
      cbn [bind]. rewrite unit_width_fits by lia. cbn [bind].
      intros [= <- <-]. simpl. done.
    + cbn [bind andb].
      destruct (check_widths_ok (_data self1) g g h w Hshape ltac:(lia))
        as (r & b & -> & Hr).
      cbn [bind]. intros [= <- <-]. simpl. split; [done|].
      destruct Hr as [[_ ->] | [_ ->]]; auto.
  - cbn [bind]. intros [= <- <-]. simpl. done.
Qed.

(** *** The windows of the example stack *)

Lemma two_spots_axis c :
  (length (slice_indices 7 (axis 7 c 6)) <= 7)%nat
  /\ ((1 <= length (slice_indices 7 (axis 7 c 6)))%nat ->
      0 <= start (axis 7 c 6) <= 5)
  /\ (0 <= c <= 6 -> (3 <= length (slice_indices 7 (axis 7 c 6)))%nat).
Proof.
  rewrite slice_indices_length, axis_start, axis_stop.
  change (half1 6) with 3. change (half2 6) with 3.
  unfold slice_bound.
  repeat match goal with
         | |- context [?a <? ?b] => destruct (Z.ltb_spec a b)
         end; lia.
Qed.

Lemma two_spots_roomy cy cx :
  0 <= cy <= 6 -> 0 <= cx <= 6 -> roomy two_spots 6 cy cx.
Proof.
  intros Hy Hx. unfold roomy, window_pixels. rewrite sliceMaker_axes.
  cbn [fst snd ymax xmax two_spots].
  destruct (two_spots_axis cy) as (_ & _ & Hny).
  destruct (two_spots_axis cx) as (_ & _ & Hnx).
  specialize (Hny Hy). specialize (Hnx Hx). nia.
Qed.

(** A roomy window of the example stack has from one to seven rows and
    columns, and starts among the first six. *)
Lemma two_spots_window cy cx s data :
  roomy two_spots 6 cy cx ->
  window two_spots s (fst (sliceMaker two_spots cy cx 6))
                     (snd (sliceMaker two_spots cy cx 6)) = Ok data ->
  exists h w,
    shape data = [h; w] /\ 1 <= h <= 7 /\ 1 <= w <= 7
    /\ flat data <> []
    /\ 0 <= start (fst (sliceMaker two_spots cy cx 6)) <= 5
    /\ 0 <= start (snd (sliceMaker two_spots cy cx 6)) <= 5.
Proof.
  unfold roomy, window_pixels. rewrite sliceMaker_axes.
  cbn [fst snd ymax xmax two_spots]. intros Hroomy Hwin.
  destruct (two_spots_axis cy) as (Hy7 & Hys & _).
  destruct (two_spots_axis cx) as (Hx7 & Hxs & _).
  assert (Hny : (1 <= length (slice_indices 7 (axis 7 cy 6)))%nat) by nia.
  assert (Hnx : (1 <= length (slice_indices 7 (axis 7 cx 6)))%nat) by nia.
  unfold window in Hwin. destruct (_ || _); [done|].
  injection Hwin as <-. cbn [shape flat ymax xmax two_spots].
  eexists _, _. split; [reflexivity|].
  split; [lia|]. split; [lia|]. split; [|by auto].
  intros Hnil. apply (f_equal length) in Hnil.
  rewrite (bind_length _ _ (length (slice_indices 7 (axis 7 cx 6)))) in Hnil.
  - simpl in Hnil. nia.
  - intros r _. rewrite (bind_length _ _ 1%nat); [lia|]. by intros c _.
Qed.

Lemma round_unit_start k :
  0 <= k <= 5 -> F64.int_round (F64.of_Z 1 + F64.of_Z k)%f64 = Ok (1 + k).
Proof.
  intros Hk.
  assert (k = 0 \/ k = 1 \/ k = 2 \/ k = 3 \/ k = 4 \/ k = 5) as Hcases by lia.
  destruct Hcases as [->|[->|[->|[->|[->| ->]]]]]; reflexivity.
Qed.

Lemma round_zero_start k :
  0 <= k <= 5 -> F64.int_round (F64.zero + F64.of_Z k)%f64 = Ok k.
Proof.
  intros Hk.
  assert (k = 0 \/ k = 1 \/ k = 2 \/ k = 3 \/ k = 4 \/ k = 5) as Hcases by lia.
  destruct Hcases as [->|[->|[->|[->|[->| ->]]]]]; reflexivity.
Qed.

(** The unit bead and the zero vector, moved by the start of a roomy
    window, have their center on a roomy pixel. *)
Lemma unit_bead_recenter ys xs :
  0 <= ys <= 5 -> 0 <= xs <= 5 -> recenter_ok two_spots 6 ys xs unit_bead.
Proof.
  intros Hy Hx. exists (F64.of_Z 1), (F64.of_Z 1), (1 + ys), (1 + xs).
  split; [reflexivity|]. split; [reflexivity|].
  split; [by apply round_unit_start|]. split; [by apply round_unit_start|].
  apply two_spots_roomy; lia.
Qed.

Lemma zeros_recenter g ys xs :
  length g = 7%nat -> 0 <= ys <= 5 -> 0 <= xs <= 5 ->
  recenter_ok two_spots 6 ys xs (np.zeros_like g).
Proof.
  intros Hg Hy Hx.
  destruct g as [|p0 [|p1 [|p2 [|p3 [|p4 [|p5 [|p6 [|p7 rest]]]]]]]];
    try done.
  exists F64.zero, F64.zero, ys, xs.
  split; [reflexivity|]. split; [reflexivity|].
  split; [by apply round_zero_start|]. split; [by apply round_zero_start|].
  apply two_spots_roomy; lia.
Qed.

(** A finite seed fit of the example solver is the unit bead or the zero
    vector. *)
Lemma follows_light_seed_window cy cx s data fit popt :
  roomy two_spots 6 cy cx ->
  window two_spots s (fst (sliceMaker two_spots cy cx 6))
                     (snd (sliceMaker two_spots cy cx 6)) = Ok data ->
  @optimize_params_ls follows_light (init data) None full = Ok (fit, popt) ->
  np.all_finite popt = true ->
  recenter_ok two_spots 6
    (start (fst (sliceMaker two_spots cy cx 6)))
    (start (snd (sliceMaker two_spots cy cx 6))) popt.
Proof.
  intros Hroomy Hwin Hopt Hfin.
  destruct (two_spots_window cy cx s data Hroomy Hwin)
    as (h & w & Hshape & Hh & Hw & Hne & Hys & Hxs).
  destruct (starting_point_none (init data) full h w Hshape Hne)
    as (self1 & g & Hstart & Hdata & Hg).
  simpl in Hdata, Hg.
  destruct (follows_light_fit _ _ _ _ _ _ _ h w Hstart Hg
              ltac:(by rewrite Hdata) Hh Hw Hopt) as [_ Hcases].
  destruct (lit _).
  - destruct (np.all_finite (shape_of g)) eqn:Hsh.
    + destruct Hcases as [_ ->]. by apply unit_bead_recenter.
    + destruct Hcases as [-> | ->]; [|by apply zeros_recenter].
      rewrite (all_finite_shape g Hg Hfin) in Hsh. done.
  - destruct Hcases as [_ ->]. by apply zeros_recenter.
Qed.

Lemma follows_light_seeds blob :
  roomy two_spots 6 (blob_y blob) (blob_x blob) ->
  @seed_stays_roomy follows_light two_spots 6 blob.
Proof.
  intros Hroomy opt Hseed Hfin. unfold seed_fit in Hseed. cbv zeta in Hseed.
  destruct (PSFStackAnalyzer.brightest _ _ _) as [m|]; [|done].
  cbn [bind] in Hseed.
  destruct (window two_spots m _ _) as [data|] eqn:Hwin; [|done].
  cbn [bind] in Hseed.
  destruct (@optimize_params_ls follows_light (init data) None full)
    as [[max_z popt]|] eqn:Hopt; [|done].
  cbn [bind] in Hseed.
  destruct (opt_params_saved _ _ _ _ _ Hopt) as [_ Hsaved].
  assert (opt = popt) as -> by congruence.
  by eapply follows_light_seed_window.
Qed.

Lemma follows_light_tracks : @tracks_stay_roomy follows_light two_spots 6.
Proof.
  intros cy cx s data guess fit popt Hroomy Hwin Hsteady Hfit Herr Hopt.
  destruct (two_spots_window cy cx s data Hroomy Hwin)
    as (h & w & Hshape & Hh & Hw & Hne & Hys & Hxs).
  destruct (steady_guess_shape guess Hsteady) as [Hg Hsh].
  assert (Hunit : popt = unit_bead).
  { unfold attempt in Hfit.
    destruct (@optimize_params_ls follows_light (init data)
                (Some (guess_of_dict guess)) full)
      as [[fit1 popt1]|] eqn:H1; [|done].
    cbn [bind] in Hfit.
    destruct (opt_params_saved _ _ _ _ _ H1) as [Hsaved1 _].
    pose proof (starting_point_some (init data) (guess_of_dict guess) full)
      as Hstart1.
    destruct (follows_light_fit _ _ _ _ _ _ _ h w Hstart1 Hg Hshape Hh Hw H1)
      as [Hdata1 Hcases1].
    simpl in Hdata1, Hcases1. rewrite Hsh in Hcases1.
    destruct (lit (flat data)) eqn:Hlit.
    - destruct Hcases1 as [Herr1 ->]. rewrite Herr1 in Hfit.
      injection Hfit as <-. congruence.
    - destruct Hcases1 as [Herr1 _]. rewrite Herr1 in Hfit.
      destruct (@optimize_params_ls follows_light fit1 None full)
        as [[fit2 popt2]|] eqn:H2; [|done].
      cbn [bind] in Hfit. injection Hfit as <-.
      destruct (starting_point fit1 None full)
        as [[self2 g2]|] eqn:Hstart2;
        [|unfold optimize_params_ls in H2; by rewrite Hstart2 in H2].
      pose proof (cold_start_data _ _ _ _ Hstart2) as Hdata2.
      pose proof (cold_start_length _ _ _ _ Hstart2) as Hg2. simpl in Hg2.
      destruct (follows_light_fit _ _ _ _ _ _ _ h w Hstart2 Hg2
                  ltac:(by rewrite Hdata2, Hdata1) Hh Hw H2) as [_ Hcases2].
      rewrite Hdata2, Hdata1, Hlit in Hcases2.
      destruct Hcases2 as [Herr2 _]. congruence. }
  subst popt. split; [reflexivity|]. by apply unit_bead_recenter.
Qed.

End FollowsLight.


Section CompletionExamples.
Import PSFStackAnalyzer.

(** The run of the example: the blob on the bead is followed through the
    four slices, the two dark slices being recorded as failed fits, with
    zeros; the blob on the lone pixel is unfittable, because the moment
    estimate of its seed window has a correlation of 0/0, and it is left
    out. *)
Example pipeline_two_spots :
  exists df psf,
    @pipeline follows_light two_spots [blob_at 1 1; blob_at 6 6] 6 full
       (None, None) true None None = Ok ([df], [psf])
    /\ @fitBlob follows_light two_spots 6 full (blob_at 1 1) = Ok (Some df)
    /\ @fitBlob follows_light two_spots 6 full (blob_at 6 6) = Ok None
    /\ map (fun e => (e.1, F64.int_round (pd.cell e.2 "amp"),
                      F64.int_round (pd.cell e.2 "y0"),
                      F64.int_round (pd.cell e.2 "x0"))) (pd.rows df)
       = [(0, Ok 0, Ok 0, Ok 0); (1, Ok 1, Ok 1, Ok 1);
          (2, Ok 1, Ok 1, Ok 1); (3, Ok 0, Ok 0, Ok 0)].
Proof.
  eexists _, _. split; [|split; [|split]].
  - vm_compute. reflexivity.
  - vm_compute. reflexivity.
  - vm_compute. reflexivity.
  - vm_compute. reflexivity.
Qed.


End CompletionExamples.
